(** * Role-based authorisation core of the hostel management backend

    A shallow embedding of [Backend/src/types/enum.ts],
    [Backend/src/models/Role.ts], [Backend/src/services/roleService.ts],
    [Backend/src/validations/roleValidation.ts],
    [Backend/src/controllers/roleController.ts] and of the gates of
    [Backend/src/middlewares/authMiddleware.ts]: [verifyToken],
    [optionalAuth], [requireRole] and the three gates made of it,
    [canManageRole], [requirePermission], and [rateLimitAuth] in its two
    versions (keyed by address and account, and keyed by address).

    Conventions of the embedding:
    - JavaScript strings are [string]; [length] counts the characters of the
      Rocq string, and the case and white-space functions act on ASCII.
    - A MongoDB collection of roles is the list of its documents in insertion
      order ([findOne] returns the first match); the collection of users is a
      finite map from [_id] to document.  The [timestamps] fields are left out.
    - A service method is a computation over the database in a state and
      exception monad: [Throw msg] is [throw new Error(msg)].  A call runs to
      its end with no other call in between; where the [await]s of a method
      let another request in, the steps are run one by one
      ([createRoleOverlapped]).
    - What the Mongoose driver decides on its own (whether an id string casts
      to an ObjectId, which id a new document gets) is the [Driver] interface;
      what [jsonwebtoken] decides about a token is the [Jwt] interface. *)

From Stdlib Require Import ZArith String Ascii List Bool Lia DecimalString.
From stdpp Require Import base option list gmap strings.

Local Open Scope string_scope.
Local Open Scope list_scope.

(** ** JavaScript string and number primitives used by the code *)

Module Js.

(** [s.includes(p)] *)
Fixpoint includes (s p : string) : bool :=
  String.prefix p s ||
  match s with
  | EmptyString => false
  | String _ s' => includes s' p
  end.

(** [arr.includes(x)] on an array of strings *)
Definition arrayIncludes (arr : list string) (x : string) : bool :=
  existsb (String.eqb x) arr.

(** Template-literal printing of a non-negative integer. *)
Definition natToString (n : nat) : string :=
  NilEmpty.string_of_uint (Nat.to_uint n).

(** Template-literal printing of an integer. *)
Definition intToString (z : Z) : string :=
  NilEmpty.string_of_int (Z.to_int z).

(** [Math.ceil(a / b)] for integers [a] and [b > 0]. *)
Definition ceilDiv (a b : Z) : Z := (- ((- a) / b))%Z.

Definition isWhiteSpace (c : ascii) : bool :=
  match nat_of_ascii c with
  | 9 | 10 | 11 | 12 | 13 | 32 => true
  | _ => false
  end.

Fixpoint trimStart (s : string) : string :=
  match s with
  | EmptyString => EmptyString
  | String c s' => if isWhiteSpace c then trimStart s' else s
  end.

Fixpoint trimEnd (s : string) : string :=
  match s with
  | EmptyString => EmptyString
  | String c s' =>
      match trimEnd s' with
      | EmptyString => if isWhiteSpace c then EmptyString else String c EmptyString
      | t => String c t
      end
  end.

Definition trim (s : string) : string := trimEnd (trimStart s).

Definition lowerChar (c : ascii) : ascii :=
  let n := nat_of_ascii c in
  if Nat.leb 65 n && Nat.leb n 90 then ascii_of_nat (n + 32) else c.

Fixpoint toLowerCase (s : string) : string :=
  match s with
  | EmptyString => EmptyString
  | String c s' => String (lowerChar c) (toLowerCase s')
  end.

(** The characters [0] to [9], of which the decimal notations are made. *)
Definition isDigit (c : ascii) : bool :=
  Nat.leb 48 (nat_of_ascii c) && Nat.leb (nat_of_ascii c) 57.

Fixpoint allDigits (s : string) : bool :=
  match s with
  | EmptyString => true
  | String c s' => isDigit c && allDigits s'
  end.

(** The property names an object literal inherits from [Object.prototype]:
    [obj[key]] is defined, and truthy, for them too. *)
Definition inheritedKeys : list string :=
  ["constructor"; "__defineGetter__"; "__defineSetter__"; "hasOwnProperty";
   "__lookupGetter__"; "__lookupSetter__"; "isPrototypeOf"; "propertyIsEnumerable";
   "toString"; "valueOf"; "__proto__"; "toLocaleString"].

(** [a || b] on values that are a string or [undefined]: the empty string is
    falsy as well. *)
Definition orElse (a : option string) (b : string) : string :=
  match a with
  | Some (String c s) => String c s
  | _ => b
  end.

End Js.

(** A TypeScript [Record<string, A>] constant, read with [rec[key]]. *)
Fixpoint recordGet {A : Type} (rec : list (string * A)) (key : string) : option A :=
  match rec with
  | [] => None
  | (k, v) :: rest => if String.eqb k key then Some v else recordGet rest key
  end.

(** ** [types/enum.ts] *)

Module USER_ROLE.
Definition STUDENT : string := "student".
Definition TEACHER : string := "teacher".
Definition ADMIN : string := "admin".
  (** [Object.values(USER_ROLE)] *)
Definition values : list string := [STUDENT; TEACHER; ADMIN].
End USER_ROLE.

Module PERMISSION.
Definition CREATE_USER : string := "create_user".
Definition READ_USER : string := "read_user".
Definition UPDATE_USER : string := "update_user".
Definition DELETE_USER : string := "delete_user".
Definition MANAGE_ROLES : string := "manage_roles".
Definition ASSIGN_ROLES : string := "assign_roles".
Definition MANAGE_HOTELS : string := "manage_hotels".
Definition VIEW_HOTELS : string := "view_hotels".
Definition MANAGE_BOOKINGS : string := "manage_bookings".
Definition VIEW_BOOKINGS : string := "view_bookings".
Definition CREATE_BOOKING : string := "create_booking".
Definition MANAGE_ROOMS : string := "manage_rooms".
Definition VIEW_ROOMS : string := "view_rooms".
Definition MANAGE_PAYMENTS : string := "manage_payments".
Definition VIEW_PAYMENTS : string := "view_payments".
Definition VIEW_REPORTS : string := "view_reports".
Definition EXPORT_DATA : string := "export_data".
Definition MANAGE_SETTINGS : string := "manage_settings".
Definition VIEW_LOGS : string := "view_logs".
  (** [Object.values(PERMISSION)] *)
Definition values : list string :=
    [CREATE_USER; READ_USER; UPDATE_USER; DELETE_USER;
     MANAGE_ROLES; ASSIGN_ROLES;
     MANAGE_HOTELS; VIEW_HOTELS;
     MANAGE_BOOKINGS; VIEW_BOOKINGS; CREATE_BOOKING;
     MANAGE_ROOMS; VIEW_ROOMS;
     MANAGE_PAYMENTS; VIEW_PAYMENTS;
     VIEW_REPORTS; EXPORT_DATA;
     MANAGE_SETTINGS; VIEW_LOGS].
End PERMISSION.

(** Role hierarchy - defines which roles can manage which other roles *)
Definition ROLE_HIERARCHY : list (string * list string) :=
  [ (USER_ROLE.ADMIN, [USER_ROLE.TEACHER; USER_ROLE.STUDENT]);
    (USER_ROLE.TEACHER, [USER_ROLE.STUDENT]);
    (USER_ROLE.STUDENT, []) ].

(** Role permissions mapping *)
Definition ROLE_PERMISSIONS : list (string * list string) :=
  [ (USER_ROLE.ADMIN,
      [PERMISSION.CREATE_USER; PERMISSION.READ_USER; PERMISSION.UPDATE_USER;
       PERMISSION.DELETE_USER;
       PERMISSION.MANAGE_ROLES; PERMISSION.ASSIGN_ROLES;
       PERMISSION.MANAGE_HOTELS; PERMISSION.VIEW_HOTELS;
       PERMISSION.MANAGE_BOOKINGS; PERMISSION.VIEW_BOOKINGS;
       PERMISSION.CREATE_BOOKING;
       PERMISSION.MANAGE_ROOMS; PERMISSION.VIEW_ROOMS;
       PERMISSION.MANAGE_PAYMENTS; PERMISSION.VIEW_PAYMENTS;
       PERMISSION.VIEW_REPORTS; PERMISSION.EXPORT_DATA;
       PERMISSION.MANAGE_SETTINGS; PERMISSION.VIEW_LOGS]);
    (USER_ROLE.TEACHER,
      [PERMISSION.READ_USER;
       PERMISSION.VIEW_HOTELS;
       PERMISSION.MANAGE_BOOKINGS; PERMISSION.VIEW_BOOKINGS;
       PERMISSION.CREATE_BOOKING;
       PERMISSION.MANAGE_ROOMS; PERMISSION.VIEW_ROOMS;
       PERMISSION.VIEW_PAYMENTS;
       PERMISSION.VIEW_REPORTS]);
    (USER_ROLE.STUDENT,
      [PERMISSION.VIEW_HOTELS;
       PERMISSION.VIEW_BOOKINGS; PERMISSION.CREATE_BOOKING;
       PERMISSION.VIEW_ROOMS;
       PERMISSION.VIEW_PAYMENTS]) ].

(** ** Documents and collections ([models/Role.ts], [models/User.ts]) *)

Record RoleDoc := mkRoleDoc {
  _id : string;
  name : string;
  displayName : string;
  description : option string;
  permissions : list string;
  isSystem : bool;
  isActive : bool;
  createdBy : option string;
  updatedBy : option string
}.

Record UserDoc := mkUserDoc {
  firstName : string;
  email : string;
  role : string;
  status : string;
  password : option string
}.

Record DB := mkDB {
  roles : list RoleDoc;
  users : gmap string UserDoc
}.

(** The object handed to [Role.create]. *)
Record RoleData := mkRoleData {
  data_name : string;
  data_displayName : string;
  data_description : option string;
  data_permissions : list string;
  data_isSystem : option bool;
  data_createdBy : option string
}.

(** [CreateRoleInput] and [UpdateRoleInput] of the validation module: what
    [createRoleSchema.parse] and [updateRoleSchema.parse] return. *)
Record CreateRoleInput := mkCreateRoleInput {
  create_name : string;
  create_displayName : string;
  create_description : option string;
  create_permissions : list string
}.

Record UpdateRoleInput := mkUpdateRoleInput {
  update_displayName : option string;
  update_description : option string;
  update_permissions : option (list string);
  update_isActive : option bool
}.

(** What the driver decides: [castError id] is the message of the exception
    raised when [id] does not cast to an ObjectId ([None] when it casts), and
    [newObjectId ids] is the [_id] given to a document inserted into a
    collection whose documents have the ids [ids]. *)
Class Driver := {
  castError : string -> option string;
  newObjectId : list string -> string
}.

(** The [name] path of the role schema has [trim: true, lowercase: true]; the
    setters run on stored values and on query filters alike. *)
Definition castName (s : string) : string := Js.toLowerCase (Js.trim s).

(** [displayName] and [description] have [trim: true]. *)
Definition castText (s : string) : string := Js.trim s.

(** The filter [{ name: roleName, isActive: true }] as a property of a
    document. *)
Definition matchesActive (roleName : string) (r : RoleDoc) : Prop :=
  name r = castName roleName /\ isActive r = true.

(** ** The state and exception monad of the service layer *)

Inductive result (A : Type) : Type :=
| Ok (a : A)
| Throw (message : string).
Arguments Ok {A} a.
Arguments Throw {A} message.

Definition M (A : Type) : Type := DB -> result A * DB.

Definition ret {A} (a : A) : M A := fun db => (Ok a, db).
Definition throw {A} (message : string) : M A := fun db => (Throw message, db).
Definition bind {A B} (m : M A) (k : A -> M B) : M B :=
  fun db =>
    match m db with
    | (Ok a, db') => k a db'
    | (Throw e, db') => (Throw e, db')
    end.
(** [try { m } catch (error) { handler(error.message) }] *)
Definition tryCatch {A} (m : M A) (handler : string -> M A) : M A :=
  fun db =>
    match m db with
    | (Ok a, db') => (Ok a, db')
    | (Throw e, db') => handler e db'
    end.

Notation "x <- m ;; k" := (bind m (fun x => k))
  (at level 100, m at next level, right associativity).
Notation "m ;;; k" := (bind m (fun _ => k))
  (at level 100, right associativity).

(** [for (const x of xs) { body }] *)
Fixpoint forOf {A} (xs : list A) (body : A -> M unit) : M unit :=
  match xs with
  | [] => ret tt
  | x :: rest => body x ;;; forOf rest body
  end.

(** ** Queries of the two models *)

Module Role.
Section WithDriver.
Context `{Driver}.

(** [Role.findOne({ name })] *)
Definition findOneByName (n : string) : M (option RoleDoc) :=
  fun db => (Ok (List.find (fun r => String.eqb (name r) (castName n)) (roles db)), db).

(** [Role.findOne({ name, isActive: true })] *)
Definition findOneActive (n : string) : M (option RoleDoc) :=
  fun db =>
    (Ok (List.find (fun r => String.eqb (name r) (castName n) && isActive r) (roles db)), db).

(** [Role.findById(roleId)] *)
Definition findById (roleId : string) : M (option RoleDoc) :=
  fun db =>
    match castError roleId with
    | Some e => (Throw e, db)
    | None => (Ok (List.find (fun r => String.eqb (_id r) roleId) (roles db)), db)
    end.

(** The document built from the data: setters and defaults of the schema. *)
Definition build (d : RoleData) (ids : list string) : RoleDoc :=
  {| _id := newObjectId ids;
     name := castName (data_name d);
     displayName := castText (data_displayName d);
     description := option_map castText (data_description d);
     permissions := data_permissions d;
     isSystem := match data_isSystem d with Some b => b | None => false end;
     isActive := true;
     createdBy := data_createdBy d;
     updatedBy := None |}.

(** A value given for an [ObjectId] path that the driver cannot cast. *)
Definition castFails (v : option string) : bool :=
  match v with
  | Some s => match castError s with Some _ => true | None => false end
  | None => false
  end.

(** Validation of a new document: the cast of [createdBy], an [ObjectId]
    path, recorded when the document was built; then the two required paths
    and the [enum] of [permissions].  The message is the head of the
    driver's. *)
Definition validate (r : RoleDoc) : option string :=
  if castFails (createdBy r) then Some "Role validation failed: createdBy"
  else if String.eqb (name r) EmptyString then Some "Role validation failed: name"
  else if String.eqb (displayName r) EmptyString then Some "Role validation failed: displayName"
  else if negb (forallb (Js.arrayIncludes PERMISSION.values) (permissions r))
       then Some "Role validation failed: permissions"
  else None.

(** [Role.create(data)] *)
Definition create (d : RoleData) : M RoleDoc :=
  fun db =>
    let r := build d (List.map _id (roles db)) in
    match validate r with
    | Some e => (Throw e, db)
    | None => (Ok r, {| roles := roles db ++ [r]; users := users db |})
    end.

(** The update object of [updateRole]: [{ ...updateData, updatedBy }]. *)
Definition applyUpdate (u : UpdateRoleInput) (by_ : string) (r : RoleDoc) : RoleDoc :=
  {| _id := _id r;
     name := name r;
     displayName :=
       match update_displayName u with Some s => castText s | None => displayName r end;
     description :=
       match update_description u with Some s => Some (castText s) | None => description r end;
     permissions :=
       match update_permissions u with Some p => p | None => permissions r end;
     isSystem := isSystem r;
     isActive := match update_isActive u with Some b => b | None => isActive r end;
     createdBy := createdBy r;
     updatedBy := Some by_ |}.

Fixpoint updateFirst (p : RoleDoc -> bool) (f : RoleDoc -> RoleDoc) (l : list RoleDoc)
  : list RoleDoc :=
  match l with
  | [] => []
  | r :: rest => if p r then f r :: rest else r :: updateFirst p f rest
  end.

Fixpoint removeFirst (p : RoleDoc -> bool) (l : list RoleDoc) : list RoleDoc :=
  match l with
  | [] => []
  | r :: rest => if p r then rest else r :: removeFirst p rest
  end.

(** [Role.findByIdAndUpdate(roleId, { ...updateData, updatedBy }, { new: true })]:
    the filter is cast, then the update, in which [updatedBy] is an
    [ObjectId] path; no validator runs. *)
Definition findByIdAndUpdate (roleId : string) (u : UpdateRoleInput) (by_ : string)
  : M (option RoleDoc) :=
  fun db =>
    match castError roleId with
    | Some e => (Throw e, db)
    | None =>
        match castError by_ with
        | Some e => (Throw e, db)
        | None =>
            let hit := fun r => String.eqb (_id r) roleId in
            let roles' := updateFirst hit (applyUpdate u by_) (roles db) in
            (Ok (List.find hit roles'), {| roles := roles'; users := users db |})
        end
    end.

(** [Role.findByIdAndDelete(roleId)] *)
Definition findByIdAndDelete (roleId : string) : M unit :=
  fun db =>
    match castError roleId with
    | Some e => (Throw e, db)
    | None =>
        (Ok tt, {| roles := removeFirst (fun r => String.eqb (_id r) roleId) (roles db);
                   users := users db |})
    end.

End WithDriver.
End Role.

Module User.
Section WithDriver.
Context `{Driver}.

(** [User.findById(userId)] *)
Definition findById (userId : string) : M (option UserDoc) :=
  fun db =>
    match castError userId with
    | Some e => (Throw e, db)
    | None => (Ok (users db !! userId), db)
    end.

Definition setRole (roleName : string) (u : UserDoc) : UserDoc :=
  {| firstName := firstName u; email := email u; role := roleName;
     status := status u; password := password u |}.

(** [.select('-password')] *)
Definition withoutPassword (u : UserDoc) : UserDoc :=
  {| firstName := firstName u; email := email u; role := role u;
     status := status u; password := None |}.

(** [User.findByIdAndUpdate(userId, { role: roleName }, { new: true })] *)
Definition findByIdAndUpdate (userId roleName : string) : M (option UserDoc) :=
  fun db =>
    match castError userId with
    | Some e => (Throw e, db)
    | None =>
        let users' := alter (setRole roleName) userId (users db) in
        (Ok (users' !! userId), {| roles := roles db; users := users' |})
    end.

(** [User.countDocuments({ role: roleName })] *)
Definition countDocuments (roleName : string) : M nat :=
  fun db => (Ok (size (filter (fun kv : string * UserDoc => role kv.2 = roleName) (users db))), db).

End WithDriver.
End User.

(** ** [services/roleService.ts] *)

Module RoleService.
Section WithDriver.
Context `{Driver}.

Definition systemRoles : list RoleData :=
  [ {| data_name := USER_ROLE.ADMIN;
       data_displayName := "Administrator";
       data_description := Some "Full system administrator with all permissions";
       data_permissions := default [] (recordGet ROLE_PERMISSIONS USER_ROLE.ADMIN);
       data_isSystem := Some true;
       data_createdBy := None |};
    {| data_name := USER_ROLE.TEACHER;
       data_displayName := "Teacher";
       data_description := Some "Teacher with limited administrative permissions";
       data_permissions := default [] (recordGet ROLE_PERMISSIONS USER_ROLE.TEACHER);
       data_isSystem := Some true;
       data_createdBy := None |};
    {| data_name := USER_ROLE.STUDENT;
       data_displayName := "Student";
       data_description := Some "Student with basic permissions";
       data_permissions := default [] (recordGet ROLE_PERMISSIONS USER_ROLE.STUDENT);
       data_isSystem := Some true;
       data_createdBy := None |} ].

(** The body of the loop of [initializeSystemRoles]. *)
Definition seedRole (roleData : RoleData) : M unit :=
  existingRole <- Role.findOneByName (data_name roleData) ;;
  match existingRole with
  | None => Role.create roleData ;;; ret tt
  | Some _ => ret tt
  end.

(** Initialize system roles if they don't exist *)
Definition initializeSystemRoles : M unit := forOf systemRoles seedRole.

(** Create a new role *)
Definition createRole (roleData : CreateRoleInput) (createdBy_ : string) : M RoleDoc :=
  existingRole <- Role.findOneByName (create_name roleData) ;;
  match existingRole with
  | Some _ => throw "Role with this name already exists"
  | None =>
      Role.create {| data_name := create_name roleData;
                     data_displayName := create_displayName roleData;
                     data_description := create_description roleData;
                     data_permissions := create_permissions roleData;
                     data_isSystem := None;
                     data_createdBy := Some createdBy_ |}
  end.

(** Update a role *)
Definition updateRole (roleId : string) (updateData : UpdateRoleInput) (updatedBy_ : string)
  : M (option RoleDoc) :=
  role_ <- Role.findById roleId ;;
  match role_ with
  | None => throw "Role not found"
  | Some r =>
      if isSystem r then throw "System roles cannot be modified"
      else Role.findByIdAndUpdate roleId updateData updatedBy_
  end.

Definition deleteRoleMessage (usersWithRole : nat) : string :=
  "Cannot delete role. " ++ Js.natToString usersWithRole
    ++ " user(s) are currently assigned this role.".

(** Delete a role *)
Definition deleteRole (roleId : string) : M unit :=
  role_ <- Role.findById roleId ;;
  match role_ with
  | None => throw "Role not found"
  | Some r =>
      if isSystem r then throw "System roles cannot be deleted"
      else
        usersWithRole <- User.countDocuments (name r) ;;
        if Nat.ltb 0 usersWithRole then throw (deleteRoleMessage usersWithRole)
        else Role.findByIdAndDelete roleId
  end.

(** Check if a user can assign a specific role based on role hierarchy *)
Definition canAssignRole (userRole targetRole : string) : bool :=
  if Js.arrayIncludes USER_ROLE.values userRole then
    let manageableRoles := default [] (recordGet ROLE_HIERARCHY userRole) in
    Js.arrayIncludes manageableRoles targetRole || String.eqb userRole targetRole
  else String.eqb userRole USER_ROLE.ADMIN.

(** Assign role to a user *)
Definition assignRoleToUser (userId roleName assignedBy : string) : M (option UserDoc) :=
  user <- User.findById userId ;;
  match user with
  | None => throw "User not found"
  | Some _ =>
      role_ <- Role.findOneActive roleName ;;
      match role_ with
      | None => throw "Role not found or inactive"
      | Some _ =>
          assigningUser <- User.findById assignedBy ;;
          match assigningUser with
          | None => throw "Assigning user not found"
          | Some a =>
              if negb (canAssignRole (role a) roleName)
              then throw "You do not have permission to assign this role"
              else
                updatedUser <- User.findByIdAndUpdate userId roleName ;;
                ret (option_map User.withoutPassword updatedUser)
          end
      end
  end.

(** The result object of [bulkAssignRole]. *)
Record BulkResult := mkBulkResult {
  success : list string;
  failed : list (string * string)
}.

(** The body of the [for] loop of [bulkAssignRole], with the two arrays it
    pushes to. *)
Definition bulkAssignStep (roleName : string) (acc : BulkResult) (userId : string)
  : M BulkResult :=
  tryCatch
    (user <- User.findById userId ;;
     match user with
     | None =>
         ret {| success := success acc;
                failed := failed acc ++ [(userId, "User not found")] |}
     | Some _ =>
         User.findByIdAndUpdate userId roleName ;;;
         ret {| success := success acc ++ [userId]; failed := failed acc |}
     end)
    (fun error =>
       ret {| success := success acc; failed := failed acc ++ [(userId, error)] |}).

Fixpoint bulkAssignLoop (roleName : string) (userIds : list string) (acc : BulkResult)
  : M BulkResult :=
  match userIds with
  | [] => ret acc
  | userId :: rest =>
      acc' <- bulkAssignStep roleName acc userId ;;
      bulkAssignLoop roleName rest acc'
  end.

(** Bulk assign role to multiple users *)
Definition bulkAssignRole (userIds : list string) (roleName assignedBy : string)
  : M BulkResult :=
  role_ <- Role.findOneActive roleName ;;
  match role_ with
  | None => throw "Role not found or inactive"
  | Some _ =>
      assigningUser <- User.findById assignedBy ;;
      match assigningUser with
      | None => throw "Assigning user not found"
      | Some a =>
          if negb (canAssignRole (role a) roleName)
          then throw "You do not have permission to assign this role"
          else bulkAssignLoop roleName userIds {| success := []; failed := [] |}
      end
  end.

(** Get role permissions *)
Definition getRolePermissions (roleName : string) : M (list string) :=
  role_ <- Role.findOneActive roleName ;;
  match role_ with
  | Some r => ret (permissions r)
  | None =>
      if Js.arrayIncludes USER_ROLE.values roleName
      then ret (default [] (recordGet ROLE_PERMISSIONS roleName))
      else ret []
  end.

(** Check if user has specific permission *)
Definition hasPermission (userId permission : string) : M bool :=
  user <- User.findById userId ;;
  match user with
  | None => ret false
  | Some u =>
      permissions_ <- getRolePermissions (role u) ;;
      ret (Js.arrayIncludes permissions_ permission)
  end.

(** Get role by ID *)
Definition getRoleById (roleId : string) : M RoleDoc :=
  role_ <- Role.findById roleId ;;
  match role_ with
  | None => throw "Role not found"
  | Some r => ret r
  end.

(** Get role by name *)
Definition getRoleByName (roleName : string) : M RoleDoc :=
  role_ <- Role.findOneByName roleName ;;
  match role_ with
  | None => throw "Role not found"
  | Some r => ret r
  end.

(** [createRole] from the point where its first [await] returns: what the
    call does with the answer of [Role.findOne].  [createRole] is the lookup
    followed by this; between the two, the event loop may serve other
    requests. *)
Definition createRoleAfterLookup (roleData : CreateRoleInput) (createdBy_ : string)
  (existingRole : option RoleDoc) : M RoleDoc :=
  match existingRole with
  | Some _ => throw "Role with this name already exists"
  | None =>
      Role.create {| data_name := create_name roleData;
                     data_displayName := create_displayName roleData;
                     data_description := create_description roleData;
                     data_permissions := create_permissions roleData;
                     data_isSystem := None;
                     data_createdBy := Some createdBy_ |}
  end.

End WithDriver.
End RoleService.

(** ** Request bodies and the zod schemas ([validations/roleValidation.ts]) *)

#[local] Unset Elimination Schemes.
Inductive Json : Type :=
| JNull
| JBool (b : bool)
| JNumber (z : Z)
| JString (s : string)
| JArray (items : list Json)
| JObject (fields : gmap string Json).
#[local] Set Elimination Schemes.

Module Zod.

(** [z.string()] with a lower and an upper bound on the length, [.optional()] *)
Definition optionalString (minLen maxLen : nat) (v : option Json) : option (option string) :=
  match v with
  | None => Some None
  | Some (JString s) =>
      if Nat.leb minLen (String.length s) && Nat.leb (String.length s) maxLen
      then Some (Some s) else None
  | Some _ => None
  end.

(** [z.string().min(1)], required *)
Definition requiredString (v : option Json) : option string :=
  match v with
  | Some (JString s) => if Nat.leb 1 (String.length s) then Some s else None
  | _ => None
  end.

(** [z.nativeEnum(PERMISSION)] *)
Definition permission (v : Json) : option string :=
  match v with
  | JString s => if Js.arrayIncludes PERMISSION.values s then Some s else None
  | _ => None
  end.

(** [z.array(z.nativeEnum(PERMISSION)).min(1).optional()] *)
Definition optionalPermissions (v : option Json) : option (option (list string)) :=
  match v with
  | None => Some None
  | Some (JArray items) =>
      match mapM permission items with
      | Some (p :: ps) => Some (Some (p :: ps))
      | _ => None
      end
  | Some _ => None
  end.

(** [z.boolean().optional()] *)
Definition optionalBoolean (v : option Json) : option (option bool) :=
  match v with
  | None => Some None
  | Some (JBool b) => Some (Some b)
  | Some _ => None
  end.

(** [updateRoleSchema.parse]: [None] stands for the thrown [ZodError].  Keys
    the schema does not name are dropped from the result. *)
Definition updateRoleSchema (body : Json) : option UpdateRoleInput :=
  match body with
  | JObject fields =>
      match optionalString 2 100 (fields !! "displayName"),
            optionalString 0 500 (fields !! "description"),
            optionalPermissions (fields !! "permissions"),
            optionalBoolean (fields !! "isActive") with
      | Some dn, Some de, Some pe, Some ia =>
          Some {| update_displayName := dn; update_description := de;
                  update_permissions := pe; update_isActive := ia |}
      | _, _, _, _ => None
      end
  | _ => None
  end.

(** [roleIdSchema.parse(req.params)] *)
Definition roleIdSchema (params : gmap string string) : option string :=
  requiredString (JString <$> params !! "roleId").

(** [assignRoleSchema.parse(req.body)] *)
Definition assignRoleSchema (body : Json) : option (string * string) :=
  match body with
  | JObject fields =>
      match requiredString (fields !! "userId"), requiredString (fields !! "roleName") with
      | Some userId, Some roleName => Some (userId, roleName)
      | _, _ => None
      end
  | _ => None
  end.

(** The characters of the pattern [[a-z_]]. *)
Definition isRoleNameChar (c : ascii) : bool :=
  let n := nat_of_ascii c in
  (Nat.leb 97 n && Nat.leb n 122) || Nat.eqb n 95.

Fixpoint allRoleNameChars (s : string) : bool :=
  match s with
  | EmptyString => true
  | String c s' => isRoleNameChar c && allRoleNameChars s'
  end.

(** [.regex(/^[a-z_]+$/)] *)
Definition roleNamePattern (s : string) : bool :=
  match s with
  | EmptyString => false
  | String _ _ => allRoleNameChars s
  end.

(** [z.string().min(lo).max(hi)], required *)
Definition boundedString (minLen maxLen : nat) (v : option Json) : option string :=
  match v with
  | Some (JString s) =>
      if Nat.leb minLen (String.length s) && Nat.leb (String.length s) maxLen
      then Some s else None
  | _ => None
  end.

(** [z.array(z.nativeEnum(PERMISSION)).min(1)], required *)
Definition requiredPermissions (v : option Json) : option (list string) :=
  match v with
  | Some (JArray items) =>
      match mapM permission items with
      | Some (p :: ps) => Some (p :: ps)
      | _ => None
      end
  | _ => None
  end.

(** [createRoleSchema.parse]: [None] stands for the thrown [ZodError]. *)
Definition createRoleSchema (body : Json) : option CreateRoleInput :=
  match body with
  | JObject fields =>
      match boundedString 2 50 (fields !! "name"),
            boundedString 2 100 (fields !! "displayName"),
            optionalString 0 500 (fields !! "description"),
            requiredPermissions (fields !! "permissions") with
      | Some n, Some dn, Some de, Some pe =>
          if roleNamePattern n
          then Some {| create_name := n; create_displayName := dn;
                       create_description := de; create_permissions := pe |}
          else None
      | _, _, _, _ => None
      end
  | _ => None
  end.

End Zod.

(** ** [controllers/roleController.ts] *)

(** [req.user], set by [verifyToken]. *)
Record AuthUser := mkAuthUser {
  userId : string;
  user_email : string;
  user_role : string
}.

(** [res.status(code).json({ success, message, data })] *)
Record Response (A : Type) := mkResponse {
  statusCode : nat;
  message : string;
  data : option A
}.
Arguments mkResponse {A} _ _ _.
Arguments statusCode {A} _.
Arguments message {A} _.
Arguments data {A} _.

Module RoleController.
Section WithDriver.
Context `{Driver}.
(** The message of the [ZodError] thrown on a body or on route parameters:
    the serialised list of issues. *)
Variable zodMessage : string.

Definition failure {A} (code : nat) (msg : string) : Response A :=
  {| statusCode := code; message := msg; data := None |}.

(** [req.user?.userId], falsy when missing or empty *)
Definition authenticatedId (user : option AuthUser) : option string :=
  match user with
  | Some u => if String.eqb (userId u) EmptyString then None else Some (userId u)
  | None => None
  end.

(** The [catch] block of [updateRole]. *)
Definition updateRoleCatch {A} (msg : string) : Response A :=
  if Js.includes msg "not found" then failure 404 msg
  else if Js.includes msg "cannot be modified" then failure 403 msg
  else failure 500 msg.

(** Update a role *)
Definition updateRole (params : gmap string string) (body : Json) (user : option AuthUser)
  (db : DB) : Response RoleDoc * DB :=
  match Zod.roleIdSchema params with
  | None => (updateRoleCatch zodMessage, db)
  | Some roleId =>
      match Zod.updateRoleSchema body with
      | None => (updateRoleCatch zodMessage, db)
      | Some validatedData =>
          match authenticatedId user with
          | None => (failure 401 "User not authenticated", db)
          | Some uid =>
              match RoleService.updateRole roleId validatedData uid db with
              | (Ok r, db') =>
                  ({| statusCode := 200; message := "Role updated successfully"; data := r |},
                   db')
              | (Throw msg, db') => (updateRoleCatch msg, db')
              end
          end
      end
  end.

(** The [catch] block of [deleteRole]. *)
Definition deleteRoleCatch {A} (msg : string) : Response A :=
  if Js.includes msg "not found" then failure 404 msg
  else if Js.includes msg "cannot be deleted" then failure 403 msg
  else if Js.includes msg "user(s) are currently assigned" then failure 409 msg
  else failure 500 msg.

(** Delete a role *)
Definition deleteRole (params : gmap string string) (db : DB) : Response unit * DB :=
  match Zod.roleIdSchema params with
  | None => (deleteRoleCatch zodMessage, db)
  | Some roleId =>
      match RoleService.deleteRole roleId db with
      | (Ok _, db') =>
          ({| statusCode := 200; message := "Role deleted successfully"; data := None |}, db')
      | (Throw msg, db') => (deleteRoleCatch msg, db')
      end
  end.

(** The [catch] block of [assignRoleToUser]. *)
Definition assignRoleCatch {A} (msg : string) : Response A :=
  if Js.includes msg "not found" then failure 404 msg
  else if Js.includes msg "do not have permission" then failure 403 msg
  else failure 500 msg.

(** Assign role to a user *)
Definition assignRoleToUser (body : Json) (user : option AuthUser) (db : DB)
  : Response UserDoc * DB :=
  match Zod.assignRoleSchema body with
  | None => (assignRoleCatch zodMessage, db)
  | Some (targetId, roleName) =>
      match authenticatedId user with
      | None => (failure 401 "User not authenticated", db)
      | Some assignedBy =>
          match RoleService.assignRoleToUser targetId roleName assignedBy db with
          | (Ok u, db') =>
              ({| statusCode := 200; message := "Role assigned successfully"; data := u |},
               db')
          | (Throw msg, db') => (assignRoleCatch msg, db')
          end
      end
  end.

(** The [catch] block of [createRole]. *)
Definition createRoleCatch {A} (msg : string) : Response A :=
  if Js.includes msg "already exists" then failure 409 msg
  else failure 500 msg.

(** Create a new role *)
Definition createRole (body : Json) (user : option AuthUser) (db : DB)
  : Response RoleDoc * DB :=
  match Zod.createRoleSchema body with
  | None => (createRoleCatch zodMessage, db)
  | Some validatedData =>
      match authenticatedId user with
      | None => (failure 401 "User not authenticated", db)
      | Some uid =>
          match RoleService.createRole validatedData uid db with
          | (Ok r, db') =>
              ({| statusCode := 201; message := "Role created successfully"; data := Some r |},
               db')
          | (Throw msg, db') => (createRoleCatch msg, db')
          end
      end
  end.

(** The [catch] block of [getRoleById]. *)
Definition getRoleByIdCatch {A} (msg : string) : Response A :=
  if Js.includes msg "not found" then failure 404 msg
  else failure 500 msg.

(** Get role by ID *)
Definition getRoleById (params : gmap string string) (db : DB) : Response RoleDoc * DB :=
  match Zod.roleIdSchema params with
  | None => (getRoleByIdCatch zodMessage, db)
  | Some roleId =>
      match RoleService.getRoleById roleId db with
      | (Ok r, db') =>
          ({| statusCode := 200; message := "Role retrieved successfully"; data := Some r |},
           db')
      | (Throw msg, db') => (getRoleByIdCatch msg, db')
      end
  end.

End WithDriver.
End RoleController.

(** ** [middlewares/authMiddleware.ts] *)

Module AuthMiddleware.

(** What a middleware does with the request: call [next()] or answer. *)
Inductive Outcome : Type :=
| Next
| Reply (code : nat) (msg : string).

(** *** Promises

    A promise is given by the time at which it settles, in milliseconds after
    the middleware started, and by how it settles. *)
Record Promise (A : Type) := mkPromise {
  settledAt : Z;
  settled : result A
}.
Arguments mkPromise {A} _ _.
Arguments settledAt {A} _.
Arguments settled {A} _.

(** The earliest rejection among the promises, the first listed on a tie. *)
Fixpoint firstRejection {A} (ps : list (Promise A)) : option (Z * string) :=
  match ps with
  | [] => None
  | p :: rest =>
      match settled p, firstRejection rest with
      | Throw e, Some (t, e') => if Z.leb (settledAt p) t then Some (settledAt p, e) else Some (t, e')
      | Throw e, None => Some (settledAt p, e)
      | Ok _, r => r
      end
  end.

Fixpoint fulfilledValues {A} (ps : list (Promise A)) : list A :=
  match ps with
  | [] => []
  | p :: rest =>
      match settled p with
      | Ok a => a :: fulfilledValues rest
      | Throw _ => fulfilledValues rest
      end
  end.

Definition lastSettled {A} (ps : list (Promise A)) : Z :=
  fold_right Z.max 0%Z (List.map settledAt ps).

(** [Promise.all(ps)]: rejects with the first rejection, otherwise fulfils
    with all the values once the last promise has fulfilled. *)
Definition PromiseAll {A} (ps : list (Promise A)) : Promise (list A) :=
  match firstRejection ps with
  | Some (t, e) => {| settledAt := t; settled := Throw e |}
  | None => {| settledAt := lastSettled ps; settled := Ok (fulfilledValues ps) |}
  end.

(** [Promise.race([p, q])]: the promise that settles first, [p] on a tie. *)
Definition PromiseRace {A} (p q : Promise A) : Promise A :=
  if Z.ltb (settledAt q) (settledAt p) then q else p.

Definition mapPromise {A B} (f : A -> B) (p : Promise A) : Promise B :=
  {| settledAt := settledAt p;
     settled := match settled p with Ok a => Ok (f a) | Throw e => Throw e end |}.

(** [new Promise(resolve => setTimeout(() => resolve(false), 5000))] *)
Definition timeoutPromise : Promise bool :=
  {| settledAt := 5000%Z; settled := Ok false |}.

(** What the runtime decides for the [i]-th permission check of a request:
    how long it takes, and whether the store fails under it. *)
Record Runtime := mkRuntime {
  latency : nat -> Z;
  fault : nat -> option string
}.

Section WithDriver.
Context `{Driver}.

(** [roleService.hasPermission(req.user!.userId, permission)] as a promise *)
Definition permissionCheck (rt : Runtime) (db : DB) (uid : string) (i : nat)
  (permission : string) : Promise bool :=
  {| settledAt := latency rt i;
     settled := match fault rt i with
                | Some e => Throw e
                | None => fst (RoleService.hasPermission uid permission db)
                end |}.

(** Check if user has required permission *)
Definition requirePermission (permissions_ : list string) (rt : Runtime)
  (user : option AuthUser) (db : DB) : Outcome :=
  match user with
  | None => Reply 401 "Authentication required"
  | Some u =>
      let checks := imap (permissionCheck rt db (userId u)) permissions_ in
      let hasPermission :=
        PromiseRace (mapPromise inl (PromiseAll checks)) (mapPromise inr timeoutPromise) in
      match settled hasPermission with
      | Throw _ => Reply 500 "Error checking permissions"
      | Ok v =>
          let hasAnyPermission :=
            match v with
            | inl results => existsb (fun b : bool => b) results
            | inr b => b
            end in
          if negb hasAnyPermission then Reply 403 "Insufficient permissions" else Next
      end
  end.

End WithDriver.

(** *** Rate limiting for authentication attempts (IP + Account based) *)

Record Attempt := mkAttempt {
  count : nat;
  resetTime : Z
}.

(** The parts of the request the limiter reads. *)
Record AuthRequest := mkAuthRequest {
  req_ip : option string;
  req_remoteAddress : option string;
  req_body_email : option string
}.

(** [`${ip}:${email}`] *)
Definition attemptKey (req : AuthRequest) : string :=
  let ip := Js.orElse (req_ip req) (Js.orElse (req_remoteAddress req) "unknown") in
  let email_ := Js.orElse (req_body_email req) "unknown" in
  ip ++ ":" ++ email_.

Definition tooManyMessage (remainingTime : Z) : string :=
  "Too many failed attempts, please try again in " ++ Js.intToString remainingTime
    ++ " minutes.".

(** The middleware returned by [rateLimitAuth(maxAttempts, windowMs)], on the
    map [attempts] it closes over, for a request handled at time [now]. *)
Definition rateLimitAuth (maxAttempts : nat) (windowMs : Z) (req : AuthRequest) (now : Z)
  (attempts : gmap string Attempt) : Outcome * gmap string Attempt :=
  let key := attemptKey req in
  let fresh := (Next, <[key := {| count := 1; resetTime := (now + windowMs)%Z |}]> attempts) in
  match attempts !! key with
  | None => fresh
  | Some userAttempts =>
      if Z.ltb (resetTime userAttempts) now then fresh
      else if Nat.leb maxAttempts (count userAttempts) then
        let remainingTime := Js.ceilDiv (resetTime userAttempts - now) (1000 * 60) in
        (Reply 429 (tooManyMessage remainingTime), attempts)
      else
        (Next, <[key := {| count := S (count userAttempts);
                           resetTime := resetTime userAttempts |}]> attempts)
  end.

(** The body of the [setInterval] callback: cleanup of expired entries. *)
Definition cleanup (now : Z) (attempts : gmap string Attempt) : gmap string Attempt :=
  filter (fun kv : string * Attempt => ~ (resetTime kv.2 < now)%Z) attempts.

(** The defaults of [rateLimitAuth]. *)
Definition defaultMaxAttempts : nat := 5.
Definition defaultWindowMs : Z := (15 * 60 * 1000)%Z.

(** What happens to one limiter over time: requests and sweeps. *)
Inductive Event : Type :=
| Incoming (req : AuthRequest) (now : Z)
| Sweep (now : Z).

Definition eventTime (e : Event) : Z :=
  match e with Incoming _ now => now | Sweep now => now end.

(** A run of the limiter: the outcomes of the requests, in order, and the
    final map. *)
Fixpoint run (maxAttempts : nat) (windowMs : Z) (events : list Event)
  (attempts : gmap string Attempt) : list Outcome * gmap string Attempt :=
  match events with
  | [] => ([], attempts)
  | Incoming req now :: rest =>
      let '(o, attempts') := rateLimitAuth maxAttempts windowMs req now attempts in
      let '(os, final) := run maxAttempts windowMs rest attempts' in
      (o :: os, final)
  | Sweep now :: rest => run maxAttempts windowMs rest (cleanup now attempts)
  end.

(** *** Authentication and the role gates *)

(** What [jwt.verify(token, process.env.JWT_SECRET)] does with a token: the
    decoded [userId], or the exception it raises, by its [name]. *)
Inductive JwtResult : Type :=
| Decoded (uid : string)
| JsonWebTokenError
| TokenExpiredError
| OtherTokenError.

Class Jwt := {
  jwtVerify : string -> JwtResult
}.

(** What [verifyToken] does with the request: attach [req.user] and call
    [next()], or answer. *)
Inductive Authentication : Type :=
| Attached (user : AuthUser)
| Refused (code : nat) (msg : string).

(** [authHeader.substring(7)] *)
Definition bearerToken (authHeader : string) : string :=
  String.substring 7 (String.length authHeader - 7) authHeader.

Section WithToken.
Context `{Driver} `{Jwt}.

(** Verify JWT token *)
Definition verifyToken (authorization : option string) (db : DB) : Authentication :=
  match authorization with
  | None => Refused 401 "Access token is required"
  | Some authHeader =>
      if negb (String.prefix "Bearer " authHeader)
      then Refused 401 "Access token is required"
      else
        let token := bearerToken authHeader in
        if String.eqb token EmptyString then Refused 401 "Access token is required"
        else
          match jwtVerify token with
          | JsonWebTokenError => Refused 401 "Invalid token"
          | TokenExpiredError => Refused 401 "Token has expired"
          | OtherTokenError => Refused 401 "Authentication failed"
          | Decoded uid =>
              match fst (User.findById uid db) with
              | Throw _ => Refused 401 "Authentication failed"
              | Ok None => Refused 401 "User not found"
              | Ok (Some user) =>
                  if negb (String.eqb (status user) "active")
                  then Refused 401 "User account is not active"
                  else Attached {| userId := uid; user_email := email user;
                                   user_role := role user |}
              end
          end
  end.

(** Optional authentication (doesn't fail if no token): [req.user] when
    [next()] is called, which it always is. *)
Definition optionalAuth (authorization : option string) (db : DB) : option AuthUser :=
  match authorization with
  | None => None
  | Some authHeader =>
      if negb (String.prefix "Bearer " authHeader) then None
      else
        let token := bearerToken authHeader in
        if String.eqb token EmptyString then None
        else
          match jwtVerify token with
          | Decoded uid =>
              match fst (User.findById uid db) with
              | Ok (Some user) =>
                  if negb (String.eqb (status user) "active") then None
                  else Some {| userId := uid; user_email := email user;
                               user_role := role user |}
              | _ => None
              end
          | _ => None
          end
  end.

End WithToken.

(** Check if user has required role *)
Definition requireRole (roles_ : list string) (user : option AuthUser) : Outcome :=
  match user with
  | None => Reply 401 "Authentication required"
  | Some u =>
      if negb (Js.arrayIncludes roles_ (user_role u))
      then Reply 403 "Insufficient permissions"
      else Next
  end.

(** Check if user can manage target role (role hierarchy).  The table is
    read with the role of the caller as it comes: under a name that every
    object inherits, [ROLE_HIERARCHY[userRole]] is a function or an object
    with no [includes], and the call of [includes] raises a [TypeError]. *)
Definition canManageRole (targetRole : string) (user : option AuthUser) : result Outcome :=
  match user with
  | None => Ok (Reply 401 "Authentication required")
  | Some u =>
      if Js.arrayIncludes Js.inheritedKeys (user_role u)
      then Throw "manageableRoles.includes is not a function"
      else
        let manageableRoles := default [] (recordGet ROLE_HIERARCHY (user_role u)) in
        if negb (Js.arrayIncludes manageableRoles targetRole)
        then Ok (Reply 403 "You cannot manage users with this role")
        else Ok Next
  end.

(** Check if user is admin *)
Definition requireAdmin : option AuthUser -> Outcome :=
  requireRole [USER_ROLE.ADMIN].

(** Check if user is teacher or higher *)
Definition requireTeacher : option AuthUser -> Outcome :=
  requireRole [USER_ROLE.TEACHER; USER_ROLE.ADMIN].

(** Check if user is student or higher *)
Definition requireStudent : option AuthUser -> Outcome :=
  requireRole [USER_ROLE.STUDENT; USER_ROLE.TEACHER; USER_ROLE.ADMIN].

(** *** The limiter of [authMiddleware.ts]

    [rateLimitAuth] as [middlewares/authMiddleware.ts] has it: the key is the
    address alone, the answer names no remaining time, and no timer sweeps
    the map. *)

(** [req.ip || req.connection.remoteAddress || 'unknown'] *)
Definition ipKey (req : AuthRequest) : string :=
  Js.orElse (req_ip req) (Js.orElse (req_remoteAddress req) "unknown").

Definition rateLimitAuthByIp (maxAttempts : nat) (windowMs : Z) (req : AuthRequest) (now : Z)
  (attempts : gmap string Attempt) : Outcome * gmap string Attempt :=
  let ip := ipKey req in
  let fresh := (Next, <[ip := {| count := 1; resetTime := (now + windowMs)%Z |}]> attempts) in
  match attempts !! ip with
  | None => fresh
  | Some userAttempts =>
      if Z.ltb (resetTime userAttempts) now then fresh
      else if Nat.leb maxAttempts (count userAttempts) then
        (Reply 429 "Too many authentication attempts. Please try again later.", attempts)
      else
        (Next, <[ip := {| count := S (count userAttempts);
                          resetTime := resetTime userAttempts |}]> attempts)
  end.

(** The middleware on a sequence of requests, each with the time at which it
    is handled. *)
Fixpoint runByIp (maxAttempts : nat) (windowMs : Z) (requests : list (AuthRequest * Z))
  (attempts : gmap string Attempt) : list Outcome * gmap string Attempt :=
  match requests with
  | [] => ([], attempts)
  | (req, now) :: rest =>
      let '(o, attempts') := rateLimitAuthByIp maxAttempts windowMs req now attempts in
      let '(os, final) := runByIp maxAttempts windowMs rest attempts' in
      (o :: os, final)
  end.

End AuthMiddleware.

(** ** A sample deployment, for the concrete scenarios

    The sample driver accepts the ids of 24 hexadecimal digits and numbers
    new documents by the size of their collection. *)

Module Sample.

Definition isHexDigit (c : ascii) : bool :=
  let n := nat_of_ascii c in
  (Nat.leb 48 n && Nat.leb n 57) || (Nat.leb 97 n && Nat.leb n 102).

Fixpoint allHex (s : string) : bool :=
  match s with
  | EmptyString => true
  | String c s' => isHexDigit c && allHex s'
  end.

Definition sampleCastError (id : string) : option string :=
  if Nat.eqb (String.length id) 24 && allHex id then None
  else Some ("Cast to ObjectId failed for value " ++ id)%string.

Definition sampleNewObjectId (ids : list string) : string :=
  ("65f00000000000000000000" ++ Js.natToString (List.length ids))%string.

Definition driver : Driver :=
  {| castError := sampleCastError; newObjectId := sampleNewObjectId |}.

Definition adminId : string := "65a000000000000000000001".
Definition teacherId : string := "65a000000000000000000002".
Definition aliceId : string := "65a000000000000000000003".
Definition bobId : string := "65a000000000000000000004".
Definition ghostId : string := "65a00000000000000000dead".

Definition person (n e r : string) : UserDoc :=
  {| firstName := n; email := e; role := r; status := "active"; password := Some "$2a$12$hash" |}.

Definition people : gmap string UserDoc :=
  <[adminId := person "Admin" "admin@example.com" "admin"]>
  (<[teacherId := person "Tara" "tara@example.com" "teacher"]>
  (<[aliceId := person "Alice" "alice@example.com" "student"]>
  (<[bobId := person "Bob" "bob@example.com" "student"]> ∅))).

(** The store of a new deployment, before the roles are seeded. *)
Definition emptyStore : DB := {| roles := []; users := people |}.

(** The store after the first start of the server. *)
Definition seeded : DB := snd (@RoleService.initializeSystemRoles driver emptyStore).

Definition moderatorInput : CreateRoleInput :=
  {| create_name := "moderator";
     create_displayName := "Moderator";
     create_description := None;
     create_permissions := [PERMISSION.VIEW_HOTELS; PERMISSION.VIEW_BOOKINGS] |}.

(** The seeded store with the custom role [moderator], created by the admin. *)
Definition withModerator : DB :=
  snd (@RoleService.createRole driver moderatorInput adminId seeded).

Definition moderatorId : string := "65f000000000000000000003".

Definition assignBody (target roleName : string) : Json :=
  JObject (<["userId" := JString target]> (<["roleName" := JString roleName]> ∅)).

Definition asAdmin : option AuthUser :=
  Some {| userId := adminId; user_email := "admin@example.com"; user_role := "admin" |}.

Definition renameBody : Json :=
  JObject (<["name" := JString "admin"]>
          (<["isSystem" := JBool true]>
          (<["displayName" := JString "Moderators"]> ∅))).

Definition instant : AuthMiddleware.Runtime :=
  {| AuthMiddleware.latency := fun _ => 20%Z; AuthMiddleware.fault := fun _ => None |}.

Definition loginFrom (ip e : string) : AuthMiddleware.AuthRequest :=
  {| AuthMiddleware.req_ip := Some ip;
     AuthMiddleware.req_remoteAddress := None;
     AuthMiddleware.req_body_email := Some e |}.

Definition slow : AuthMiddleware.Runtime :=
  {| AuthMiddleware.latency := fun i => if Nat.eqb i 1 then 6000%Z else 20%Z;
     AuthMiddleware.fault := fun _ => None |}.

Definition broken : AuthMiddleware.Runtime :=
  {| AuthMiddleware.latency := fun _ => 20%Z;
     AuthMiddleware.fault := fun i => if Nat.eqb i 0 then Some "store unreachable" else None |}.

Definition adminUser : AuthUser :=
  {| userId := adminId; user_email := "admin@example.com"; user_role := "admin" |}.

Definition aliceUser : AuthUser :=
  {| userId := aliceId; user_email := "alice@example.com"; user_role := "student" |}.

(** The record [createRole] made for the moderators. *)
Definition moderatorDoc : RoleDoc :=
  {| _id := moderatorId;
     name := "moderator";
     displayName := "Moderator";
     description := None;
     permissions := [PERMISSION.VIEW_HOTELS; PERMISSION.VIEW_BOOKINGS];
     isSystem := false;
     isActive := true;
     createdBy := Some adminId;
     updatedBy := None |}.

(** The record seeded for [teacher]. *)
Definition teacherDoc : RoleDoc :=
  {| _id := "65f000000000000000000001";
     name := "teacher";
     displayName := "Teacher";
     description := Some "Teacher with limited administrative permissions";
     permissions := default [] (recordGet ROLE_PERMISSIONS USER_ROLE.TEACHER);
     isSystem := true;
     isActive := true;
     createdBy := None;
     updatedBy := None |}.

(** Alice stored as a moderator. *)
Definition moderated : DB :=
  {| roles := roles withModerator;
     users := <[aliceId := person "Alice" "alice@example.com" "moderator"]> people |}.

(** Bob stored with a role name that no record bears. *)
Definition stray : DB :=
  {| roles := roles seeded;
     users := <[bobId := person "Bob" "bob@example.com" "janitor"]> people |}.

Definition patch : UpdateRoleInput :=
  {| update_displayName := Some " Moderators ";
     update_description := None;
     update_permissions := Some [PERMISSION.VIEW_HOTELS];
     update_isActive := None |}.

Definition alice : AuthMiddleware.AuthRequest := loginFrom "10.0.0.1" "alice@example.com".
Definition bob : AuthMiddleware.AuthRequest := loginFrom "10.0.0.2" "bob@example.com".

(** Five more attempts of Alice within a quarter of an hour, among other
    traffic. *)
Definition traffic : list AuthMiddleware.Event :=
  [ AuthMiddleware.Incoming alice 2000%Z;
    AuthMiddleware.Incoming bob 2500%Z;
    AuthMiddleware.Incoming alice 3000%Z;
    AuthMiddleware.Sweep 300000%Z;
    AuthMiddleware.Incoming alice 310000%Z;
    AuthMiddleware.Incoming alice 320000%Z;
    AuthMiddleware.Incoming bob 330000%Z;
    AuthMiddleware.Incoming alice 340000%Z ].

End Sample.

(** ** Notions used to state the results

    An id [resolves] when the driver casts it and the store has an identity
    under it; otherwise [failureReason] is what the loop of [bulkAssignRole]
    records for it. *)

Definition resolves `{Driver} (people : gmap string UserDoc) (id : string) : bool :=
  match castError id with
  | Some _ => false
  | None => match people !! id with Some _ => true | None => false end
  end.

Definition failureReason `{Driver} (id : string) : string :=
  match castError id with
  | Some e => e
  | None => "User not found"
  end.

(** The requests of one key in a run of the limiter: their times, and their
    times with the outcomes they got. *)
Fixpoint requestTimes (key : string) (events : list AuthMiddleware.Event) : list Z :=
  match events with
  | [] => []
  | AuthMiddleware.Incoming req now :: rest =>
      if String.eqb (AuthMiddleware.attemptKey req) key
      then now :: requestTimes key rest
      else requestTimes key rest
  | AuthMiddleware.Sweep _ :: rest => requestTimes key rest
  end.

Fixpoint outcomesOf (key : string) (events : list AuthMiddleware.Event)
  (outcomes : list AuthMiddleware.Outcome) : list (Z * AuthMiddleware.Outcome) :=
  match events with
  | [] => []
  | AuthMiddleware.Incoming req now :: rest =>
      match outcomes with
      | [] => []
      | o :: os =>
          if String.eqb (AuthMiddleware.attemptKey req) key
          then (now, o) :: outcomesOf key rest os
          else outcomesOf key rest os
      end
  | AuthMiddleware.Sweep _ :: rest => outcomesOf key rest outcomes
  end.

(** The answer to a request refused at time [now] in a window that closes at
    [resetTime]. *)
Definition refusal (resetTime now : Z) : AuthMiddleware.Outcome :=
  AuthMiddleware.Reply 429
    ("Too many failed attempts, please try again in "
       ++ Js.intToString (Js.ceilDiv (resetTime - now) 60000) ++ " minutes.")%string.

(** The four columns of a role record that no update may touch. *)
Definition identityOf (r : RoleDoc) : string * string * bool * option string :=
  (_id r, name r, isSystem r, createdBy r).

(** The tier of a role name: the three system roles in their order, and
    nothing for any other name. *)
Definition tier (roleName : string) : option nat :=
  if String.eqb roleName USER_ROLE.STUDENT then Some 1
  else if String.eqb roleName USER_ROLE.TEACHER then Some 2
  else if String.eqb roleName USER_ROLE.ADMIN then Some 3
  else None.

(** Every role record carries at least one permission, and tokens of the
    catalogue only. *)
Definition permissionsWellFormed (db : DB) : Prop :=
  forall r, In r (roles db) ->
    permissions r <> [] /\ forallb (Js.arrayIncludes PERMISSION.values) (permissions r) = true.

(** The events of a run happen in order, none before [start]. *)
Fixpoint inOrder (start : Z) (events : list AuthMiddleware.Event) : Prop :=
  match events with
  | [] => True
  | e :: rest =>
      (start <= AuthMiddleware.eventTime e)%Z /\ inOrder (AuthMiddleware.eventTime e) rest
  end.

(** A run without its sweeps, and a run without the requests of the other
    keys. *)
Fixpoint withoutSweeps (events : list AuthMiddleware.Event) : list AuthMiddleware.Event :=
  match events with
  | [] => []
  | AuthMiddleware.Sweep _ :: rest => withoutSweeps rest
  | e :: rest => e :: withoutSweeps rest
  end.

Fixpoint onlyKey (key : string) (events : list AuthMiddleware.Event)
  : list AuthMiddleware.Event :=
  match events with
  | [] => []
  | AuthMiddleware.Incoming req now :: rest =>
      if String.eqb (AuthMiddleware.attemptKey req) key
      then AuthMiddleware.Incoming req now :: onlyKey key rest
      else onlyKey key rest
  | AuthMiddleware.Sweep now :: rest => AuthMiddleware.Sweep now :: onlyKey key rest
  end.

(** What the limiter can still see of a key at time [now]: its entry, unless
    the window of the entry has elapsed. *)
Definition liveAt (now : Z) (attempts : gmap string AuthMiddleware.Attempt) (key : string)
  : option AuthMiddleware.Attempt :=
  match attempts !! key with
  | Some a => if Z.ltb (AuthMiddleware.resetTime a) now then None else Some a
  | None => None
  end.

(** An entry of the limiter's map is accounted for by the requests [seen]:
    its count lies between 1 and the limit, and its window was opened by one
    of the requests of its key. *)
Definition accounted (maxAttempts : nat) (windowMs : Z) (seen : list AuthMiddleware.Event)
  (key : string) (a : AuthMiddleware.Attempt) : Prop :=
  1 <= AuthMiddleware.count a <= Nat.max 1 maxAttempts
  /\ exists req now,
       In (AuthMiddleware.Incoming req now) seen /\ AuthMiddleware.attemptKey req = key
       /\ AuthMiddleware.resetTime a = (now + windowMs)%Z.

(** Whether the middleware let the request through. *)
Definition passed (o : AuthMiddleware.Outcome) : bool :=
  match o with
  | AuthMiddleware.Next => true
  | AuthMiddleware.Reply _ _ => false
  end.

(** The request with the [email] of its body taken out. *)
Definition withoutEmail (req : AuthMiddleware.AuthRequest) : AuthMiddleware.AuthRequest :=
  {| AuthMiddleware.req_ip := AuthMiddleware.req_ip req;
     AuthMiddleware.req_remoteAddress := AuthMiddleware.req_remoteAddress req;
     AuthMiddleware.req_body_email := None |}.

(** The keys of the requests of a run, in order. *)
Fixpoint requestKeys (events : list AuthMiddleware.Event) : list string :=
  match events with
  | [] => []
  | AuthMiddleware.Incoming req _ :: rest => AuthMiddleware.attemptKey req :: requestKeys rest
  | AuthMiddleware.Sweep _ :: rest => requestKeys rest
  end.

(** A call goes on with the answer it awaited. *)
Definition resume {A B} (awaited : result A) (k : A -> M B) : M B :=
  fun db =>
    match awaited with
    | Ok a => k a db
    | Throw e => (Throw e, db)
    end.

(** Two calls of [createRole] that overlap: the store answers the lookup of
    the first call, then the lookup of the second, and only then does each
    call go on.  The results of the two calls, and the store they leave. *)
Definition createRoleOverlapped `{Driver} (a : CreateRoleInput) (byA : string)
  (b : CreateRoleInput) (byB : string) (db : DB) : result RoleDoc * result RoleDoc * DB :=
  let '(foundA, db1) := Role.findOneByName (create_name a) db in
  let '(foundB, db2) := Role.findOneByName (create_name b) db1 in
  let '(resA, db3) := resume foundA (RoleService.createRoleAfterLookup a byA) db2 in
  let '(resB, db4) := resume foundB (RoleService.createRoleAfterLookup b byB) db3 in
  (resA, resB, db4).

(** The email as the limiter reads it: [req.body?.email || 'unknown']. *)
Definition emailOf (req : AuthMiddleware.AuthRequest) : string :=
  Js.orElse (AuthMiddleware.req_body_email req) "unknown".

(** A text without a colon, as the dotted addresses of IPv4 are. *)
Fixpoint colonFree (s : string) : bool :=
  match s with
  | EmptyString => true
  | String c s' => negb (Ascii.eqb c ":") && colonFree s'
  end.

(** Two requests come from the same address and name the same email. *)
Definition samePair (r1 r2 : AuthMiddleware.AuthRequest) : bool :=
  String.eqb (AuthMiddleware.ipKey r1) (AuthMiddleware.ipKey r2)
  && String.eqb (emailOf r1) (emailOf r2).

(** The requests of one pair of address and email in a run: their times, and
    their times with the outcomes they got. *)
Fixpoint pairTimes (req : AuthMiddleware.AuthRequest) (events : list AuthMiddleware.Event)
  : list Z :=
  match events with
  | [] => []
  | AuthMiddleware.Incoming r now :: rest =>
      if samePair r req then now :: pairTimes req rest else pairTimes req rest
  | AuthMiddleware.Sweep _ :: rest => pairTimes req rest
  end.

Fixpoint pairOutcomes (req : AuthMiddleware.AuthRequest) (events : list AuthMiddleware.Event)
  (outcomes : list AuthMiddleware.Outcome) : list (Z * AuthMiddleware.Outcome) :=
  match events with
  | [] => []
  | AuthMiddleware.Incoming r now :: rest =>
      match outcomes with
      | [] => []
      | o :: os =>
          if samePair r req
          then (now, o) :: pairOutcomes req rest os
          else pairOutcomes req rest os
      end
  | AuthMiddleware.Sweep _ :: rest => pairOutcomes req rest outcomes
  end.

(** More of the sample deployment: tokens, bodies, and a role put aside. *)
Module Scenario.

Definition jwt : AuthMiddleware.Jwt :=
  {| AuthMiddleware.jwtVerify := fun token =>
       if String.eqb token "alice.token" then AuthMiddleware.Decoded Sample.aliceId
       else if String.eqb token "ghost.token" then AuthMiddleware.Decoded Sample.ghostId
       else if String.eqb token "old.token" then AuthMiddleware.TokenExpiredError
       else AuthMiddleware.JsonWebTokenError |}.

(** Alice was promoted after her token was signed. *)
Definition promoted : DB :=
  {| roles := roles Sample.seeded;
     users := <[Sample.aliceId := Sample.person "Alice" "alice@example.com" "teacher"]>
                Sample.people |}.

Definition moderatorBody : Json :=
  JObject (<["name" := JString "moderator"]>
          (<["displayName" := JString "Moderator"]>
          (<["permissions" := JArray [JString "view_hotels"; JString "view_bookings"]]> ∅))).

Definition switchOff : UpdateRoleInput :=
  {| update_displayName := None; update_description := None;
     update_permissions := None; update_isActive := Some false |}.

Definition shorterBody : Json :=
  JObject (<["permissions" := JArray [JString "view_hotels"]]> ∅).

Definition teacherAsUser : AuthUser :=
  {| userId := Sample.teacherId; user_email := "tara@example.com"; user_role := "teacher" |}.

Definition carol : AuthMiddleware.AuthRequest := Sample.loginFrom "10.0.0.3" "carol@example.com".

(** A day of traffic, in order, with a sweep after each window. *)
Definition day : list AuthMiddleware.Event :=
  [ AuthMiddleware.Incoming Sample.alice 1000%Z;
    AuthMiddleware.Incoming Sample.bob 1500%Z;
    AuthMiddleware.Incoming Sample.alice 2000%Z;
    AuthMiddleware.Sweep 300000%Z;
    AuthMiddleware.Incoming Sample.alice 310000%Z;
    AuthMiddleware.Incoming carol 320000%Z;
    AuthMiddleware.Sweep 950000%Z;
    AuthMiddleware.Incoming Sample.alice 960000%Z ].

(** The moderators' role asked for a second time, spelt differently. *)
Definition moderatorAgain : CreateRoleInput :=
  {| create_name := " Moderator ";
     create_displayName := "Moderators";
     create_description := None;
     create_permissions := [PERMISSION.VIEW_HOTELS] |}.

(** Two requests from different addresses, naming different emails. *)
Definition mallory : AuthMiddleware.AuthRequest :=
  Sample.loginFrom "2001:db8::a" "b:alice@example.com".

Definition aliceAtHome : AuthMiddleware.AuthRequest :=
  Sample.loginFrom "2001:db8::a:b" "alice@example.com".

(** One address trying one account after the other. *)
Definition stuffing : list (AuthMiddleware.AuthRequest * Z) :=
  [ (Sample.loginFrom "10.0.0.9" "alice@example.com", 1000%Z);
    (Sample.loginFrom "10.0.0.9" "bob@example.com", 2000%Z);
    (Sample.loginFrom "10.0.0.9" "carol@example.com", 3000%Z);
    (Sample.loginFrom "10.0.0.9" "dave@example.com", 4000%Z) ].

End Scenario.

(** * Properties *)

(** ** The monad and the queries *)

Lemma find_app_last {A} (p : A -> bool) (l : list A) (x : A) :
  List.find p (l ++ [x]) =
  match List.find p l with
  | Some y => Some y
  | None => if p x then Some x else None
  end.
Proof.
  induction l as [|a l IH]; simpl.
  - reflexivity.
  - destruct (p a); [reflexivity | exact IH].
Qed.

Lemma find_none_iff {A} (p : A -> bool) (l : list A) :
  List.find p l = None <-> forall x, In x l -> p x = false.
Proof.
  split.
  - apply find_none.
  - induction l as [|a l IH]; simpl; intros Hall; [reflexivity|].
    rewrite (Hall a (or_introl eq_refl)). apply IH. intros x Hx. apply Hall. now right.
Qed.

Lemma find_first {A} (p : A -> bool) (pre post : list A) (x : A) :
  (forall y, In y pre -> p y = false) -> p x = true ->
  List.find p (pre ++ x :: post) = Some x.
Proof.
  intros Hpre Hx. induction pre as [|a pre IH]; simpl.
  - now rewrite Hx.
  - rewrite (Hpre a (or_introl eq_refl)). apply IH. intros y Hy. apply Hpre. now right.
Qed.

Lemma arrayIncludes_true (arr : list string) (x : string) :
  Js.arrayIncludes arr x = true <-> In x arr.
Proof.
  unfold Js.arrayIncludes. rewrite existsb_exists. split.
  - intros [y [Hy Heq]]. apply String.eqb_eq in Heq. now subst.
  - intros Hin. exists x. split; [assumption | apply String.eqb_refl].
Qed.

Ltac unfold_monad :=
  unfold bind, ret, throw, tryCatch in *.

(** ** Role assignment: [canAssignRole] *)

Section AssignFacts.
Context `{Driver}.

(** For an assigner holding a system role the test is the hierarchy test. *)
Lemma canAssignRole_system_assigner (userRole targetRole : string) :
  In userRole USER_ROLE.values ->
  RoleService.canAssignRole userRole targetRole = true <->
  In targetRole (default [] (recordGet ROLE_HIERARCHY userRole)) \/ userRole = targetRole.
Proof.
  intros Hsys. unfold RoleService.canAssignRole.
  apply arrayIncludes_true in Hsys. rewrite Hsys.
  rewrite orb_true_iff, arrayIncludes_true, String.eqb_eq. reflexivity.
Qed.

(** An assigner whose role is not a system role assigns nothing. *)
Lemma canAssignRole_custom_assigner (userRole targetRole : string) :
  ~ In userRole USER_ROLE.values ->
  RoleService.canAssignRole userRole targetRole = false.
Proof.
  intros Hcustom. unfold RoleService.canAssignRole.
  destruct (Js.arrayIncludes USER_ROLE.values userRole) eqn:Hsys.
  - apply arrayIncludes_true in Hsys. contradiction.
  - apply String.eqb_neq. intros ->. apply Hcustom. right. right. now left.
Qed.

Lemma hierarchy_within_system (userRole targetRole : string) :
  In userRole USER_ROLE.values ->
  In targetRole (default [] (recordGet ROLE_HIERARCHY userRole)) ->
  In targetRole USER_ROLE.values.
Proof.
  intros Hsys. simpl in Hsys.
  destruct Hsys as [<- | [<- | [<- | []]]]; vm_compute; tauto.
Qed.

(** A target outside the three system names is refused whoever asks. *)
Lemma canAssignRole_custom_target (userRole targetRole : string) :
  ~ In targetRole USER_ROLE.values ->
  RoleService.canAssignRole userRole targetRole = false.
Proof.
  intros Hcustom.
  destruct (Js.arrayIncludes USER_ROLE.values userRole) eqn:Hsys.
  - apply arrayIncludes_true in Hsys.
    apply not_true_is_false. intros Hcan.
    apply (canAssignRole_system_assigner _ _ Hsys) in Hcan.
    destruct Hcan as [Hin | <-].
    + apply Hcustom. exact (hierarchy_within_system _ _ Hsys Hin).
    + contradiction.
  - apply canAssignRole_custom_assigner. intros Hin.
    apply arrayIncludes_true in Hin. congruence.
Qed.

End AssignFacts.

(** C1, at the input where the code departs from it: in the seeded store with
    the active custom role [moderator], the admin asks to give Alice that
    role.  [canAssignRole] branches on the assigner's role, finds [admin]
    among the system roles, and tests [moderator] against the hierarchy of
    [admin] only: the request is refused with status 403 and nothing is
    written. *)
Theorem C1_admin_refused_custom_role :
  let db := Sample.withModerator in
  (exists r, In r (roles db) /\ name r = "moderator" /\ isActive r = true /\ isSystem r = false)
  /\ role <$> users db !! Sample.adminId = Some "admin"
  /\ RoleService.canAssignRole "admin" "moderator" = false
  /\ @RoleService.assignRoleToUser Sample.driver Sample.aliceId "moderator" Sample.adminId db
     = (Throw "You do not have permission to assign this role", db)
  /\ forall zod,
       @RoleController.assignRoleToUser Sample.driver zod
         (Sample.assignBody Sample.aliceId "moderator") Sample.asAdmin db
       = ({| statusCode := 403;
             message := "You do not have permission to assign this role";
             data := None |}, db).
Proof.
  cbv zeta. split; [|split; [|split; [|split]]].
  - eexists. split; [right; right; right; left; reflexivity|]. vm_compute. auto.
  - vm_compute. reflexivity.
  - vm_compute. reflexivity.
  - vm_compute. reflexivity.
  - intros zod. vm_compute. reflexivity.
Qed.

(** ** Permission resolution *)

Section ResolutionFacts.
Context `{Driver}.

Lemma matchesActive_test (roleName : string) (r : RoleDoc) :
  (String.eqb (name r) (castName roleName) && isActive r) = true <-> matchesActive roleName r.
Proof.
  unfold matchesActive. rewrite andb_true_iff, String.eqb_eq. reflexivity.
Qed.

Lemma findOneActive_none (db : DB) (roleName : string) :
  (forall r, In r (roles db) -> ~ matchesActive roleName r) ->
  Role.findOneActive roleName db = (Ok None, db).
Proof.
  intros Hnone. unfold Role.findOneActive. f_equal. f_equal.
  apply find_none_iff. intros r Hr. apply not_true_is_false.
  rewrite matchesActive_test. now apply Hnone.
Qed.

Lemma findOneActive_first (db : DB) (roleName : string) (pre post : list RoleDoc) (r : RoleDoc) :
  roles db = pre ++ r :: post ->
  matchesActive roleName r ->
  (forall r', In r' pre -> ~ matchesActive roleName r') ->
  Role.findOneActive roleName db = (Ok (Some r), db).
Proof.
  intros Hsplit Hr Hpre. unfold Role.findOneActive. f_equal. f_equal.
  rewrite Hsplit. apply find_first.
  - intros y Hy. apply not_true_is_false. rewrite matchesActive_test. now apply Hpre.
  - now apply matchesActive_test.
Qed.

Lemma getRolePermissions_unresolved (db : DB) (roleName : string) :
  (forall r, In r (roles db) -> ~ matchesActive roleName r) ->
  ~ In roleName USER_ROLE.values ->
  RoleService.getRolePermissions roleName db = (Ok [], db).
Proof.
  intros Hnone Hcustom. unfold RoleService.getRolePermissions. unfold_monad.
  rewrite (findOneActive_none db roleName Hnone).
  destruct (Js.arrayIncludes USER_ROLE.values roleName) eqn:Hinc; [|reflexivity].
  apply arrayIncludes_true in Hinc. contradiction.
Qed.

(** C2: [getRolePermissions] returns the permissions of the active record
    found under the name (the first one in the store, should several bear
    it); failing that, the entry of the static table when the name is one of
    the three system roles; failing that, the empty array.  The store is left
    as it was. *)
Theorem C2_getRolePermissions_resolution (db : DB) (roleName : string) :
  (forall pre r post,
      roles db = pre ++ r :: post ->
      matchesActive roleName r ->
      (forall r', In r' pre -> ~ matchesActive roleName r') ->
      RoleService.getRolePermissions roleName db = (Ok (permissions r), db))
  /\ ((forall r, In r (roles db) -> ~ matchesActive roleName r) ->
      In roleName USER_ROLE.values ->
      exists entry,
        recordGet ROLE_PERMISSIONS roleName = Some entry
        /\ RoleService.getRolePermissions roleName db = (Ok entry, db))
  /\ ((forall r, In r (roles db) -> ~ matchesActive roleName r) ->
      ~ In roleName USER_ROLE.values ->
      RoleService.getRolePermissions roleName db = (Ok [], db)).
Proof.
  unfold RoleService.getRolePermissions. unfold_monad. repeat split.
  - intros pre r post Hsplit Hr Hpre.
    now rewrite (findOneActive_first db roleName pre post r Hsplit Hr Hpre).
  - intros Hnone Hsys. rewrite (findOneActive_none db roleName Hnone).
    pose proof (proj2 (arrayIncludes_true _ _) Hsys) as Hinc. rewrite Hinc.
    simpl in Hsys. destruct Hsys as [<- | [<- | [<- | []]]]; eexists; split; reflexivity.
  - intros Hnone Hcustom.
    exact (getRolePermissions_unresolved db roleName Hnone Hcustom).
Qed.

(** C7: for an id that the driver can cast, [hasPermission] returns a boolean
    and leaves the store as it was; the boolean is [false] when no identity
    has the id, and when the identity's role name has no active record and is
    not a system role.  For an id that the driver cannot cast, the lookup of
    the identity raises, and [hasPermission] raises with it. *)
Theorem C7_hasPermission_fails_closed (db : DB) (userId permission : string) :
  (castError userId = None ->
   (exists b, RoleService.hasPermission userId permission db = (Ok b, db))
   /\ (users db !! userId = None ->
       RoleService.hasPermission userId permission db = (Ok false, db))
   /\ (forall u,
         users db !! userId = Some u ->
         (forall r, In r (roles db) -> ~ matchesActive (role u) r) ->
         ~ In (role u) USER_ROLE.values ->
         RoleService.hasPermission userId permission db = (Ok false, db)))
  /\ (forall e,
        castError userId = Some e ->
        RoleService.hasPermission userId permission db = (Throw e, db)).
Proof.
  unfold RoleService.hasPermission, User.findById. unfold_monad. split.
  - intros Hcast. rewrite Hcast. split; [|split].
    + destruct (users db !! userId) as [u|]; [|now exists false].
      unfold RoleService.getRolePermissions, Role.findOneActive. unfold_monad.
      destruct (List.find _ (roles db)); [eexists; reflexivity|].
      destruct (Js.arrayIncludes USER_ROLE.values (role u)); eexists; reflexivity.
    + intros Hnobody. now rewrite Hnobody.
    + intros u Hstored Hnone Hcustom. rewrite Hstored.
      rewrite (getRolePermissions_unresolved db (role u) Hnone Hcustom). reflexivity.
  - intros e Hcast. now rewrite Hcast.
Qed.

End ResolutionFacts.

(** ** Seeding the system roles *)

Section SeedFacts.
Context `{Driver}.

(** A record bears the name [n] in the store. *)
Local Abbreviation present n db := (In (castName n) (List.map name (roles db))).

Lemma find_by_name_present (n : string) (l : list RoleDoc) :
  In (castName n) (List.map name l) ->
  exists r, List.find (fun r => String.eqb (name r) (castName n)) l = Some r.
Proof.
  induction l as [|a l IH]; simpl; [tauto|].
  intros [Ha | Hl].
  - exists a. rewrite Ha, String.eqb_refl. reflexivity.
  - destruct (String.eqb (name a) (castName n)); [now exists a | now apply IH].
Qed.

Lemma find_by_name_absent (n : string) (l : list RoleDoc) :
  ~ In (castName n) (List.map name l) ->
  List.find (fun r => String.eqb (name r) (castName n)) l = None.
Proof.
  intros Habs. apply find_none_iff. intros r Hr. apply String.eqb_neq.
  intros Heq. apply Habs. rewrite <- Heq. now apply in_map.
Qed.

Lemma seedRole_present (d : RoleData) (db : DB) :
  present (data_name d) db -> RoleService.seedRole d db = (Ok tt, db).
Proof.
  intros Hp. unfold RoleService.seedRole, Role.findOneByName. unfold_monad.
  destruct (find_by_name_present _ _ Hp) as [r ->]. reflexivity.
Qed.

Lemma seedRole_absent (d : RoleData) (db : DB) :
  ~ present (data_name d) db ->
  Role.validate (Role.build d (List.map _id (roles db))) = None ->
  RoleService.seedRole d db =
  (Ok tt, {| roles := roles db ++ [Role.build d (List.map _id (roles db))];
             users := users db |}).
Proof.
  intros Habs Hvalid. unfold RoleService.seedRole, Role.findOneByName, Role.create.
  unfold_monad. rewrite (find_by_name_absent _ _ Habs), Hvalid. reflexivity.
Qed.

Lemma systemRoles_valid (d : RoleData) (ids : list string) :
  In d RoleService.systemRoles -> Role.validate (Role.build d ids) = None.
Proof.
  intros Hd. simpl in Hd. destruct Hd as [<- | [<- | [<- | []]]]; reflexivity.
Qed.

Lemma present_dec (n : string) (db : DB) : {present n db} + {~ present n db}.
Proof. apply in_dec. apply string_dec. Qed.

(** One turn of the loop appends at most the missing record, never fails,
    and leaves the name present. *)
Lemma seedRole_step (d : RoleData) (db : DB) :
  In d RoleService.systemRoles ->
  exists created,
    RoleService.seedRole d db
    = (Ok tt, {| roles := roles db ++ created; users := users db |})
    /\ present (data_name d) {| roles := roles db ++ created; users := users db |}.
Proof.
  intros Hd. destruct (present_dec (data_name d) db) as [Hp | Habs].
  - exists []. rewrite app_nil_r. destruct db as [rs us]. simpl in *.
    split; [now apply seedRole_present | assumption].
  - eexists. split.
    + apply seedRole_absent; [assumption | now apply systemRoles_valid].
    + simpl. rewrite map_app. apply in_or_app. right. simpl. left. reflexivity.
Qed.

Lemma forOf_seed (ds : list RoleData) (db : DB) :
  (forall d, In d ds -> In d RoleService.systemRoles) ->
  exists created,
    forOf ds RoleService.seedRole db
    = (Ok tt, {| roles := roles db ++ created; users := users db |})
    /\ forall d, In d ds ->
         present (data_name d) {| roles := roles db ++ created; users := users db |}.
Proof.
  revert db. induction ds as [|d ds IH]; intros db Hds.
  - exists []. rewrite app_nil_r. destruct db. simpl. split; [reflexivity | tauto].
  - destruct (seedRole_step d db (Hds d (or_introl eq_refl))) as (c1 & Hstep & Hd).
    destruct (IH {| roles := roles db ++ c1; users := users db |}) as (c2 & Hrest & Hall).
    { intros d' Hd'. apply Hds. now right. }
    cbn [roles users] in Hrest, Hall, Hd.
    exists (c1 ++ c2). cbn [forOf roles users]. unfold bind at 1. rewrite Hstep, Hrest.
    rewrite <- app_assoc. split; [reflexivity|].
    rewrite app_assoc.
    intros d' [<- | Hd']; [|now apply Hall].
    rewrite map_app. apply in_or_app. now left.
Qed.



Lemma system_name_absent (n : string) (db : DB) :
  (forall r, In r (roles db) -> ~ In (name r) USER_ROLE.values) ->
  In n USER_ROLE.values ->
  ~ In n (List.map name (roles db)).
Proof.
  intros Hfresh Hn Hin. apply in_map_iff in Hin. destruct Hin as (r & <- & Hr).
  exact (Hfresh r Hr Hn).
Qed.

(** From a store in which no record bears a system name, the loop appends
    the three bundles, in the order admin, teacher, student. *)
Lemma seed_fresh (db : DB) :
  (forall r, In r (roles db) -> ~ In (name r) USER_ROLE.values) ->
  exists a t s,
    RoleService.initializeSystemRoles db
    = (Ok tt, {| roles := roles db ++ [a; t; s]; users := users db |})
    /\ (name a = "admin" /\ isSystem a = true /\ isActive a = true
        /\ recordGet ROLE_PERMISSIONS "admin" = Some (permissions a))
    /\ (name t = "teacher" /\ isSystem t = true /\ isActive t = true
        /\ recordGet ROLE_PERMISSIONS "teacher" = Some (permissions t))
    /\ (name s = "student" /\ isSystem s = true /\ isActive s = true
        /\ recordGet ROLE_PERMISSIONS "student" = Some (permissions s)).
Proof.
  intros Hfresh.
  assert (Hno : forall n, In n USER_ROLE.values -> ~ In n (List.map name (roles db)))
    by (intros n Hn; now apply system_name_absent).
  unfold RoleService.initializeSystemRoles, RoleService.systemRoles.
  do 3 eexists. split.
  - cbn [forOf]. unfold_monad.
    rewrite seedRole_absent; [| apply Hno; vm_compute; tauto | reflexivity].
    rewrite seedRole_absent; [| | reflexivity].
    2:{ cbn [roles data_name]. rewrite map_app, in_app_iff. intros [Hin | Hin].
        - revert Hin. apply Hno. vm_compute; tauto.
        - vm_compute in Hin. destruct Hin as [Heq | []]. discriminate. }
    rewrite seedRole_absent; [| | reflexivity].
    2:{ cbn [roles data_name]. rewrite !map_app, !in_app_iff. intros [[Hin | Hin] | Hin].
        - revert Hin. apply Hno. vm_compute; tauto.
        - vm_compute in Hin. destruct Hin as [Heq | []]. discriminate.
        - vm_compute in Hin. destruct Hin as [Heq | []]. discriminate. }
    cbn [roles users]. rewrite <- !app_assoc. reflexivity.
  - repeat split; reflexivity.
Qed.


End SeedFacts.

(** ** Messages and the status the controller derives from them *)

Lemma string_of_uint_digits (d : Decimal.uint) :
  Js.allDigits (NilEmpty.string_of_uint d) = true.
Proof. induction d; simpl; auto. Qed.

Lemma natToString_digits (n : nat) : Js.allDigits (Js.natToString n) = true.
Proof. apply string_of_uint_digits. Qed.

Lemma prefix_head_mismatch (c d : ascii) (p s : string) :
  c <> d -> String.prefix (String c p) (String d s) = false.
Proof. intros Hne. simpl. destruct (ascii_dec c d); [contradiction | reflexivity]. Qed.

(** A pattern that starts with a character other than a digit cannot begin
    inside a run of digits. *)
Lemma includes_skip_digits (ds rest p : string) (c : ascii) :
  Js.allDigits ds = true ->
  Js.isDigit c = false ->
  Js.includes (ds ++ rest) (String c p) = Js.includes rest (String c p).
Proof.
  intros Hds Hc. induction ds as [|d ds IH].
  - reflexivity.
  - cbn [Js.allDigits] in Hds. apply andb_true_iff in Hds. destruct Hds as [Hd Hds].
    change ((String d ds ++ rest)%string) with (String d (ds ++ rest)%string).
    cbn [Js.includes]. rewrite prefix_head_mismatch.
    + simpl. now apply IH.
    + intros ->. congruence.
Qed.

Lemma deleteRoleMessage_status (n : nat) :
  Js.includes (RoleService.deleteRoleMessage n) "not found" = false
  /\ Js.includes (RoleService.deleteRoleMessage n) "cannot be deleted" = false
  /\ Js.includes (RoleService.deleteRoleMessage n) "user(s) are currently assigned" = true.
Proof.
  unfold RoleService.deleteRoleMessage.
  repeat split.
  - transitivity (Js.includes (Js.natToString n ++ " user(s) are currently assigned this role.")
                    "not found"); [reflexivity|].
    rewrite includes_skip_digits; [reflexivity | apply natToString_digits | reflexivity].
  - transitivity (Js.includes (Js.natToString n ++ " user(s) are currently assigned this role.")
                    "cannot be deleted"); [reflexivity|].
    rewrite includes_skip_digits; [reflexivity | apply natToString_digits | reflexivity].
  - transitivity (Js.includes (Js.natToString n ++ " user(s) are currently assigned this role.")
                    "user(s) are currently assigned"); [reflexivity|].
    rewrite includes_skip_digits; [reflexivity | apply natToString_digits | reflexivity].
Qed.

(** ** Updating and deleting roles *)

Section RoleMutationFacts.
Context `{Driver}.
Variable zodMessage : string.

Local Abbreviation hasId roleId := (fun r : RoleDoc => String.eqb (_id r) roleId).

Lemma findById_found (db : DB) (roleId : string) (r : RoleDoc) :
  fst (Role.findById roleId db) = Ok (Some r) ->
  castError roleId = None
  /\ List.find (hasId roleId) (roles db) = Some r
  /\ Role.findById roleId db = (Ok (Some r), db).
Proof.
  unfold Role.findById. destruct (castError roleId); simpl; [discriminate|].
  intros Hfind. injection Hfind as Hfind. rewrite Hfind. auto.
Qed.

Lemma find_updateFirst (p : RoleDoc -> bool) (f : RoleDoc -> RoleDoc) (l : list RoleDoc)
  (r : RoleDoc) :
  List.find p l = Some r -> p (f r) = true ->
  List.find p (Role.updateFirst p f l) = Some (f r).
Proof.
  intros Hfind Hp. induction l as [|a l IH]; simpl in *; [discriminate|].
  destruct (p a) eqn:Ha.
  - injection Hfind as ->. simpl. now rewrite Hp.
  - simpl. rewrite Ha. now apply IH.
Qed.

Lemma find_removeFirst (roleId : string) (l : list RoleDoc) :
  NoDup (List.map _id l) ->
  List.find (hasId roleId) (Role.removeFirst (hasId roleId) l) = None.
Proof.
  induction l as [|a l IH]; simpl; intros Hnd; [reflexivity|].
  inversion Hnd as [|x xs Hnotin Hnd']; subst.
  destruct (String.eqb (_id a) roleId) eqn:Ha.
  - apply String.eqb_eq in Ha. apply find_none_iff. intros y Hy.
    apply String.eqb_neq. intros Heq. apply Hnotin. rewrite Ha, <- Heq.
    apply list_elem_of_In. now apply in_map.
  - simpl. rewrite Ha. now apply IH.
Qed.

Lemma length_removeFirst (p : RoleDoc -> bool) (l : list RoleDoc) (r : RoleDoc) :
  List.find p l = Some r ->
  S (List.length (Role.removeFirst p l)) = List.length l.
Proof.
  induction l as [|a l IH]; simpl; [discriminate|].
  destruct (p a); [reflexivity|]. intros Hfind. simpl. f_equal. now apply IH.
Qed.

(** No identity stores the name: the count of [deleteRole] is zero. *)
Lemma countDocuments_zero (people : gmap string UserDoc) (roleName : string) :
  (forall id u, people !! id = Some u -> role u <> roleName) ->
  size (filter (fun kv : string * UserDoc => role kv.2 = roleName) people) = 0.
Proof.
  intros Hnone. apply map_size_empty_iff. apply map_empty. intros id.
  apply map_lookup_filter_None_2. right. intros u Hu. simpl. exact (Hnone id u Hu).
Qed.

Lemma updateRole_system (db : DB) (roleId : string) (r : RoleDoc)
  (updateData : UpdateRoleInput) (updatedBy_ : string) :
  fst (Role.findById roleId db) = Ok (Some r) -> isSystem r = true ->
  RoleService.updateRole roleId updateData updatedBy_ db
  = (Throw "System roles cannot be modified", db).
Proof.
  intros Hfound Hsys. apply findById_found in Hfound. destruct Hfound as (_ & _ & Hfound).
  unfold RoleService.updateRole. unfold_monad. now rewrite Hfound, Hsys.
Qed.

Lemma deleteRole_system (db : DB) (roleId : string) (r : RoleDoc) :
  fst (Role.findById roleId db) = Ok (Some r) -> isSystem r = true ->
  RoleService.deleteRole roleId db = (Throw "System roles cannot be deleted", db).
Proof.
  intros Hfound Hsys. apply findById_found in Hfound. destruct Hfound as (_ & _ & Hfound).
  unfold RoleService.deleteRole. unfold_monad. now rewrite Hfound, Hsys.
Qed.

Lemma updateRole_custom (db : DB) (roleId : string) (r : RoleDoc)
  (updateData : UpdateRoleInput) (updatedBy_ : string) :
  fst (Role.findById roleId db) = Ok (Some r) -> isSystem r = false ->
  castError updatedBy_ = None ->
  RoleService.updateRole roleId updateData updatedBy_ db
  = (Ok (Some (Role.applyUpdate updateData updatedBy_ r)),
     {| roles := Role.updateFirst (hasId roleId) (Role.applyUpdate updateData updatedBy_)
                   (roles db);
        users := users db |}).
Proof.
  intros Hfound Hcustom Hcaller. apply findById_found in Hfound.
  destruct Hfound as (Hcast & Hfind & Hfound).
  unfold RoleService.updateRole. unfold_monad. rewrite Hfound, Hcustom.
  unfold Role.findByIdAndUpdate. rewrite Hcast, Hcaller.
  rewrite (find_updateFirst _ _ _ r Hfind); [reflexivity|].
  apply find_some in Hfind. exact (proj2 Hfind).
Qed.

(** A caller id that the driver cannot cast makes the update of a custom
    role throw, and nothing is written. *)
Lemma updateRole_caller_refused (db : DB) (roleId : string) (r : RoleDoc)
  (updateData : UpdateRoleInput) (updatedBy_ e : string) :
  fst (Role.findById roleId db) = Ok (Some r) -> isSystem r = false ->
  castError updatedBy_ = Some e ->
  RoleService.updateRole roleId updateData updatedBy_ db = (Throw e, db).
Proof.
  intros Hfound Hcustom Hcaller. apply findById_found in Hfound.
  destruct Hfound as (Hcast & Hfind & Hfound).
  unfold RoleService.updateRole. unfold_monad. rewrite Hfound, Hcustom.
  unfold Role.findByIdAndUpdate. now rewrite Hcast, Hcaller.
Qed.

Lemma deleteRole_custom (db : DB) (roleId : string) (r : RoleDoc) :
  fst (Role.findById roleId db) = Ok (Some r) -> isSystem r = false ->
  let n := size (filter (fun kv : string * UserDoc => role kv.2 = name r) (users db)) in
  RoleService.deleteRole roleId db
  = if Nat.ltb 0 n then (Throw (RoleService.deleteRoleMessage n), db)
    else (Ok tt, {| roles := Role.removeFirst (hasId roleId) (roles db); users := users db |}).
Proof.
  intros Hfound Hcustom n. apply findById_found in Hfound.
  destruct Hfound as (Hcast & Hfind & Hfound).
  unfold RoleService.deleteRole. unfold_monad. rewrite Hfound, Hcustom.
  unfold User.countDocuments. fold n. destruct (Nat.ltb 0 n); [reflexivity|].
  unfold Role.findByIdAndDelete. now rewrite Hcast.
Qed.

Lemma roleIdSchema_param (roleId : string) :
  roleId <> EmptyString -> Zod.roleIdSchema {["roleId" := roleId]} = Some roleId.
Proof.
  intros Hne. unfold Zod.roleIdSchema. rewrite lookup_singleton_eq. simpl.
  destruct roleId; [congruence | reflexivity].
Qed.

(** A role made by [createRole] is a custom, active role, appended to the
    store, and it is the one found under its id when the driver gave it an id
    that casts and that no stored role has. *)
Lemma createRole_fresh (db db1 : DB) (input : CreateRoleInput) (creator : string)
  (created : RoleDoc) :
  RoleService.createRole input creator db = (Ok created, db1) ->
  isSystem created = false /\ isActive created = true
  /\ createdBy created = Some creator
  /\ db1 = {| roles := roles db ++ [created]; users := users db |}
  /\ (castError (_id created) = None ->
      ~ In (_id created) (List.map _id (roles db)) ->
      fst (Role.findById (_id created) db1) = Ok (Some created)).
Proof.
  unfold RoleService.createRole, Role.findOneByName, Role.create. unfold_monad.
  destruct (List.find _ (roles db)); [discriminate|].
  destruct (Role.validate _); [discriminate|].
  intros Heq. injection Heq as <- <-. repeat split.
  intros Hcast Hfresh. unfold Role.findById. rewrite Hcast. cbn [fst roles].
  f_equal. rewrite find_app_last.
  rewrite (proj2 (find_none_iff _ _)).
  - now rewrite String.eqb_refl.
  - intros y Hy. apply String.eqb_neq. intros Heq. apply Hfresh.
    cbn [_id Role.build] in *. rewrite <- Heq. now apply in_map.
Qed.

(** C5: [deleteRole] on a custom role whose name is stored by [n >= 1]
    identities throws the message that prints exactly [n], which the
    controller answers with status 409, and the store is left as it was; with
    the same roles and no identity storing the name any more, the same call
    removes the record and the controller answers 200. *)
Theorem C5_deleteRole_blocked_by_assignments (db : DB) (roleId : string) (r : RoleDoc) :
  fst (Role.findById roleId db) = Ok (Some r) ->
  isSystem r = false ->
  (forall n,
      n = size (filter (fun kv : string * UserDoc => role kv.2 = name r) (users db)) ->
      1 <= n ->
      let msg := ("Cannot delete role. " ++ Js.natToString n
                    ++ " user(s) are currently assigned this role.")%string in
      RoleService.deleteRole roleId db = (Throw msg, db)
      /\ (roleId <> EmptyString ->
          RoleController.deleteRole zodMessage {["roleId" := roleId]} db
          = ({| statusCode := 409; message := msg; data := None |}, db)))
  /\ (forall people : gmap string UserDoc,
        (forall id u, people !! id = Some u -> role u <> name r) ->
        let before := {| roles := roles db; users := people |} in
        let after := {| roles := Role.removeFirst (hasId roleId) (roles db);
                        users := people |} in
        RoleService.deleteRole roleId before = (Ok tt, after)
        /\ S (List.length (roles after)) = List.length (roles db)
        /\ (NoDup (List.map _id (roles db)) ->
            fst (Role.findById roleId after) = Ok None)
        /\ (roleId <> EmptyString ->
            RoleController.deleteRole zodMessage {["roleId" := roleId]} before
            = ({| statusCode := 200; message := "Role deleted successfully"; data := None |},
               after))).
Proof.
  intros Hfound Hcustom. split.
  - intros n Hn Hpos msg.
    assert (Hthrow : RoleService.deleteRole roleId db = (Throw msg, db)).
    { rewrite (deleteRole_custom db roleId r Hfound Hcustom). cbv zeta. rewrite <- Hn.
      destruct (Nat.ltb_spec 0 n); [reflexivity | lia]. }
    split; [exact Hthrow|]. intros Hne.
    unfold RoleController.deleteRole. rewrite (roleIdSchema_param roleId Hne), Hthrow.
    unfold RoleController.deleteRoleCatch.
    destruct (deleteRoleMessage_status n) as (H1 & H2 & H3).
    unfold RoleService.deleteRoleMessage in *. fold msg in H1, H2, H3.
    now rewrite H1, H2, H3.
  - intros people Hnone. cbv zeta.
    set (before := {| roles := roles db; users := people |}).
    set (after := {| roles := Role.removeFirst (hasId roleId) (roles db); users := people |}).
    destruct (findById_found db roleId r Hfound) as (Hcast & Hfind & _).
    assert (Hfound' : fst (Role.findById roleId before) = Ok (Some r)).
    { unfold Role.findById, before. rewrite Hcast. cbn [fst roles]. now rewrite Hfind. }
    assert (Hok : RoleService.deleteRole roleId before = (Ok tt, after)).
    { rewrite (deleteRole_custom before roleId r Hfound' Hcustom). cbv zeta.
      unfold before at 1. cbn [users].
      rewrite (countDocuments_zero people (name r) Hnone). reflexivity. }
    split; [exact Hok|]. split; [|split].
    + unfold after. cbn [roles]. exact (length_removeFirst _ _ r Hfind).
    + intros Hnd. unfold Role.findById, after. rewrite Hcast. cbn [fst roles].
      now rewrite find_removeFirst.
    + intros Hne. unfold RoleController.deleteRole.
      now rewrite (roleIdSchema_param roleId Hne), Hok.
Qed.

Lemma updateFirst_first (p : RoleDoc -> bool) (f : RoleDoc -> RoleDoc) (l : list RoleDoc)
  (r : RoleDoc) :
  List.find p l = Some r ->
  Role.updateFirst p f l = Role.updateFirst p (fun _ => f r) l.
Proof.
  induction l as [|a l IH]; simpl; [reflexivity|].
  destruct (p a).
  - intros Heq. injection Heq as ->. reflexivity.
  - intros Hfind. f_equal. now apply IH.
Qed.

(** C8: on a role whose [isSystem] flag is set, [updateRole] and [deleteRole]
    throw, the controller answers 403, and the store is left as it was.  On a
    role whose flag is not set, [updateRole] replaces the record by the one in
    which the fields present in the patch are overwritten (the two texts
    trimmed by the schema), [updatedBy] is the caller, and the other fields
    are kept; [deleteRole] removes the record when no identity stores its
    name.  A role made by [createRole] has the flag unset and is the one
    found under its new id, so both calls succeed on it.  The caller of
    [updateRole] is an identity: its id is one the driver can cast for
    [updatedBy]; with any other string the update of a custom role throws the
    driver's cast error and writes nothing. *)
Theorem C8_system_roles_protected (db : DB) (updateData : UpdateRoleInput)
  (updatedBy_ : string) :
  (forall roleId r,
      fst (Role.findById roleId db) = Ok (Some r) -> isSystem r = true ->
      RoleService.updateRole roleId updateData updatedBy_ db
      = (Throw "System roles cannot be modified", db)
      /\ RoleService.deleteRole roleId db = (Throw "System roles cannot be deleted", db)
      /\ (roleId <> EmptyString ->
          (forall body user,
              Zod.updateRoleSchema body = Some updateData ->
              RoleController.authenticatedId user = Some updatedBy_ ->
              RoleController.updateRole zodMessage {["roleId" := roleId]} body user db
              = ({| statusCode := 403; message := "System roles cannot be modified";
                    data := None |}, db))
          /\ RoleController.deleteRole zodMessage {["roleId" := roleId]} db
             = ({| statusCode := 403; message := "System roles cannot be deleted";
                   data := None |}, db)))
  /\ (forall roleId r,
        fst (Role.findById roleId db) = Ok (Some r) -> isSystem r = false ->
        let merged :=
          {| _id := _id r;
             name := name r;
             displayName :=
               match update_displayName updateData with
               | Some s => Js.trim s
               | None => displayName r
               end;
             description :=
               match update_description updateData with
               | Some s => Some (Js.trim s)
               | None => description r
               end;
             permissions :=
               match update_permissions updateData with
               | Some ps => ps
               | None => permissions r
               end;
             isSystem := false;
             isActive :=
               match update_isActive updateData with
               | Some b => b
               | None => isActive r
               end;
             createdBy := createdBy r;
             updatedBy := Some updatedBy_ |} in
        (castError updatedBy_ = None ->
         RoleService.updateRole roleId updateData updatedBy_ db
         = (Ok (Some merged),
            {| roles := Role.updateFirst (hasId roleId) (fun _ => merged) (roles db);
               users := users db |}))
        /\ (forall e, castError updatedBy_ = Some e ->
             RoleService.updateRole roleId updateData updatedBy_ db = (Throw e, db))
        /\ ((forall id u, users db !! id = Some u -> role u <> name r) ->
            RoleService.deleteRole roleId db
            = (Ok tt, {| roles := Role.removeFirst (hasId roleId) (roles db);
                         users := users db |})))
  /\ (forall input creator created db1,
        RoleService.createRole input creator db = (Ok created, db1) ->
        isSystem created = false
        /\ (castError (_id created) = None ->
            ~ In (_id created) (List.map _id (roles db)) ->
            fst (Role.findById (_id created) db1) = Ok (Some created))).
Proof.
  split; [|split].
  - intros roleId r Hfound Hsys.
    pose proof (updateRole_system db roleId r updateData updatedBy_ Hfound Hsys) as Hup.
    pose proof (deleteRole_system db roleId r Hfound Hsys) as Hdel.
    split; [exact Hup|]. split; [exact Hdel|]. intros Hne. split.
    + intros body user Hbody Huser. unfold RoleController.updateRole.
      rewrite (roleIdSchema_param roleId Hne), Hbody, Huser, Hup. reflexivity.
    + unfold RoleController.deleteRole.
      rewrite (roleIdSchema_param roleId Hne), Hdel. reflexivity.
  - intros roleId r Hfound Hcustom merged.
    destruct (findById_found db roleId r Hfound) as (_ & Hfind & _).
    assert (Hmerged : Role.applyUpdate updateData updatedBy_ r = merged).
    { unfold Role.applyUpdate, merged. now rewrite Hcustom. }
    split; [|split].
    + intros Hcaller.
      rewrite (updateRole_custom db roleId r updateData updatedBy_ Hfound Hcustom Hcaller).
      rewrite (updateFirst_first _ _ _ r Hfind), Hmerged. reflexivity.
    + intros e Hcaller.
      exact (updateRole_caller_refused db roleId r updateData updatedBy_ e Hfound Hcustom
               Hcaller).
    + intros Hnone. rewrite (deleteRole_custom db roleId r Hfound Hcustom). cbv zeta.
      now rewrite (countDocuments_zero (users db) (name r) Hnone).
  - intros input creator created db1 Hcreate.
    destruct (createRole_fresh db db1 input creator created Hcreate)
      as (Hsys & _ & _ & _ & Hfind).
    split; assumption.
Qed.

End RoleMutationFacts.

(** ** Bulk assignment *)

Section BulkFacts.
Context `{Driver}.

Lemma resolves_alter (f : UserDoc -> UserDoc) (x : string) (people : gmap string UserDoc)
  (id : string) :
  resolves (alter f x people) id = resolves people id.
Proof.
  unfold resolves. destruct (castError id); [reflexivity|].
  destruct (decide (x = id)) as [-> | Hne].
  - rewrite lookup_alter_eq. now destruct (people !! id).
  - now rewrite lookup_alter_ne.
Qed.

Lemma filter_resolves_alter (f : UserDoc -> UserDoc) (x : string)
  (people : gmap string UserDoc) (ids : list string) :
  List.filter (resolves (alter f x people)) ids = List.filter (resolves people) ids.
Proof.
  apply List.filter_ext. intros id. apply resolves_alter.
Qed.

Lemma filter_unresolved_alter (f : UserDoc -> UserDoc) (x : string)
  (people : gmap string UserDoc) (ids : list string) :
  List.filter (fun id => negb (resolves (alter f x people) id)) ids
  = List.filter (fun id => negb (resolves people id)) ids.
Proof.
  apply List.filter_ext. intros id. now rewrite resolves_alter.
Qed.

(** One turn of the loop. *)
Lemma bulkAssignStep_spec (roleName : string) (acc : RoleService.BulkResult) (x : string)
  (db : DB) :
  RoleService.bulkAssignStep roleName acc x db
  = if resolves (users db) x
    then (Ok {| RoleService.success := RoleService.success acc ++ [x];
                RoleService.failed := RoleService.failed acc |},
          {| roles := roles db; users := alter (User.setRole roleName) x (users db) |})
    else (Ok {| RoleService.success := RoleService.success acc;
                RoleService.failed := RoleService.failed acc ++ [(x, failureReason x)] |},
          db).
Proof.
  unfold RoleService.bulkAssignStep, User.findById, User.findByIdAndUpdate,
    resolves, failureReason.
  unfold_monad. destruct (castError x) as [e|]; [reflexivity|].
  destruct (users db !! x); reflexivity.
Qed.

Lemma bulkAssignLoop_spec (roleName : string) (ids : list string) :
  forall (acc : RoleService.BulkResult) (db : DB),
  exists db',
    RoleService.bulkAssignLoop roleName ids acc db
    = (Ok {| RoleService.success :=
               RoleService.success acc ++ List.filter (resolves (users db)) ids;
             RoleService.failed :=
               RoleService.failed acc
               ++ List.map (fun id => (id, failureReason id))
                    (List.filter (fun id => negb (resolves (users db) id)) ids) |},
       db')
    /\ roles db' = roles db
    /\ forall id,
         users db' !! id
         = if Js.arrayIncludes (List.filter (resolves (users db)) ids) id
           then User.setRole roleName <$> users db !! id
           else users db !! id.
Proof.
  induction ids as [|x rest IH]; intros acc db.
  - exists db. cbn [RoleService.bulkAssignLoop List.filter List.map]. rewrite !app_nil_r.
    destruct acc. split; [reflexivity|]. split; reflexivity.
  - cbn [RoleService.bulkAssignLoop List.filter]. unfold bind at 1.
    rewrite bulkAssignStep_spec. destruct (resolves (users db) x) eqn:Hx.
    + edestruct IH as (db' & Hrun & Hroles & Husers). exists db'.
      rewrite Hrun. cbn [RoleService.success RoleService.failed users roles negb].
      rewrite filter_resolves_alter, filter_unresolved_alter, <- app_assoc.
      split; [reflexivity|]. split; [exact Hroles|].
      intros id. rewrite Husers. cbn [users].
      rewrite filter_resolves_alter. unfold Js.arrayIncludes. cbn [existsb].
      destruct (String.eqb_spec id x) as [-> | Hne]; cbn [orb].
      * rewrite lookup_alter_eq.
        destruct (existsb _ _); destruct (users db !! x); reflexivity.
      * rewrite lookup_alter_ne by congruence. reflexivity.
    + edestruct IH as (db' & Hrun & Hroles & Husers). exists db'.
      rewrite Hrun. cbn [RoleService.success RoleService.failed negb List.map].
      rewrite <- app_assoc. split; [reflexivity|]. split; [exact Hroles|]. exact Husers.
Qed.

(** C6, as the code has it: the three checks made once for the whole batch
    throw (role missing or inactive, assigner missing, assignment not
    allowed); past them the call returns: [success] lists, in order, the ids
    that resolve, [failed] the others with their reason, each resolved
    identity holds the role afterwards and nothing else changes. *)
Theorem C6_bulkAssignRole_collects_failures (db : DB) (userIds : list string)
  (roleName assignedBy : string) :
  (fst (Role.findOneActive roleName db) = Ok None ->
   RoleService.bulkAssignRole userIds roleName assignedBy db
   = (Throw "Role not found or inactive", db))
  /\ (forall r,
        fst (Role.findOneActive roleName db) = Ok (Some r) ->
        fst (User.findById assignedBy db) = Ok None ->
        RoleService.bulkAssignRole userIds roleName assignedBy db
        = (Throw "Assigning user not found", db))
  /\ (forall r a,
        fst (Role.findOneActive roleName db) = Ok (Some r) ->
        fst (User.findById assignedBy db) = Ok (Some a) ->
        RoleService.canAssignRole (role a) roleName = false ->
        RoleService.bulkAssignRole userIds roleName assignedBy db
        = (Throw "You do not have permission to assign this role", db))
  /\ (forall r a,
        fst (Role.findOneActive roleName db) = Ok (Some r) ->
        fst (User.findById assignedBy db) = Ok (Some a) ->
        RoleService.canAssignRole (role a) roleName = true ->
        exists db',
          RoleService.bulkAssignRole userIds roleName assignedBy db
          = (Ok {| RoleService.success := List.filter (resolves (users db)) userIds;
                   RoleService.failed :=
                     List.map (fun id => (id, failureReason id))
                       (List.filter (fun id => negb (resolves (users db) id)) userIds) |},
             db')
          /\ roles db' = roles db
          /\ forall id,
               users db' !! id
               = if Js.arrayIncludes (List.filter (resolves (users db)) userIds) id
                 then User.setRole roleName <$> users db !! id
                 else users db !! id).
Proof.
  unfold RoleService.bulkAssignRole, Role.findOneActive, User.findById. unfold_monad.
  cbn [fst]. repeat split.
  - intros Hrole. injection Hrole as ->. reflexivity.
  - intros r Hrole. injection Hrole as ->.
    destruct (castError assignedBy); cbn [fst]; [discriminate|].
    intros Huser. injection Huser as ->. reflexivity.
  - intros r a Hrole. injection Hrole as ->.
    destruct (castError assignedBy); cbn [fst]; [discriminate|].
    intros Huser. injection Huser as ->. intros ->. reflexivity.
  - intros r a Hrole. injection Hrole as ->.
    destruct (castError assignedBy); cbn [fst]; [discriminate|].
    intros Huser. injection Huser as ->. intros ->. cbn [negb].
    destruct (bulkAssignLoop_spec roleName userIds
                {| RoleService.success := []; RoleService.failed := [] |} db)
      as (db' & Hrun & Hroles & Husers).
    exists db'. rewrite Hrun. cbn [RoleService.success RoleService.failed app].
    split; [reflexivity|]. split; assumption.
Qed.

End BulkFacts.

(** C6, as it is worded, fails: with two valid ids and one that names nobody,
    a teacher asking to hand out [admin], or anybody asking for a role that
    does not exist, gets an exception for the whole batch and no lists. *)
Lemma C6_batch_throws :
  @RoleService.bulkAssignRole Sample.driver
    [Sample.aliceId; Sample.ghostId; Sample.bobId] "admin" Sample.teacherId Sample.seeded
  = (Throw "You do not have permission to assign this role", Sample.seeded)
  /\ @RoleService.bulkAssignRole Sample.driver
       [Sample.aliceId; Sample.ghostId; Sample.bobId] "janitor" Sample.adminId Sample.seeded
     = (Throw "Role not found or inactive", Sample.seeded).
Proof. split; vm_compute; reflexivity. Qed.

(** ** What an update through the controller can change *)

Section UpdateFrameFacts.
Context `{Driver}.
Variable zodMessage : string.

Lemma identityOf_applyUpdate (u : UpdateRoleInput) (by_ : string) (r : RoleDoc) :
  identityOf (Role.applyUpdate u by_ r) = identityOf r.
Proof. reflexivity. Qed.

Lemma updateFirst_identity (p : RoleDoc -> bool) (f : RoleDoc -> RoleDoc) (l : list RoleDoc) :
  (forall r, identityOf (f r) = identityOf r) ->
  List.map identityOf (Role.updateFirst p f l) = List.map identityOf l.
Proof.
  intros Hf. induction l as [|a l IH]; simpl; [reflexivity|].
  destruct (p a); simpl; [now rewrite Hf | now rewrite IH].
Qed.

Lemma updateRole_service_frame (roleId : string) (u : UpdateRoleInput) (by_ : string)
  (db : DB) :
  List.map identityOf (roles (snd (RoleService.updateRole roleId u by_ db)))
  = List.map identityOf (roles db)
  /\ users (snd (RoleService.updateRole roleId u by_ db)) = users db.
Proof.
  unfold RoleService.updateRole, Role.findById, Role.findByIdAndUpdate. unfold_monad.
  destruct (castError roleId); [split; reflexivity|].
  destruct (List.find _ (roles db)) as [r|]; [|split; reflexivity].
  destruct (isSystem r); [split; reflexivity|].
  destruct (castError by_); [split; reflexivity|].
  cbn [snd roles users]. split; [|reflexivity].
  apply updateFirst_identity. intros r'. apply identityOf_applyUpdate.
Qed.

Lemma updateRoleSchema_ignores (fields : gmap string Json) (k : string) (v : Json) :
  ~ In k ["displayName"; "description"; "permissions"; "isActive"] ->
  Zod.updateRoleSchema (JObject (<[k := v]> fields)) = Zod.updateRoleSchema (JObject fields).
Proof.
  intros Hk. unfold Zod.updateRoleSchema.
  rewrite !lookup_insert_ne; [reflexivity | | | |];
    intros ->; apply Hk; simpl; tauto.
Qed.

(** [routes/api/roleRoutes.ts] declares the update and delete routes on the
    path [/:id], so the parameters Express hands over bind [id]; the schema of
    the controller reads [roleId], finds none, and the service is not
    reached. *)
Lemma declared_route_parameters (segment : string) (body : Json) (user : option AuthUser)
  (db : DB) :
  Zod.roleIdSchema {["id" := segment]} = None
  /\ RoleController.updateRole zodMessage {["id" := segment]} body user db
     = (RoleController.updateRoleCatch zodMessage, db)
  /\ RoleController.deleteRole zodMessage {["id" := segment]} db
     = (RoleController.deleteRoleCatch zodMessage, db).
Proof.
  assert (Hparse : Zod.roleIdSchema {["id" := segment]} = None).
  { unfold Zod.roleIdSchema. now rewrite lookup_singleton_ne. }
  unfold RoleController.updateRole, RoleController.deleteRole. now rewrite Hparse.
Qed.

(** C10: whatever the route parameters, the body and the caller, an
    [updateRole] request leaves the id, the name, the [isSystem] flag and the
    creator of every role record as they were, and the identities too.  The
    patch has the four fields [displayName], [description], [permissions] and
    [isActive] only: any other key of the body, [name] and [isSystem]
    included, has no effect on what the schema returns. *)
Theorem C10_updateRole_keeps_name (db : DB) (params : gmap string string) (body : Json)
  (user : option AuthUser) :
  List.map identityOf (roles (snd (RoleController.updateRole zodMessage params body user db)))
  = List.map identityOf (roles db)
  /\ users (snd (RoleController.updateRole zodMessage params body user db)) = users db
  /\ (forall fields k v,
        ~ In k ["displayName"; "description"; "permissions"; "isActive"] ->
        Zod.updateRoleSchema (JObject (<[k := v]> fields))
        = Zod.updateRoleSchema (JObject fields)).
Proof.
  split; [|split].
  - unfold RoleController.updateRole.
    destruct (Zod.roleIdSchema params) as [roleId|]; [|reflexivity].
    destruct (Zod.updateRoleSchema body) as [u|]; [|reflexivity].
    destruct (RoleController.authenticatedId user) as [uid|]; [|reflexivity].
    pose proof (updateRole_service_frame roleId u uid db) as [Hroles _].
    destruct (RoleService.updateRole roleId u uid db) as [[r|msg] db']; exact Hroles.
  - unfold RoleController.updateRole.
    destruct (Zod.roleIdSchema params) as [roleId|]; [|reflexivity].
    destruct (Zod.updateRoleSchema body) as [u|]; [|reflexivity].
    destruct (RoleController.authenticatedId user) as [uid|]; [|reflexivity].
    pose proof (updateRole_service_frame roleId u uid db) as [_ Husers].
    destruct (RoleService.updateRole roleId u uid db) as [[r|msg] db']; exact Husers.
  - intros fields k v. apply updateRoleSchema_ignores.
Qed.

End UpdateFrameFacts.

(** ** The permission gate *)

Section PromiseFacts.
Context {A : Type}.
Implicit Types (p q : AuthMiddleware.Promise A) (ps : list (AuthMiddleware.Promise A)).

Import AuthMiddleware.

Lemma firstRejection_none ps :
  firstRejection ps = None <-> forall p, In p ps -> exists a, settled p = Ok a.
Proof.
  induction ps as [|p ps IH]; simpl.
  - split; [intros _ q [] | reflexivity].
  - destruct (settled p) as [a|e] eqn:Hp.
    + rewrite IH. split.
      * intros Hall q [<- | Hq]; [now exists a | now apply Hall].
      * intros Hall q Hq. apply Hall. now right.
    + split.
      * destruct (firstRejection ps) as [[t e']|]; [destruct (Z.leb _ _)|]; discriminate.
      * intros Hall. destruct (Hall p (or_introl eq_refl)) as [a Ha]. congruence.
Qed.

Lemma firstRejection_some ps t e :
  firstRejection ps = Some (t, e) ->
  (exists p, In p ps /\ settled p = Throw e /\ settledAt p = t)
  /\ forall q e', In q ps -> settled q = Throw e' -> (t <= settledAt q)%Z.
Proof.
  revert t e. induction ps as [|p ps IH]; simpl; intros t e; [discriminate|].
  destruct (settled p) as [a|ep] eqn:Hp.
  - intros Hrest. destruct (IH t e Hrest) as [(p0 & Hin & Hs & Ht) Hmin]. split.
    + exists p0. auto.
    + intros q e' [<- | Hq] Hq'; [congruence | now apply (Hmin q e')].
  - destruct (firstRejection ps) as [[t' e'']|] eqn:Hrest.
    + destruct (IH t' e'' eq_refl) as [(p0 & Hin & Hs & Ht) Hmin].
      destruct (Z.leb_spec (settledAt p) t') as [Hle | Hgt]; intros Heq;
        injection Heq as <- <-.
      * split; [exists p; auto|].
        intros q e' [<- | Hq] Hq'; [lia|]. specialize (Hmin q e' Hq Hq'). lia.
      * split; [exists p0; auto|].
        intros q e' [<- | Hq] Hq'; [lia | now apply (Hmin q e')].
    + intros Heq. injection Heq as <- <-. split; [exists p; auto|].
      intros q e' [<- | Hq] Hq'; [lia|].
      apply firstRejection_none with (p := q) in Hrest; [|assumption].
      destruct Hrest as [a Ha]. congruence.
Qed.

Lemma lastSettled_le ps (T : Z) :
  (lastSettled ps <= T)%Z <-> (0 <= T)%Z /\ forall p, In p ps -> (settledAt p <= T)%Z.
Proof.
  unfold lastSettled. induction ps as [|p ps IH]; simpl.
  - split; [intros HT; split; [assumption | intros q []] | tauto].
  - rewrite Z.max_lub_iff, IH. split.
    + intros (Hp & H0 & Hall). split; [assumption|].
      intros q [<- | Hq]; [assumption | now apply Hall].
    + intros (H0 & Hall). split; [apply Hall; now left|]. split; [assumption|].
      intros q Hq. apply Hall. now right.
Qed.

End PromiseFacts.

Section GateFacts.
Context `{Driver}.

Import AuthMiddleware.

Lemma some_fulfilled_true (ps : list (Promise bool)) :
  firstRejection ps = None ->
  existsb (fun b : bool => b) (fulfilledValues ps) = true
  <-> exists p, In p ps /\ settled p = Ok true.
Proof.
  induction ps as [|p ps IH]; simpl.
  - intros _. split; [discriminate | intros (p & [] & _)].
  - destruct (settled p) as [b|e] eqn:Hp.
    + intros Hrest. simpl. rewrite orb_true_iff, (IH Hrest). split.
      * intros [-> | (q & Hq & Hs)]; [exists p; auto | exists q; auto].
      * intros (q & [<- | Hq] & Hs); [left; congruence | right; now exists q].
    + destruct (firstRejection ps) as [[t e']|]; [destruct (Z.leb _ _)|]; discriminate.
Qed.

Lemma gate_cases (permissions_ : list string) (rt : Runtime) (u : AuthUser) (db : DB) :
  let checks := imap (permissionCheck rt db (userId u)) permissions_ in
  requirePermission permissions_ rt (Some u) db
  = match firstRejection checks with
    | Some (t, e) =>
        if Z.ltb 5000 t then Reply 403 "Insufficient permissions"
        else Reply 500 "Error checking permissions"
    | None =>
        if Z.ltb 5000 (lastSettled checks) then Reply 403 "Insufficient permissions"
        else if existsb (fun b : bool => b) (fulfilledValues checks) then Next
             else Reply 403 "Insufficient permissions"
    end.
Proof.
  intros checks. unfold requirePermission. fold checks.
  unfold PromiseRace, PromiseAll, mapPromise, timeoutPromise.
  destruct (firstRejection checks) as [[t e]|]; cbn [settledAt settled].
  - destruct (Z.ltb 5000 t); reflexivity.
  - destruct (Z.ltb 5000 (lastSettled checks)); cbn [settled]; [reflexivity|].
    destruct (existsb _ _); reflexivity.
Qed.

(** C3: for an authenticated request, the gate calls [next()] exactly when
    every check has fulfilled by the 5000 ms of the timer and at least one of
    them with [true] (any one, not all).  When the timer fires before the
    checks are through it answers 403; when a check rejects before the timer
    it answers 500; when all checks fulfil in time with [false] it answers
    403. *)
Theorem C3_requirePermission_any_of (permissions_ : list string) (rt : Runtime)
  (u : AuthUser) (db : DB) :
  let checks := imap (permissionCheck rt db (userId u)) permissions_ in
  let answer := requirePermission permissions_ rt (Some u) db in
  (answer = Next <->
   (forall c, In c checks -> (settledAt c <= 5000)%Z /\ exists b, settled c = Ok b)
   /\ (exists c, In c checks /\ settled c = Ok true))
  /\ ((exists c, In c checks /\ (5000 < settledAt c)%Z) ->
      (forall c e, In c checks -> settled c = Throw e -> (5000 < settledAt c)%Z) ->
      answer = Reply 403 "Insufficient permissions")
  /\ ((exists c e, In c checks /\ settled c = Throw e /\ (settledAt c <= 5000)%Z) ->
      answer = Reply 500 "Error checking permissions")
  /\ ((forall c, In c checks -> (settledAt c <= 5000)%Z /\ settled c = Ok false) ->
      answer = Reply 403 "Insufficient permissions").
Proof.
  intros checks answer. subst answer. rewrite gate_cases. fold checks.
  destruct (firstRejection checks) as [[t e]|] eqn:Hrej.
  - destruct (firstRejection_some checks t e Hrej) as [(p & Hp & Hs & Ht) Hmin].
    split; [|split; [|split]].
    + split.
      * destruct (Z.ltb 5000 t); discriminate.
      * intros [Hall _]. destruct (Hall p Hp) as [_ [b Hb]]. congruence.
    + intros _ Hlate. specialize (Hlate p e Hp Hs).
      destruct (Z.ltb_spec 5000 t); [reflexivity | lia].
    + intros (c & e' & Hc & Hs' & Hle). specialize (Hmin c e' Hc Hs').
      destruct (Z.ltb_spec 5000 t); [lia | reflexivity].
    + intros Hall. destruct (Hall p Hp) as [_ Hfalse]. congruence.
  - pose proof (some_fulfilled_true checks Hrej) as Hany.
    pose proof (proj1 (firstRejection_none checks) Hrej) as Hok.
    split; [|split; [|split]].
    + destruct (Z.ltb_spec 5000 (lastSettled checks)) as [Hlate | Hintime].
      * split; [discriminate|]. intros [Hall _].
        assert (lastSettled checks <= 5000)%Z; [|lia].
        apply lastSettled_le. split; [lia|]. intros c Hc. now apply Hall.
      * apply lastSettled_le in Hintime. destruct Hintime as [_ Hintime].
        destruct (existsb _ _) eqn:Hex.
        -- split; [intros _|reflexivity]. split; [|now apply Hany].
           intros c Hc. split; [now apply Hintime | now apply Hok].
        -- split; [discriminate|]. intros [_ Hsome]. apply Hany in Hsome. discriminate.
    + intros (c & Hc & Hlate) _.
      destruct (Z.ltb_spec 5000 (lastSettled checks)) as [_ | Hintime]; [reflexivity|].
      apply lastSettled_le in Hintime. destruct Hintime as [_ Hintime].
      specialize (Hintime c Hc). lia.
    + intros (c & e & Hc & Hs & _). destruct (Hok c Hc) as [b Hb]. congruence.
    + intros Hall. destruct (Z.ltb 5000 (lastSettled checks)); [reflexivity|].
      destruct (existsb _ _) eqn:Hex; [|reflexivity].
      destruct (proj1 Hany eq_refl) as (c & Hc & Hs).
      destruct (Hall c Hc) as [_ Hfalse]. congruence.
Qed.

End GateFacts.

(** ** The rate limiter *)

Section LimiterFacts.

Import AuthMiddleware.

Implicit Types (attempts : gmap string Attempt) (events : list Event).

Lemma rateLimitAuth_other (maxAttempts : nat) (windowMs : Z) (req : AuthRequest) (now : Z)
  attempts (key : string) :
  attemptKey req <> key ->
  snd (rateLimitAuth maxAttempts windowMs req now attempts) !! key = attempts !! key.
Proof.
  intros Hne. unfold rateLimitAuth.
  destruct (attempts !! attemptKey req) as [a|]; cbn [snd].
  - destruct (Z.ltb (resetTime a) now); cbn [snd]; [now rewrite lookup_insert_ne|].
    destruct (Nat.leb maxAttempts (count a)); cbn [snd]; [reflexivity|].
    now rewrite lookup_insert_ne.
  - now rewrite lookup_insert_ne.
Qed.

Lemma rateLimitAuth_open (maxAttempts : nat) (windowMs : Z) (req : AuthRequest) (now : Z)
  attempts (c : nat) (R : Z) :
  attempts !! attemptKey req = Some {| count := c; resetTime := R |} ->
  (now <= R)%Z ->
  rateLimitAuth maxAttempts windowMs req now attempts
  = if Nat.ltb c maxAttempts
    then (Next, <[attemptKey req := {| count := S c; resetTime := R |}]> attempts)
    else (refusal R now, attempts).
Proof.
  intros Hk Hnow. unfold rateLimitAuth. rewrite Hk. cbn [resetTime count].
  destruct (Z.ltb_spec R now); [lia|].
  destruct (Nat.leb_spec maxAttempts c), (Nat.ltb_spec c maxAttempts); try lia;
    [|reflexivity].
  unfold refusal, tooManyMessage. change (1000 * 60)%Z with 60000%Z. reflexivity.
Qed.

Lemma rateLimitAuth_fresh (maxAttempts : nat) (windowMs : Z) (req : AuthRequest) (now : Z)
  attempts :
  (attempts !! attemptKey req = None
   \/ exists a, attempts !! attemptKey req = Some a /\ (resetTime a < now)%Z) ->
  rateLimitAuth maxAttempts windowMs req now attempts
  = (Next, <[attemptKey req := {| count := 1; resetTime := (now + windowMs)%Z |}]> attempts).
Proof.
  unfold rateLimitAuth. intros [-> | (a & -> & Hlate)]; [reflexivity|].
  destruct (Z.ltb_spec (resetTime a) now); [reflexivity | lia].
Qed.

Lemma cleanup_keeps (now : Z) attempts (key : string) (a : Attempt) :
  attempts !! key = Some a -> (now <= resetTime a)%Z ->
  cleanup now attempts !! key = Some a.
Proof.
  intros Hk Hnow. unfold cleanup. apply map_lookup_filter_Some_2; [assumption|].
  cbn [snd]. lia.
Qed.

(** Inside an open window the limiter is a counter: the [i]-th request of the
    key from now on passes when the count reached so far plus [i] is below the
    limit, whatever the other keys and the sweeps do in between. *)
Lemma run_window (maxAttempts : nat) (windowMs : Z) (key : string) (R : Z) events :
  forall attempts (c : nat),
    attempts !! key = Some {| count := c; resetTime := R |} ->
    (forall e, In e events -> (eventTime e <= R)%Z) ->
    outcomesOf key events (fst (run maxAttempts windowMs events attempts))
    = imap (fun i t => (t, if Nat.ltb (c + i) maxAttempts then Next else refusal R t))
        (requestTimes key events)
    /\ exists c', snd (run maxAttempts windowMs events attempts) !! key
                  = Some {| count := c'; resetTime := R |}.
Proof.
  induction events as [|e events IH]; intros attempts c Hk Htimes.
  - split; [reflexivity | now exists c].
  - assert (Hrest : forall e', In e' events -> (eventTime e' <= R)%Z)
      by (intros e' He'; apply Htimes; now right).
    pose proof (Htimes e (or_introl eq_refl)) as Hnow.
    destruct e as [req now | now]; cbn [eventTime] in Hnow.
    + cbn [run outcomesOf requestTimes].
      destruct (rateLimitAuth maxAttempts windowMs req now attempts) as [o attempts'] eqn:Hstep.
      destruct (run maxAttempts windowMs events attempts') as [os final] eqn:Hrun.
      cbn [fst snd].
      destruct (String.eqb_spec (attemptKey req) key) as [Heq | Hne].
      * subst key. rewrite (rateLimitAuth_open _ _ _ _ _ c R Hk Hnow) in Hstep.
        destruct (Nat.ltb_spec c maxAttempts) as [Hlt | Hge]; injection Hstep as <- <-.
        -- destruct (IH (<[attemptKey req := {| count := S c; resetTime := R |}]> attempts)
                       (S c) (lookup_insert_eq _ _ _) Hrest) as [Hout Hfinal].
           rewrite Hrun in Hout, Hfinal. cbn [fst snd] in Hout, Hfinal.
           split; [|exact Hfinal]. rewrite Hout. cbn [imap]. rewrite Nat.add_0_r.
           destruct (Nat.ltb_spec c maxAttempts); [|lia]. f_equal.
           apply imap_ext. intros i t _. cbv beta. unfold compose.
           now replace (S c + i) with (c + S i) by lia.
        -- destruct (IH attempts c Hk Hrest) as [Hout Hfinal].
           rewrite Hrun in Hout, Hfinal. cbn [fst snd] in Hout, Hfinal.
           split; [|exact Hfinal]. rewrite Hout. cbn [imap]. rewrite Nat.add_0_r.
           destruct (Nat.ltb_spec c maxAttempts); [lia|]. f_equal.
           apply imap_ext. intros i t _. cbv beta. unfold compose.
           destruct (Nat.ltb_spec (c + i) maxAttempts), (Nat.ltb_spec (c + S i) maxAttempts);
             try lia; reflexivity.
      * assert (Hk' : attempts' !! key = Some {| count := c; resetTime := R |}).
        { pose proof (rateLimitAuth_other maxAttempts windowMs req now attempts key Hne) as Ho.
          rewrite Hstep in Ho. cbn [snd] in Ho. now rewrite Ho. }
        destruct (IH attempts' c Hk' Hrest) as [Hout Hfinal].
        rewrite Hrun in Hout, Hfinal. cbn [fst snd] in Hout, Hfinal. split; assumption.
    + cbn [run outcomesOf requestTimes].
      apply IH; [|assumption]. now apply cleanup_keeps.
Qed.

(** The limiter counts per key.  Take a request at [t0] from a key that has
    no open window (no entry, or an entry whose window has elapsed), and any
    run of later events up to the end [t0 + windowMs] of the window it opens:
    requests from this and from other keys, and sweeps.  Then, counting from
    the first, the requests of the key below the limit pass and all the
    others are refused with status 429 and the number of minutes left,
    rounded up.  The entry of the key still closes at [t0 + windowMs], and
    the next request of the key after that time passes and restarts the
    count at 1. *)
Lemma rateLimitAuth_window_by_key (maxAttempts : nat) (windowMs : Z) attempts
  (req : AuthRequest) (t0 : Z) events :
  let key := attemptKey req in
  let closes := (t0 + windowMs)%Z in
  let whole := Incoming req t0 :: events in
  (attempts !! key = None \/ exists a, attempts !! key = Some a /\ (resetTime a < t0)%Z) ->
  (forall e, In e events -> (eventTime e <= closes)%Z) ->
  outcomesOf key whole (fst (run maxAttempts windowMs whole attempts))
  = imap (fun i t => (t, if Nat.ltb i (Nat.max 1 maxAttempts) then Next else refusal closes t))
      (t0 :: requestTimes key events)
  /\ (exists c, snd (run maxAttempts windowMs whole attempts) !! key
                = Some {| count := c; resetTime := closes |})
  /\ (forall later, (closes < later)%Z ->
        rateLimitAuth maxAttempts windowMs req later
          (snd (run maxAttempts windowMs whole attempts))
        = (Next, <[key := {| count := 1; resetTime := (later + windowMs)%Z |}]>
                   (snd (run maxAttempts windowMs whole attempts))))
  /\ defaultMaxAttempts = 5 /\ defaultWindowMs = 900000%Z.
Proof.
  intros key closes whole Hfresh Htimes.
  pose proof (rateLimitAuth_fresh maxAttempts windowMs req t0 attempts Hfresh) as Hfirst.
  fold key closes in Hfirst.
  set (opened := <[key := {| count := 1; resetTime := closes |}]> attempts) in Hfirst.
  destruct (run_window maxAttempts windowMs key closes events opened 1
              (lookup_insert_eq _ _ _) Htimes) as [Hout Hfinal].
  assert (Hrun : run maxAttempts windowMs whole attempts
                 = (Next :: fst (run maxAttempts windowMs events opened),
                    snd (run maxAttempts windowMs events opened))).
  { unfold whole. cbn [run]. rewrite Hfirst.
    now destruct (run maxAttempts windowMs events opened). }
  rewrite Hrun. cbn [fst snd]. split; [|split; [|split]].
  - unfold whole. cbn [outcomesOf]. fold key. rewrite String.eqb_refl, Hout.
    cbn [imap]. f_equal.
    + destruct (Nat.ltb_spec 0 (Nat.max 1 maxAttempts)); [reflexivity | lia].
    + apply imap_ext. intros i t _. cbv beta. unfold compose.
      destruct (Nat.ltb_spec (1 + i) maxAttempts),
        (Nat.ltb_spec (S i) (Nat.max 1 maxAttempts)); try lia; reflexivity.
  - exact Hfinal.
  - intros later Hlater. apply rateLimitAuth_fresh. right.
    destruct Hfinal as [c Hc]. fold key. rewrite Hc. eexists. split; [reflexivity|].
    cbn [resetTime]. lia.
  - split; reflexivity.
Qed.

End LimiterFacts.

(** ** The statements at work on the sample deployment *)

Lemma C2_resolution_on_sample :
  RoleService.getRolePermissions "moderator" Sample.withModerator
  = (Ok ["view_hotels"; "view_bookings"], Sample.withModerator)
  /\ (exists entry,
        recordGet ROLE_PERMISSIONS "teacher" = Some entry
        /\ RoleService.getRolePermissions "teacher" Sample.emptyStore
           = (Ok entry, Sample.emptyStore))
  /\ RoleService.getRolePermissions "janitor" Sample.seeded = (Ok [], Sample.seeded).
Proof.
  split; [|split].
  - apply (proj1 (C2_getRolePermissions_resolution Sample.withModerator "moderator")
             (firstn 3 (roles Sample.withModerator)) Sample.moderatorDoc []).
    + vm_compute. reflexivity.
    + split; vm_compute; reflexivity.
    + intros r' Hin. vm_compute in Hin.
      destruct Hin as [<- | [<- | [<- | []]]]; intros [Hname _]; vm_compute in Hname;
        discriminate.
  - apply (proj1 (proj2 (C2_getRolePermissions_resolution Sample.emptyStore "teacher"))).
    + intros r [].
    + vm_compute. tauto.
  - apply (proj2 (proj2 (C2_getRolePermissions_resolution Sample.seeded "janitor"))).
    + intros r Hin. vm_compute in Hin.
      destruct Hin as [<- | [<- | [<- | []]]]; intros [Hname _]; vm_compute in Hname;
        discriminate.
    + vm_compute. intuition discriminate.
Defined.

Lemma C7_fails_closed_on_sample :
  RoleService.hasPermission (H := Sample.driver) Sample.ghostId "view_hotels" Sample.seeded
  = (Ok false, Sample.seeded)
  /\ RoleService.hasPermission (H := Sample.driver) Sample.bobId "view_hotels" Sample.stray
     = (Ok false, Sample.stray)
  /\ RoleService.hasPermission (H := Sample.driver) "not-an-id" "view_hotels" Sample.seeded
     = (Throw "Cast to ObjectId failed for value not-an-id", Sample.seeded).
Proof.
  split; [|split].
  - destruct (C7_hasPermission_fails_closed (H := Sample.driver) Sample.seeded
                Sample.ghostId "view_hotels") as [Hcasts _].
    destruct (Hcasts eq_refl) as (_ & Hnobody & _). apply Hnobody.
    vm_compute. reflexivity.
  - destruct (C7_hasPermission_fails_closed (H := Sample.driver) Sample.stray
                Sample.bobId "view_hotels") as [Hcasts _].
    destruct (Hcasts eq_refl) as (_ & _ & Hstray).
    apply (Hstray (Sample.person "Bob" "bob@example.com" "janitor")).
    + vm_compute. reflexivity.
    + intros r Hin. vm_compute in Hin.
      destruct Hin as [<- | [<- | [<- | []]]]; intros [Hname _]; vm_compute in Hname;
        discriminate.
    + vm_compute. intuition discriminate.
  - destruct (C7_hasPermission_fails_closed (H := Sample.driver) Sample.seeded
                "not-an-id" "view_hotels") as [_ Hraises].
    apply Hraises. vm_compute. reflexivity.
Defined.

(** C7, as it is worded, fails: no identity has the id [not-an-id], and
    [hasPermission] raises on it instead of returning [false]. *)
Lemma C7_malformed_id_raises :
  users Sample.seeded !! "not-an-id" = None
  /\ RoleService.hasPermission (H := Sample.driver) "not-an-id" PERMISSION.VIEW_HOTELS
       Sample.seeded
     = (Throw "Cast to ObjectId failed for value not-an-id", Sample.seeded)
  /\ (forall b,
        RoleService.hasPermission (H := Sample.driver) "not-an-id" PERMISSION.VIEW_HOTELS
          Sample.seeded
        <> (Ok b, Sample.seeded)).
Proof.
  split; [vm_compute; reflexivity|]. split; [vm_compute; reflexivity|].
  intros b. vm_compute. discriminate.
Qed.


Lemma C5_delete_on_sample :
  (forall zod,
      RoleController.deleteRole (H := Sample.driver) zod
        {["roleId" := Sample.moderatorId]} Sample.moderated
      = ({| statusCode := 409;
            message := "Cannot delete role. 1 user(s) are currently assigned this role.";
            data := None |}, Sample.moderated))
  /\ RoleService.deleteRole (H := Sample.driver) Sample.moderatorId Sample.withModerator
     = (Ok tt, Sample.seeded).
Proof.
  assert (Hfound : fst (Role.findById (H := Sample.driver) Sample.moderatorId Sample.moderated)
                   = Ok (Some Sample.moderatorDoc)) by (vm_compute; reflexivity).
  assert (Hcustom : isSystem Sample.moderatorDoc = false) by reflexivity.
  split.
  - intros zod.
    destruct (C5_deleteRole_blocked_by_assignments (H := Sample.driver) zod Sample.moderated
                Sample.moderatorId Sample.moderatorDoc Hfound Hcustom) as [Hblocked _].
    destruct (Hblocked 1) as [_ Hstatus].
    + vm_compute. reflexivity.
    + lia.
    + apply Hstatus. discriminate.
  - destruct (C5_deleteRole_blocked_by_assignments (H := Sample.driver) "Required" Sample.moderated
                Sample.moderatorId Sample.moderatorDoc Hfound Hcustom) as [_ Hfree].
    destruct (Hfree Sample.people) as [Hdeleted _].
    + intros id u Hu Hrole.
      assert (Hall : map_Forall (fun _ u => role u <> "moderator") Sample.people)
        by (apply (bool_decide_unpack _); vm_compute; exact I).
      exact (Hall id u Hu Hrole).
    + exact Hdeleted.
Defined.

Lemma C6_bulk_on_sample :
  exists db',
    RoleService.bulkAssignRole (H := Sample.driver)
      [Sample.aliceId; Sample.ghostId; Sample.bobId] "teacher" Sample.adminId Sample.seeded
    = (Ok {| RoleService.success := [Sample.aliceId; Sample.bobId];
             RoleService.failed := [(Sample.ghostId, "User not found")] |}, db')
    /\ role <$> users db' !! Sample.aliceId = Some "teacher"
    /\ role <$> users db' !! Sample.bobId = Some "teacher"
    /\ users db' !! Sample.ghostId = None.
Proof.
  destruct (proj2 (proj2 (proj2
              (C6_bulkAssignRole_collects_failures (H := Sample.driver) Sample.seeded
                 [Sample.aliceId; Sample.ghostId; Sample.bobId] "teacher" Sample.adminId)))
              Sample.teacherDoc (Sample.person "Admin" "admin@example.com" "admin"))
    as (db' & Hrun & _ & Husers).
  - vm_compute. reflexivity.
  - vm_compute. reflexivity.
  - vm_compute. reflexivity.
  - exists db'. split; [exact Hrun|]. rewrite !Husers. repeat split; vm_compute; reflexivity.
Defined.

Lemma C8_protection_on_sample :
  (forall zod,
      RoleController.updateRole (H := Sample.driver) zod
        {["roleId" := "65f000000000000000000001"]} Sample.renameBody Sample.asAdmin
        Sample.withModerator
      = ({| statusCode := 403; message := "System roles cannot be modified"; data := None |},
         Sample.withModerator)
      /\ RoleController.deleteRole (H := Sample.driver) zod
           {["roleId" := "65f000000000000000000001"]} Sample.withModerator
         = ({| statusCode := 403; message := "System roles cannot be deleted"; data := None |},
            Sample.withModerator))
  /\ (exists merged db',
        RoleService.updateRole (H := Sample.driver) Sample.moderatorId Sample.patch
          Sample.adminId Sample.withModerator = (Ok (Some merged), db')
        /\ displayName merged = "Moderators"
        /\ permissions merged = ["view_hotels"]
        /\ updatedBy merged = Some Sample.adminId
        /\ name merged = "moderator")
  /\ RoleService.deleteRole (H := Sample.driver) Sample.moderatorId Sample.withModerator
     = (Ok tt, Sample.seeded)
  /\ fst (Role.findById (H := Sample.driver) Sample.moderatorId Sample.withModerator)
     = Ok (Some Sample.moderatorDoc)
  /\ RoleService.updateRole (H := Sample.driver) Sample.moderatorId Sample.patch "u1"
       Sample.withModerator
     = (Throw "Cast to ObjectId failed for value u1", Sample.withModerator).
Proof.
  assert (Hsystem : fst (Role.findById (H := Sample.driver) "65f000000000000000000001"
                           Sample.withModerator) = Ok (Some Sample.teacherDoc))
    by (vm_compute; reflexivity).
  assert (Hcustom : fst (Role.findById (H := Sample.driver) Sample.moderatorId
                           Sample.withModerator) = Ok (Some Sample.moderatorDoc))
    by (vm_compute; reflexivity).
  split; [|split; [|split; [|split]]].
  - intros zod.
    destruct (C8_system_roles_protected (H := Sample.driver) zod Sample.withModerator
                (mkUpdateRoleInput (Some "Moderators") None None None) Sample.adminId)
      as (Hprotected & _ & _).
    destruct (Hprotected _ _ Hsystem eq_refl) as (_ & _ & Hstatus).
    destruct Hstatus as [Hupdate Hdelete]; [discriminate|].
    split; [|exact Hdelete]. apply Hupdate; vm_compute; reflexivity.
  - destruct (C8_system_roles_protected (H := Sample.driver) "Required" Sample.withModerator
                Sample.patch Sample.adminId) as (_ & Hopen & _).
    destruct (Hopen _ _ Hcustom eq_refl) as (Hupdate & _ & _).
    eexists. eexists. split; [exact (Hupdate eq_refl)|]. repeat split.
  - destruct (C8_system_roles_protected (H := Sample.driver) "Required" Sample.withModerator
                Sample.patch Sample.adminId) as (_ & Hopen & _).
    destruct (Hopen _ _ Hcustom eq_refl) as (_ & _ & Hdelete).
    apply Hdelete. intros id u Hu Hrole.
    assert (Hall : map_Forall (fun _ u => role u <> "moderator") Sample.people)
      by (apply (bool_decide_unpack _); vm_compute; exact I).
    exact (Hall id u Hu Hrole).
  - destruct (C8_system_roles_protected (H := Sample.driver) "Required" Sample.seeded
                Sample.patch Sample.adminId) as (_ & _ & Hcreated).
    destruct (Hcreated Sample.moderatorInput Sample.adminId Sample.moderatorDoc
                Sample.withModerator) as [_ Hfind].
    + vm_compute. reflexivity.
    + apply Hfind.
      * vm_compute. reflexivity.
      * vm_compute. intuition discriminate.
  - destruct (C8_system_roles_protected (H := Sample.driver) "Required" Sample.withModerator
                Sample.patch "u1") as (_ & Hopen & _).
    destruct (Hopen _ _ Hcustom eq_refl) as (_ & Hrefused & _).
    apply Hrefused. vm_compute. reflexivity.
Defined.

Lemma C10_rename_attempt_on_sample :
  statusCode (fst (RoleController.updateRole (H := Sample.driver) "Required"
                     {["roleId" := Sample.moderatorId]} Sample.renameBody Sample.asAdmin
                     Sample.withModerator)) = 200
  /\ List.map identityOf
       (roles (snd (RoleController.updateRole (H := Sample.driver) "Required"
                      {["roleId" := Sample.moderatorId]} Sample.renameBody Sample.asAdmin
                      Sample.withModerator)))
     = List.map identityOf (roles Sample.withModerator)
  /\ Zod.updateRoleSchema Sample.renameBody
     = Zod.updateRoleSchema
         (JObject (<["isSystem" := JBool true]>
                  (<["displayName" := JString "Moderators"]> ∅))).
Proof.
  destruct (C10_updateRole_keeps_name (H := Sample.driver) "Required" Sample.withModerator
              {["roleId" := Sample.moderatorId]} Sample.renameBody Sample.asAdmin)
    as (Hroles & _ & Hstrip).
  split; [vm_compute; reflexivity|]. split; [exact Hroles|].
  apply Hstrip. simpl. intuition discriminate.
Defined.

Ltac each_check Hin :=
  vm_compute in Hin;
  repeat (destruct Hin as [<- | Hin]); try contradiction.

Lemma C3_gate_on_sample :
  AuthMiddleware.requirePermission (H := Sample.driver) ["manage_roles"; "view_hotels"]
    Sample.instant (Some Sample.aliceUser) Sample.seeded = AuthMiddleware.Next
  /\ AuthMiddleware.requirePermission (H := Sample.driver) ["view_hotels"; "manage_roles"]
       Sample.slow (Some Sample.aliceUser) Sample.seeded
     = AuthMiddleware.Reply 403 "Insufficient permissions"
  /\ AuthMiddleware.requirePermission (H := Sample.driver) ["view_hotels"; "manage_roles"]
       Sample.broken (Some Sample.aliceUser) Sample.seeded
     = AuthMiddleware.Reply 500 "Error checking permissions"
  /\ AuthMiddleware.requirePermission (H := Sample.driver) ["manage_roles"; "manage_hotels"]
       Sample.instant (Some Sample.aliceUser) Sample.seeded
     = AuthMiddleware.Reply 403 "Insufficient permissions".
Proof.
  split; [|split; [|split]].
  - apply (proj1 (C3_requirePermission_any_of (H := Sample.driver)
                    ["manage_roles"; "view_hotels"] Sample.instant Sample.aliceUser
                    Sample.seeded)).
    split.
    + intros c Hin. each_check Hin.
      * split; [vm_compute; discriminate | eexists; vm_compute; reflexivity].
      * split; [vm_compute; discriminate | eexists; vm_compute; reflexivity].
    + exists {| AuthMiddleware.settledAt := 20%Z; AuthMiddleware.settled := Ok true |}.
      split; [vm_compute; tauto | reflexivity].
  - apply (proj1 (proj2 (C3_requirePermission_any_of (H := Sample.driver)
                           ["view_hotels"; "manage_roles"] Sample.slow Sample.aliceUser
                           Sample.seeded))).
    + exists {| AuthMiddleware.settledAt := 6000%Z; AuthMiddleware.settled := Ok false |}.
      split; [vm_compute; tauto | reflexivity].
    + intros c e Hin. each_check Hin; discriminate.
  - apply (proj1 (proj2 (proj2 (C3_requirePermission_any_of (H := Sample.driver)
                                  ["view_hotels"; "manage_roles"] Sample.broken
                                  Sample.aliceUser Sample.seeded)))).
    exists {| AuthMiddleware.settledAt := 20%Z;
              AuthMiddleware.settled := Throw "store unreachable" |}.
    exists "store unreachable".
    split; [vm_compute; tauto | split; [reflexivity | vm_compute; discriminate]].
  - apply (proj2 (proj2 (proj2 (C3_requirePermission_any_of (H := Sample.driver)
                                  ["manage_roles"; "manage_hotels"] Sample.instant
                                  Sample.aliceUser Sample.seeded)))).
    intros c Hin. each_check Hin; (split; [vm_compute; discriminate | reflexivity]).
Defined.

(** C3, as it is worded, fails: the first permission of the list evaluates
    [true] after 20 ms, well before the five seconds, and the request is
    denied all the same, because the other check of the list is still pending
    when the timer fires. *)
Lemma C3_one_true_one_late :
  (exists c,
      In c (imap (AuthMiddleware.permissionCheck (H := Sample.driver) Sample.slow
                    Sample.seeded Sample.aliceId) ["view_hotels"; "manage_roles"])
      /\ AuthMiddleware.settled c = Ok true
      /\ (AuthMiddleware.settledAt c < 5000)%Z)
  /\ AuthMiddleware.requirePermission (H := Sample.driver) ["view_hotels"; "manage_roles"]
       Sample.slow (Some Sample.aliceUser) Sample.seeded
     = AuthMiddleware.Reply 403 "Insufficient permissions".
Proof.
  split; [|vm_compute; reflexivity].
  exists {| AuthMiddleware.settledAt := 20%Z; AuthMiddleware.settled := Ok true |}.
  split; [vm_compute; tauto|]. split; [reflexivity | reflexivity].
Qed.

(** * Further properties of the code *)

(** ** Assigning roles *)

Lemma tier_system (roleName : string) :
  In roleName USER_ROLE.values <-> exists n, tier roleName = Some n.
Proof.
  unfold tier. split.
  - intros Hin. destruct Hin as [<- | [<- | [<- | []]]]; eexists; vm_compute; reflexivity.
  - intros [n Hn].
    destruct (String.eqb_spec roleName USER_ROLE.STUDENT) as [-> | _]; [left; reflexivity|].
    destruct (String.eqb_spec roleName USER_ROLE.TEACHER) as [-> | _];
      [right; left; reflexivity|].
    destruct (String.eqb_spec roleName USER_ROLE.ADMIN) as [-> | _];
      [right; right; left; reflexivity | discriminate].
Qed.

(** X1: [canAssignRole] never allows a step up: when it answers [true], the
    assigner and the target are both system roles and the target is not above
    the assigner (student below teacher below admin). *)
Theorem X1_canAssignRole_never_upward (userRole targetRole : string) :
  RoleService.canAssignRole userRole targetRole = true ->
  exists a b, tier userRole = Some a /\ tier targetRole = Some b /\ b <= a.
Proof.
  intros Hcan.
  destruct (Js.arrayIncludes USER_ROLE.values userRole) eqn:Hsys.
  - apply arrayIncludes_true in Hsys.
    apply (canAssignRole_system_assigner _ _ Hsys) in Hcan.
    destruct Hsys as [<- | [<- | [<- | []]]]; destruct Hcan as [Hin | <-];
      try (vm_compute in Hin; repeat destruct Hin as [<- | Hin]; try contradiction);
      do 2 eexists; (split; [vm_compute; reflexivity|]);
      (split; [vm_compute; reflexivity|]); lia.
  - rewrite canAssignRole_custom_assigner in Hcan; [discriminate|].
    intros Hin. apply arrayIncludes_true in Hin. congruence.
Qed.

Section AssignEffect.
Context `{Driver}.

(** X2: [assignRoleToUser] is all or nothing.  When it returns, the target
    identity existed, it now stores the role, every other identity and every
    role record is as before, and the document handed back is the target
    with the new role and without the password.  When it throws, nothing was
    written. *)
Theorem X2_assignRoleToUser_effect (db db' : DB) (userId roleName assignedBy : string)
  (res : result (option UserDoc)) :
  RoleService.assignRoleToUser userId roleName assignedBy db = (res, db') ->
  match res with
  | Ok updated =>
      exists u,
        users db !! userId = Some u
        /\ updated = Some {| firstName := firstName u; email := email u; role := roleName;
                             status := status u; password := None |}
        /\ roles db' = roles db
        /\ users db' !! userId
           = Some {| firstName := firstName u; email := email u; role := roleName;
                     status := status u; password := password u |}
        /\ forall other, other <> userId -> users db' !! other = users db !! other
  | Throw _ => db' = db
  end.
Proof.
  unfold RoleService.assignRoleToUser, User.findById, User.findByIdAndUpdate,
    Role.findOneActive.
  unfold_monad.
  destruct (castError userId) as [e|]; [intros [= <- <-]; reflexivity|].
  destruct (users db !! userId) as [u|] eqn:Hu; [|intros [= <- <-]; reflexivity].
  destruct (List.find _ (roles db)); [|intros [= <- <-]; reflexivity].
  destruct (castError assignedBy) as [e|]; [intros [= <- <-]; reflexivity|].
  destruct (users db !! assignedBy) as [a|]; [|intros [= <- <-]; reflexivity].
  destruct (RoleService.canAssignRole (role a) roleName); cbn [negb];
    [|intros [= <- <-]; reflexivity].
  intros [= <- <-]. exists u. cbn [roles users].
  rewrite lookup_alter_eq, Hu.
  split; [reflexivity|]. split; [reflexivity|]. split; [reflexivity|].
  split; [reflexivity|].
  intros other Hne. now rewrite lookup_alter_ne.
Qed.

End AssignEffect.

(** ** Role names *)

Section NameFacts.
Context `{Driver}.
Variable zodMessage : string.

Lemma findOneByName_taken (db : DB) (n : string) :
  In (castName n) (List.map name (roles db)) ->
  exists r, Role.findOneByName n db = (Ok (Some r), db).
Proof.
  intros Hin. unfold Role.findOneByName.
  destruct (find_by_name_present n (roles db) Hin) as [r ->]. now exists r.
Qed.

Lemma findOneByName_free (db : DB) (n : string) :
  fst (Role.findOneByName n db) = Ok None ->
  ~ In (castName n) (List.map name (roles db)).
Proof.
  unfold Role.findOneByName. cbn [fst]. intros Hnone Hin.
  destruct (find_by_name_present n (roles db) Hin) as [r Hr]. congruence.
Qed.

(** X3: [createRole] refuses a name that is taken, whatever the case and the
    surrounding blanks it is spelled with: it throws, the controller's test of
    the message answers 409, and nothing is written.  After
    [initializeSystemRoles] this holds for every spelling of admin, teacher
    and student. *)
Theorem X3_createRole_refuses_taken_name (db : DB) (input : CreateRoleInput)
  (createdBy_ : string) :
  (In (castName (create_name input)) (List.map name (roles db)) ->
   RoleService.createRole input createdBy_ db
   = (Throw "Role with this name already exists", db)
   /\ @RoleController.createRoleCatch RoleDoc "Role with this name already exists"
      = {| statusCode := 409; message := "Role with this name already exists";
           data := None |})
  /\ (In (castName (create_name input)) USER_ROLE.values ->
      RoleService.createRole input createdBy_ (snd (RoleService.initializeSystemRoles db))
      = (Throw "Role with this name already exists",
         snd (RoleService.initializeSystemRoles db))).
Proof.
  assert (Htaken : forall db0,
             In (castName (create_name input)) (List.map name (roles db0)) ->
             RoleService.createRole input createdBy_ db0
             = (Throw "Role with this name already exists", db0)).
  { intros db0 Hin. unfold RoleService.createRole. unfold_monad.
    destruct (findOneByName_taken db0 _ Hin) as [r ->]. reflexivity. }
  split.
  - intros Hin. split; [now apply Htaken | reflexivity].
  - intros Hsys. apply Htaken.
    destruct (forOf_seed RoleService.systemRoles db (fun d Hd => Hd))
      as (created & Hrun & Hall).
    unfold RoleService.initializeSystemRoles. rewrite Hrun. cbn [snd].
    simpl in Hsys. destruct Hsys as [Heq | [Heq | [Heq | []]]]; rewrite <- Heq.
    + apply (Hall (nth 2 RoleService.systemRoles
                      (mkRoleData EmptyString EmptyString None [] None None))).
      right. right. left. reflexivity.
    + apply (Hall (nth 1 RoleService.systemRoles
                      (mkRoleData EmptyString EmptyString None [] None None))).
      right. left. reflexivity.
    + apply (Hall (nth 0 RoleService.systemRoles
                      (mkRoleData EmptyString EmptyString None [] None None))).
      left. reflexivity.
Qed.

End NameFacts.

Section OverlappingCalls.
Context `{Driver}.

Lemma createRole_two_steps (input : CreateRoleInput) (createdBy_ : string) :
  RoleService.createRole input createdBy_
  = (existingRole <- Role.findOneByName (create_name input) ;;
     RoleService.createRoleAfterLookup input createdBy_ existingRole).
Proof. reflexivity. Qed.

Lemma validate_build_ids (d : RoleData) (ids ids' : list string) :
  Role.validate (Role.build d ids) = Role.validate (Role.build d ids').
Proof. reflexivity. Qed.

Lemma name_twice (l : list string) (n : string) : ~ NoDup (l ++ [n; n]).
Proof.
  intros Hnd. apply NoDup_app in Hnd. destruct Hnd as (_ & _ & Htwice).
  apply NoDup_cons in Htwice. destruct Htwice as [Hfresh _]. apply Hfresh. left.
Qed.

(** X4: the name check of [createRole] is a lookup followed, after an
    [await], by the insertion, and the collection has no unique index on
    [name]; so the check can be overtaken.  Take two calls whose names are
    the same after the setters of the schema and each of which, alone, would
    return on the store.  When the second call's lookup is answered before
    the first call inserts, both calls return a record, both records are
    stored, and they bear the same name.  When the second call starts after
    the first has returned, it throws [Role with this name already exists]
    and stores nothing. *)
Theorem X4_createRole_name_check_can_be_overtaken (db dbA dbB : DB)
  (a b : CreateRoleInput) (byA byB : string) (ra rb : RoleDoc) :
  castName (create_name a) = castName (create_name b) ->
  RoleService.createRole a byA db = (Ok ra, dbA) ->
  RoleService.createRole b byB db = (Ok rb, dbB) ->
  (exists rb',
      createRoleOverlapped a byA b byB db
      = (Ok ra, Ok rb', {| roles := roles db ++ [ra; rb']; users := users db |})
      /\ name rb' = name ra
      /\ displayName rb' = displayName rb
      /\ permissions rb' = permissions rb
      /\ ~ NoDup (List.map name (roles db ++ [ra; rb'])))
  /\ RoleService.createRole b byB dbA = (Throw "Role with this name already exists", dbA).
Proof.
  intros Hsame Ha Hb. rewrite createRole_two_steps in Ha, Hb.
  unfold Role.findOneByName, RoleService.createRoleAfterLookup, Role.create in Ha, Hb.
  unfold bind, throw in Ha, Hb.
  destruct (List.find (fun r => String.eqb (name r) (castName (create_name a))) (roles db))
    eqn:HfindA; [discriminate|].
  destruct (List.find (fun r => String.eqb (name r) (castName (create_name b))) (roles db))
    eqn:HfindB; [discriminate|].
  destruct (Role.validate (Role.build _ (List.map _id (roles db)))) eqn:HvalidA in Ha;
    [discriminate|].
  destruct (Role.validate (Role.build _ (List.map _id (roles db)))) eqn:HvalidB in Hb;
    [discriminate|].
  injection Ha as <- <-. injection Hb as <- <-. split.
  - eexists. split; [|split; [|split; [|split]]].
    + unfold createRoleOverlapped, Role.findOneByName, resume,
        RoleService.createRoleAfterLookup, Role.create.
      rewrite HfindA, HfindB, HvalidA. cbn [roles users].
      rewrite (validate_build_ids _ _ (List.map _id (roles db))), HvalidB.
      rewrite <- app_assoc. reflexivity.
    + cbn [name Role.build data_name]. now rewrite Hsame.
    + reflexivity.
    + reflexivity.
    + rewrite map_app. cbn [List.map name Role.build data_name]. rewrite Hsame.
      apply name_twice.
  - rewrite createRole_two_steps.
    unfold Role.findOneByName, RoleService.createRoleAfterLookup. unfold bind, throw.
    cbn [roles].
    destruct (find_by_name_present (create_name b)
                (roles db ++ [Role.build
                                {| data_name := create_name a;
                                   data_displayName := create_displayName a;
                                   data_description := create_description a;
                                   data_permissions := create_permissions a;
                                   data_isSystem := None;
                                   data_createdBy := Some byA |}
                                (List.map _id (roles db))])) as [r Hr].
    + rewrite map_app. apply in_app_iff. right. left.
      cbn [name Role.build data_name]. exact Hsame.
    + now rewrite Hr.
Qed.

End OverlappingCalls.

(** ** The life of a custom role *)

Section Lifecycle.
Context `{Driver}.
Variable zodMessage : string.

Lemma find_none_and {A} (p q : A -> bool) (l : list A) :
  List.find p l = None -> List.find (fun x => p x && q x) l = None.
Proof.
  intros Hnone. apply find_none_iff. intros x Hx.
  rewrite (proj1 (find_none_iff p l) Hnone x Hx). reflexivity.
Qed.

Lemma createRole_inversion (db db1 : DB) (input : CreateRoleInput) (creator : string)
  (created : RoleDoc) :
  RoleService.createRole input creator db = (Ok created, db1) ->
  List.find (fun r => String.eqb (name r) (castName (create_name input))) (roles db) = None
  /\ name created = castName (create_name input)
  /\ permissions created = create_permissions input
  /\ isActive created = true
  /\ db1 = {| roles := roles db ++ [created]; users := users db |}.
Proof.
  unfold RoleService.createRole, Role.findOneByName, Role.create. unfold_monad.
  destruct (List.find _ (roles db)) eqn:Hfind; [discriminate|].
  destruct (Role.validate _); [discriminate|].
  intros [= <- <-]. repeat split.
Qed.

Lemma hasPermission_resolved (db : DB) (uid permission : string) (u : UserDoc)
  (granted : list string) :
  fst (User.findById uid db) = Ok (Some u) ->
  RoleService.getRolePermissions (role u) db = (Ok granted, db) ->
  RoleService.hasPermission uid permission db
  = (Ok (Js.arrayIncludes granted permission), db).
Proof.
  unfold RoleService.hasPermission, User.findById. unfold_monad.
  destruct (castError uid); cbn [fst]; [discriminate|].
  intros [= ->] ->. reflexivity.
Qed.

(** X5: a role that [createRole] has made is found again: [getRoleByName]
    under the name given returns the record, [getRolePermissions] returns
    exactly the permissions given, and an identity that stores the name holds
    a permission exactly when it is among them. *)
Theorem X5_created_role_resolves (db db1 : DB) (input : CreateRoleInput) (creator : string)
  (created : RoleDoc) :
  RoleService.createRole input creator db = (Ok created, db1) ->
  RoleService.getRoleByName (create_name input) db1 = (Ok created, db1)
  /\ RoleService.getRolePermissions (create_name input) db1
     = (Ok (create_permissions input), db1)
  /\ forall uid u permission,
       fst (User.findById uid db1) = Ok (Some u) ->
       role u = create_name input ->
       RoleService.hasPermission uid permission db1
       = (Ok (Js.arrayIncludes (create_permissions input) permission), db1).
Proof.
  intros Hcreate.
  destruct (createRole_inversion db db1 input creator created Hcreate)
    as (Hfree & Hname & Hperms & Hactive & ->).
  assert (Hget : RoleService.getRolePermissions (create_name input)
                   {| roles := roles db ++ [created]; users := users db |}
                 = (Ok (create_permissions input),
                    {| roles := roles db ++ [created]; users := users db |})).
  { unfold RoleService.getRolePermissions, Role.findOneActive. unfold_monad. cbn [roles].
    rewrite find_app_last, (find_none_and _ _ _ Hfree).
    rewrite Hname, String.eqb_refl, Hactive. cbn [andb]. now rewrite Hperms. }
  split; [|split].
  - unfold RoleService.getRoleByName, Role.findOneByName. unfold_monad. cbn [roles].
    rewrite find_app_last, Hfree, Hname, String.eqb_refl. reflexivity.
  - exact Hget.
  - intros uid u permission Hu Hrole. apply (hasPermission_resolved _ _ _ u); [assumption|].
    now rewrite Hrole.
Qed.

Lemma deleteRole_inversion (db db' : DB) (roleId : string) :
  RoleService.deleteRole roleId db = (Ok tt, db') ->
  castError roleId = None
  /\ db' = {| roles := Role.removeFirst (fun r => String.eqb (_id r) roleId) (roles db);
              users := users db |}.
Proof.
  unfold RoleService.deleteRole, Role.findById, Role.findByIdAndDelete, User.countDocuments.
  unfold_monad. destruct (castError roleId); [discriminate|].
  destruct (List.find _ (roles db)) as [r|]; [|discriminate].
  destruct (isSystem r); [discriminate|].
  destruct (Nat.ltb 0 _); [discriminate|]. intros [= <-]. split; reflexivity.
Qed.

(** X6: once [deleteRole] has returned, in a store whose role ids are
    pairwise distinct, the id names nothing any more: [getRoleById], a second
    [deleteRole] and [updateRole] all throw [Role not found] and write
    nothing, and the controller answers 404. *)
Theorem X6_deleted_role_is_gone (db db' : DB) (roleId : string) :
  NoDup (List.map _id (roles db)) ->
  RoleService.deleteRole roleId db = (Ok tt, db') ->
  RoleService.getRoleById roleId db' = (Throw "Role not found", db')
  /\ RoleService.deleteRole roleId db' = (Throw "Role not found", db')
  /\ (forall updateData updatedBy_,
        RoleService.updateRole roleId updateData updatedBy_ db'
        = (Throw "Role not found", db'))
  /\ (roleId <> EmptyString ->
      RoleController.getRoleById zodMessage {["roleId" := roleId]} db'
      = ({| statusCode := 404; message := "Role not found"; data := None |}, db')).
Proof.
  intros Hnd Hdel. destruct (deleteRole_inversion db db' roleId Hdel) as [Hcast ->].
  assert (Hgone : Role.findById roleId
                    {| roles := Role.removeFirst (fun r => String.eqb (_id r) roleId) (roles db);
                       users := users db |}
                  = (Ok None,
                     {| roles := Role.removeFirst (fun r => String.eqb (_id r) roleId) (roles db);
                        users := users db |})).
  { unfold Role.findById. rewrite Hcast. cbn [roles]. now rewrite find_removeFirst. }
  assert (Hget : RoleService.getRoleById roleId
                   {| roles := Role.removeFirst (fun r => String.eqb (_id r) roleId) (roles db);
                      users := users db |}
                 = (Throw "Role not found",
                    {| roles := Role.removeFirst (fun r => String.eqb (_id r) roleId) (roles db);
                       users := users db |})).
  { unfold RoleService.getRoleById. unfold_monad. now rewrite Hgone. }
  split; [exact Hget|]. split; [|split].
  - unfold RoleService.deleteRole. unfold_monad. now rewrite Hgone.
  - intros updateData updatedBy_. unfold RoleService.updateRole. unfold_monad.
    now rewrite Hgone.
  - intros Hne. unfold RoleController.getRoleById.
    rewrite (roleIdSchema_param roleId Hne), Hget. reflexivity.
Qed.

End Lifecycle.

Section Deactivation.
Context `{Driver}.

Lemma find_split {A} (p : A -> bool) (l : list A) (x : A) :
  List.find p l = Some x ->
  exists pre post, l = pre ++ x :: post /\ forall y, In y pre -> p y = false.
Proof.
  induction l as [|a l IH]; simpl; [discriminate|].
  destruct (p a) eqn:Ha.
  - intros [= ->]. exists [], l. split; [reflexivity | intros y []].
  - intros Hfind. destruct (IH Hfind) as (pre & post & -> & Hpre).
    exists (a :: pre), post. split; [reflexivity|].
    intros y [<- | Hy]; [assumption | now apply Hpre].
Qed.

Lemma updateFirst_split (p : RoleDoc -> bool) (f : RoleDoc -> RoleDoc)
  (pre post : list RoleDoc) (r : RoleDoc) :
  (forall y, In y pre -> p y = false) -> p r = true ->
  Role.updateFirst p f (pre ++ r :: post) = pre ++ f r :: post.
Proof.
  intros Hpre Hr. induction pre as [|a pre IH]; simpl.
  - now rewrite Hr.
  - rewrite (Hpre a (or_introl eq_refl)). f_equal. apply IH.
    intros y Hy. apply Hpre. now right.
Qed.

(** After the update that switches a custom role off, no record of its name
    is active. *)
Lemma switched_off (db : DB) (roleId q updatedBy_ : string) (r : RoleDoc)
  (patch : UpdateRoleInput) :
  NoDup (List.map name (roles db)) ->
  fst (Role.findById roleId db) = Ok (Some r) ->
  isSystem r = false ->
  name r = castName q ->
  update_isActive patch = Some false ->
  castError updatedBy_ = None ->
  users (snd (RoleService.updateRole roleId patch updatedBy_ db)) = users db
  /\ forall r', In r' (roles (snd (RoleService.updateRole roleId patch updatedBy_ db))) ->
                ~ matchesActive q r'.
Proof.
  intros Hnd Hfound Hcustom Hname Hoff Hcaller.
  rewrite (updateRole_custom db roleId r patch updatedBy_ Hfound Hcustom Hcaller).
  cbn [snd roles users].
  split; [reflexivity|].
  destruct (findById_found db roleId r Hfound) as (_ & Hfind & _).
  pose proof (find_some _ _ Hfind) as [_ Hhit].
  destruct (find_split _ _ _ Hfind) as (pre & post & Hsplit & Hpre).
  rewrite Hsplit, (updateFirst_split _ _ pre post r Hpre Hhit).
  rewrite Hsplit, map_app in Hnd. cbn [List.map] in Hnd.
  apply NoDup_app in Hnd. destruct Hnd as (_ & Hdisj & Htail).
  apply NoDup_cons in Htail. destruct Htail as [Hpost _].
  intros r' Hin [Hn Ha]. apply in_app_or in Hin. destruct Hin as [Hin | [<- | Hin]].
  - apply (Hdisj (name r')); [apply list_elem_of_In; now apply in_map|].
    rewrite Hn, <- Hname. left.
  - cbn [isActive Role.applyUpdate] in Ha. rewrite Hoff in Ha. discriminate.
  - apply Hpost. rewrite Hname, <- Hn. apply list_elem_of_In. now apply in_map.
Qed.

(** X7: switching a custom role off takes everything away.  In a store with
    pairwise distinct role names, after [updateRole] with [isActive: false]
    on a custom role whose name is not a system name, by a caller whose id
    is one the driver can store in [updatedBy], [getRolePermissions]
    under that name is empty, no identity storing the name holds any
    permission, and [assignRoleToUser] with that name throws
    [Role not found or inactive] whoever asks. *)
Theorem X7_switched_off_role_grants_nothing (db : DB) (roleId q updatedBy_ : string)
  (r : RoleDoc) (patch : UpdateRoleInput) :
  NoDup (List.map name (roles db)) ->
  fst (Role.findById roleId db) = Ok (Some r) ->
  isSystem r = false ->
  name r = castName q ->
  ~ In q USER_ROLE.values ->
  update_isActive patch = Some false ->
  castError updatedBy_ = None ->
  let db' := snd (RoleService.updateRole roleId patch updatedBy_ db) in
  RoleService.getRolePermissions q db' = (Ok [], db')
  /\ (forall uid u permission,
        fst (User.findById uid db') = Ok (Some u) -> role u = q ->
        RoleService.hasPermission uid permission db' = (Ok false, db'))
  /\ (forall target t assignedBy,
        fst (User.findById target db') = Ok (Some t) ->
        RoleService.assignRoleToUser target q assignedBy db'
        = (Throw "Role not found or inactive", db')).
Proof.
  intros Hnd Hfound Hcustom Hname Hq Hoff Hcaller db'.
  destruct (switched_off db roleId q updatedBy_ r patch Hnd Hfound Hcustom Hname Hoff
              Hcaller) as [_ Hnone]. fold db' in Hnone.
  pose proof (getRolePermissions_unresolved db' q Hnone Hq) as Hget.
  split; [exact Hget|]. split.
  - intros uid u permission Hu Hrole.
    rewrite (hasPermission_resolved db' uid permission u []); [reflexivity | assumption |].
    now rewrite Hrole.
  - intros target t assignedBy Ht.
    unfold RoleService.assignRoleToUser. unfold_monad.
    unfold User.findById in *. destruct (castError target); cbn [fst] in Ht; [discriminate|].
    injection Ht as ->. now rewrite (findOneActive_none db' q Hnone).
Qed.

End Deactivation.

(** ** The seeded tiers *)

Section SeededTiers.
Context `{Driver}.

Lemma seeded_resolution (db : DB) (roleName : string) :
  (forall r, In r (roles db) -> ~ In (name r) USER_ROLE.values) ->
  In roleName USER_ROLE.values ->
  RoleService.getRolePermissions roleName (snd (RoleService.initializeSystemRoles db))
  = (Ok (default [] (recordGet ROLE_PERMISSIONS roleName)),
     snd (RoleService.initializeSystemRoles db)).
Proof.
  intros Hfresh Hsys.
  destruct (seed_fresh db Hfresh)
    as (a & t & s & Hinit & (Hna & _ & Haa & Hpa) & (Hnt & _ & Hat & Hpt)
        & (Hns & _ & Has & Hps)).
  rewrite Hinit. cbn [snd].
  set (once := {| roles := roles db ++ [a; t; s]; users := users db |}).
  assert (Hold : forall q r, In q USER_ROLE.values -> castName q = q ->
                             In r (roles db) -> ~ matchesActive q r).
  { intros q r Hq Hcast Hr [Hn _]. apply (Hfresh r Hr). now rewrite Hn, Hcast. }
  assert (Hget : forall q pre r post,
             In q USER_ROLE.values -> castName q = q ->
             roles once = (roles db ++ pre) ++ r :: post ->
             name r = q -> isActive r = true ->
             (forall r', In r' pre -> name r' <> q) ->
             RoleService.getRolePermissions q once = (Ok (permissions r), once)).
  { intros q pre r post Hq Hcast Hsplit Hn Ha Hpre.
    unfold RoleService.getRolePermissions. unfold_monad.
    rewrite (findOneActive_first once q (roles db ++ pre) post r Hsplit); [reflexivity| |].
    - split; [now rewrite Hcast | assumption].
    - intros r' Hin. apply in_app_or in Hin. destruct Hin as [Hin | Hin].
      + now apply Hold.
      + intros [Hn' _]. apply (Hpre r' Hin). now rewrite Hn', Hcast. }
  simpl in Hsys. destruct Hsys as [<- | [<- | [<- | []]]].
  - change (recordGet ROLE_PERMISSIONS USER_ROLE.STUDENT)
      with (recordGet ROLE_PERMISSIONS "student").
    rewrite Hps. cbn [default].
    apply (Hget USER_ROLE.STUDENT [a; t] s []); try reflexivity; try assumption.
    + vm_compute. tauto.
    + unfold once. cbn [roles]. now rewrite <- app_assoc.
    + intros r' [<- | [<- | []]]; [rewrite Hna | rewrite Hnt]; discriminate.
  - change (recordGet ROLE_PERMISSIONS USER_ROLE.TEACHER)
      with (recordGet ROLE_PERMISSIONS "teacher").
    rewrite Hpt. cbn [default].
    apply (Hget USER_ROLE.TEACHER [a] t [s]); try reflexivity; try assumption.
    + vm_compute. tauto.
    + unfold once. cbn [roles]. now rewrite <- app_assoc.
    + intros r' [<- | []]. rewrite Hna. discriminate.
  - change (recordGet ROLE_PERMISSIONS USER_ROLE.ADMIN)
      with (recordGet ROLE_PERMISSIONS "admin").
    rewrite Hpa. cbn [default].
    apply (Hget USER_ROLE.ADMIN [] a [t; s]); try reflexivity; try assumption.
    + vm_compute. tauto.
    + unfold once. cbn [roles]. now rewrite app_nil_r.
    + intros r' [].
Qed.

Lemma static_bundles_nested (permission : string) :
  (Js.arrayIncludes (default [] (recordGet ROLE_PERMISSIONS "student")) permission = true ->
   Js.arrayIncludes (default [] (recordGet ROLE_PERMISSIONS "teacher")) permission = true)
  /\ (Js.arrayIncludes (default [] (recordGet ROLE_PERMISSIONS "teacher")) permission = true ->
      Js.arrayIncludes (default [] (recordGet ROLE_PERMISSIONS "admin")) permission = true).
Proof.
  split; intros Hin; apply arrayIncludes_true in Hin; vm_compute in Hin;
    repeat destruct Hin as [<- | Hin]; try contradiction; vm_compute; reflexivity.
Qed.

(** X8: after [initializeSystemRoles] on a store in which no role record
    bore a system name, an identity with a system role holds a permission
    exactly when the static bundle of its role lists it; and the bundles are
    nested: whatever a student holds a teacher holds, and whatever a teacher
    holds an admin holds. *)
Theorem X8_seeded_tiers_are_nested (db : DB) :
  (forall r, In r (roles db) -> ~ In (name r) USER_ROLE.values) ->
  let once := snd (RoleService.initializeSystemRoles db) in
  (forall uid u permission,
      fst (User.findById uid once) = Ok (Some u) ->
      In (role u) USER_ROLE.values ->
      RoleService.hasPermission uid permission once
      = (Ok (Js.arrayIncludes (default [] (recordGet ROLE_PERMISSIONS (role u))) permission),
         once))
  /\ (forall sid tid aid s t a permission,
        fst (User.findById sid once) = Ok (Some s) -> role s = "student" ->
        fst (User.findById tid once) = Ok (Some t) -> role t = "teacher" ->
        fst (User.findById aid once) = Ok (Some a) -> role a = "admin" ->
        (RoleService.hasPermission sid permission once = (Ok true, once) ->
         RoleService.hasPermission tid permission once = (Ok true, once))
        /\ (RoleService.hasPermission tid permission once = (Ok true, once) ->
            RoleService.hasPermission aid permission once = (Ok true, once))).
Proof.
  intros Hfresh once.
  assert (Hhas : forall uid u permission,
             fst (User.findById uid once) = Ok (Some u) ->
             In (role u) USER_ROLE.values ->
             RoleService.hasPermission uid permission once
             = (Ok (Js.arrayIncludes (default [] (recordGet ROLE_PERMISSIONS (role u)))
                      permission), once)).
  { intros uid u permission Hu Hsys. apply (hasPermission_resolved once uid permission u).
    - assumption.
    - now apply seeded_resolution. }
  split; [exact Hhas|].
  intros sid tid aid s t a permission Hs Hrs Ht Hrt Ha Hra.
  destruct (static_bundles_nested permission) as [Hst Hta].
  rewrite (Hhas sid s permission Hs), (Hhas tid t permission Ht), (Hhas aid a permission Ha);
    try (rewrite ?Hrs, ?Hrt, ?Hra; vm_compute; tauto).
  rewrite Hrs, Hrt, Hra. split.
  - intros [= Hin]. now rewrite (Hst Hin).
  - intros [= Hin]. now rewrite (Hta Hin).
Qed.

End SeededTiers.

(** ** Bulk assignment, again *)

Section BulkAgain.
Context `{Driver}.

Lemma bulkAssignRole_inversion (db db' : DB) (userIds : list string)
  (roleName assignedBy : string) (res : RoleService.BulkResult) :
  RoleService.bulkAssignRole userIds roleName assignedBy db = (Ok res, db') ->
  exists r a,
    Role.findOneActive roleName db = (Ok (Some r), db)
    /\ castError assignedBy = None
    /\ users db !! assignedBy = Some a
    /\ RoleService.canAssignRole (role a) roleName = true
    /\ RoleService.bulkAssignLoop roleName userIds
         {| RoleService.success := []; RoleService.failed := [] |} db = (Ok res, db').
Proof.
  unfold RoleService.bulkAssignRole, Role.findOneActive, User.findById. unfold_monad.
  destruct (List.find _ (roles db)) as [r|]; [|discriminate].
  destruct (castError assignedBy); [discriminate|].
  destruct (users db !! assignedBy) as [a|]; [|discriminate].
  destruct (RoleService.canAssignRole (role a) roleName) eqn:Hcan; cbn [negb];
    [|discriminate].
  intros Hloop. exists r, a. repeat split; assumption.
Qed.

Lemma bulkAssignRole_guards (db : DB) (userIds : list string) (roleName assignedBy : string)
  (r : RoleDoc) (a : UserDoc) :
  Role.findOneActive roleName db = (Ok (Some r), db) ->
  castError assignedBy = None ->
  users db !! assignedBy = Some a ->
  RoleService.canAssignRole (role a) roleName = true ->
  RoleService.bulkAssignRole userIds roleName assignedBy db
  = RoleService.bulkAssignLoop roleName userIds
      {| RoleService.success := []; RoleService.failed := [] |} db.
Proof.
  intros Hrole Hcast Hby Hcan.
  unfold RoleService.bulkAssignRole, User.findById. unfold_monad.
  now rewrite Hrole, Hcast, Hby, Hcan.
Qed.

Lemma canAssignRole_own (userRole targetRole : string) :
  RoleService.canAssignRole userRole targetRole = true ->
  RoleService.canAssignRole targetRole targetRole = true.
Proof.
  intros Hcan.
  assert (Hsys : In targetRole USER_ROLE.values).
  { destruct (in_dec string_dec targetRole USER_ROLE.values) as [Hin | Hout];
      [assumption|].
    rewrite (canAssignRole_custom_target userRole targetRole Hout) in Hcan. discriminate. }
  apply (canAssignRole_system_assigner _ _ Hsys). now right.
Qed.

(** X9: [bulkAssignRole] can be run again: a second call with the same
    arguments on the store the first one left returns the same two lists and
    changes nothing, also when the assigner was one of the identities
    reassigned. *)
Theorem X9_bulkAssignRole_again (db db' : DB) (userIds : list string)
  (roleName assignedBy : string) (res : RoleService.BulkResult) :
  RoleService.bulkAssignRole userIds roleName assignedBy db = (Ok res, db') ->
  RoleService.bulkAssignRole userIds roleName assignedBy db' = (Ok res, db').
Proof.
  intros Hfirst.
  destruct (bulkAssignRole_inversion _ _ _ _ _ _ Hfirst)
    as (r & a & Hrole & Hcast & Hby & Hcan & Hloop).
  destruct (bulkAssignLoop_spec roleName userIds
              {| RoleService.success := []; RoleService.failed := [] |} db)
    as (db1 & Hrun & Hroles & Husers).
  rewrite Hloop in Hrun. injection Hrun as -> <-. cbn [app] in *.
  assert (Hsame : forall id, resolves (users db') id = resolves (users db) id).
  { intros id. unfold resolves. rewrite Husers.
    destruct (castError id); [reflexivity|].
    destruct (Js.arrayIncludes _ id); destruct (users db !! id); reflexivity. }
  destruct (bulkAssignLoop_spec roleName userIds
              {| RoleService.success := []; RoleService.failed := [] |} db')
    as (db2 & Hrun2 & Hroles2 & Husers2).
  cbn [RoleService.success RoleService.failed app] in Hrun2.
  rewrite (List.filter_ext _ _ Hsame) in Hrun2, Husers2.
  rewrite (List.filter_ext (fun id => negb (resolves (users db') id))
             (fun id => negb (resolves (users db) id))) in Hrun2
    by (intros id; now rewrite Hsame).
  assert (Hdb : db2 = db').
  { destruct db2 as [rs2 us2], db' as [rs' us']. cbn [roles users] in *. f_equal.
    - assumption.
    - apply map_eq. intros id. rewrite Husers2, Husers.
      destruct (Js.arrayIncludes _ id); [|reflexivity].
      destruct (users db !! id); reflexivity. }
  rewrite Hdb in Hrun2.
  assert (Hby' : exists a', users db' !! assignedBy = Some a'
                            /\ RoleService.canAssignRole (role a') roleName = true).
  { rewrite Husers, Hby. destruct (Js.arrayIncludes _ assignedBy).
    - eexists. split; [reflexivity|]. cbn [role User.setRole].
      exact (canAssignRole_own _ _ Hcan).
    - exists a. split; [reflexivity | assumption]. }
  destruct Hby' as (a' & Hby' & Hcan').
  rewrite (bulkAssignRole_guards db' userIds roleName assignedBy r a'); try assumption.
  unfold Role.findOneActive in *. rewrite Hroles. injection Hrole as Hrole.
  now rewrite Hrole.
Qed.

Lemma assignRoleToUser_inversion (db db1 : DB) (userId roleName assignedBy : string)
  (updated : option UserDoc) :
  RoleService.assignRoleToUser userId roleName assignedBy db = (Ok updated, db1) ->
  exists u r a,
    castError userId = None /\ users db !! userId = Some u
    /\ Role.findOneActive roleName db = (Ok (Some r), db)
    /\ castError assignedBy = None /\ users db !! assignedBy = Some a
    /\ RoleService.canAssignRole (role a) roleName = true
    /\ db1 = {| roles := roles db; users := alter (User.setRole roleName) userId (users db) |}.
Proof.
  unfold RoleService.assignRoleToUser, User.findById, User.findByIdAndUpdate,
    Role.findOneActive.
  unfold_monad.
  destruct (castError userId); [discriminate|].
  destruct (users db !! userId) as [u|]; [|discriminate].
  destruct (List.find _ (roles db)) as [r|]; [|discriminate].
  destruct (castError assignedBy); [discriminate|].
  destruct (users db !! assignedBy) as [a|]; [|discriminate].
  destruct (RoleService.canAssignRole (role a) roleName) eqn:Hcan; cbn [negb];
    [|discriminate].
  intros [= _ <-]. exists u, r, a.
  split; [reflexivity|]. split; [reflexivity|]. split; [reflexivity|].
  split; [reflexivity|]. split; [reflexivity|]. split; [assumption | reflexivity].
Qed.

(** X10: a batch of one id does what the single assignment does: when
    [assignRoleToUser] returns, [bulkAssignRole] on that id alone lists it in
    [success], lists nothing in [failed], and leaves the same store. *)
Theorem X10_bulk_of_one_is_single (db db1 : DB) (userId roleName assignedBy : string)
  (updated : option UserDoc) :
  RoleService.assignRoleToUser userId roleName assignedBy db = (Ok updated, db1) ->
  RoleService.bulkAssignRole [userId] roleName assignedBy db
  = (Ok {| RoleService.success := [userId]; RoleService.failed := [] |}, db1).
Proof.
  intros Hsingle.
  destruct (assignRoleToUser_inversion _ _ _ _ _ _ Hsingle)
    as (u & r & a & Hcast & Hu & Hrole & Hcastby & Hby & Hcan & ->).
  rewrite (bulkAssignRole_guards db [userId] roleName assignedBy r a); try assumption.
  cbn [RoleService.bulkAssignLoop]. unfold bind at 1.
  rewrite bulkAssignStep_spec.
  unfold resolves. rewrite Hcast, Hu. reflexivity.
Qed.

End BulkAgain.

(** ** Authentication and the role gates *)

Section GateTiers.

Import AuthMiddleware.

Lemma requireRole_next (roles_ : list string) (user : option AuthUser) :
  requireRole roles_ user = Next <-> exists u, user = Some u /\ In (user_role u) roles_.
Proof.
  unfold requireRole. destruct user as [u|].
  - destruct (Js.arrayIncludes roles_ (user_role u)) eqn:Hin; cbn [negb]; split.
    + intros _. exists u. split; [reflexivity | now apply arrayIncludes_true].
    + reflexivity.
    + discriminate.
    + intros (u' & [= <-] & Hu). apply arrayIncludes_true in Hu. congruence.
  - split; [discriminate | intros (u & Hu & _); discriminate].
Qed.

(** X11: the role gates are nested.  A gate lets a request pass exactly when
    it carries an identity whose role is in the gate's list, so a gate with a
    longer list passes whatever the shorter one passes: whoever passes
    [requireAdmin] passes [requireTeacher], whoever passes [requireTeacher]
    passes [requireStudent]; a request with no identity gets 401 and an
    identity with any other role gets 403 from all three. *)
Theorem X11_role_gates_are_nested (user : option AuthUser) :
  (forall shorter longer,
      (forall x, In x shorter -> In x longer) ->
      requireRole shorter user = Next -> requireRole longer user = Next)
  /\ (requireAdmin user = Next -> requireTeacher user = Next)
  /\ (requireTeacher user = Next -> requireStudent user = Next)
  /\ (user = None ->
      forall roles_, requireRole roles_ user = Reply 401 "Authentication required")
  /\ (forall u, user = Some u -> ~ In (user_role u) USER_ROLE.values ->
      requireAdmin user = Reply 403 "Insufficient permissions"
      /\ requireTeacher user = Reply 403 "Insufficient permissions"
      /\ requireStudent user = Reply 403 "Insufficient permissions").
Proof.
  assert (Hmono : forall shorter longer,
             (forall x, In x shorter -> In x longer) ->
             requireRole shorter user = Next -> requireRole longer user = Next).
  { intros shorter longer Hsub Hpass. apply requireRole_next in Hpass.
    destruct Hpass as (u & -> & Hu). apply requireRole_next. exists u. auto. }
  split; [exact Hmono|]. split; [|split; [|split]].
  - apply Hmono. intros x Hx. simpl in *. tauto.
  - apply Hmono. intros x Hx. simpl in *. tauto.
  - intros -> roles_. reflexivity.
  - intros u -> Hcustom.
    assert (Hout : forall roles_, (forall x, In x roles_ -> In x USER_ROLE.values) ->
                                  requireRole roles_ (Some u)
                                  = Reply 403 "Insufficient permissions").
    { intros roles_ Hsub. unfold requireRole.
      destruct (Js.arrayIncludes roles_ (user_role u)) eqn:Hin; [|reflexivity].
      apply arrayIncludes_true in Hin. exfalso. apply Hcustom. now apply Hsub. }
    repeat split; apply Hout; intros x Hx; simpl in *; tauto.
Qed.

Lemma hierarchy_entries (userRole targetRole : string) :
  In targetRole (default [] (recordGet ROLE_HIERARCHY userRole))
  <-> (userRole = "admin" /\ (targetRole = "teacher" \/ targetRole = "student"))
      \/ (userRole = "teacher" /\ targetRole = "student").
Proof.
  unfold ROLE_HIERARCHY. cbn [recordGet].
  destruct (String.eqb_spec USER_ROLE.ADMIN userRole) as [<- | Ha].
  - cbn [default]. split.
    + intros [<- | [<- | []]]; left; (split; [reflexivity|]); [left | right]; reflexivity.
    + intros [[_ [-> | ->]] | [Hc _]]; [left | right; left | discriminate]; reflexivity.
  - destruct (String.eqb_spec USER_ROLE.TEACHER userRole) as [<- | Ht].
    + cbn [default]. split.
      * intros [<- | []]. right. split; reflexivity.
      * intros [[Hc _] | [_ ->]]; [discriminate | left; reflexivity].
    + destruct (String.eqb_spec USER_ROLE.STUDENT userRole) as [<- | Hs]; cbn [default].
      * split; [intros [] | intros [[Hc _] | [Hc _]]; discriminate].
      * split; [intros []|]. intros [[Hc _] | [Hc _]]; subst; [now apply Ha | now apply Ht].
Qed.

Lemma tier_cases (roleName : string) (n : nat) :
  tier roleName = Some n <->
  (roleName = "student" /\ n = 1) \/ (roleName = "teacher" /\ n = 2)
  \/ (roleName = "admin" /\ n = 3).
Proof.
  unfold tier.
  destruct (String.eqb_spec roleName USER_ROLE.STUDENT) as [-> | Hs].
  - split; [intros [= <-]; tauto|].
    intros [[_ ->] | [[Hc _] | [Hc _]]]; [reflexivity | discriminate | discriminate].
  - destruct (String.eqb_spec roleName USER_ROLE.TEACHER) as [-> | Ht].
    + split; [intros [= <-]; tauto|].
      intros [[Hc _] | [[_ ->] | [Hc _]]]; [discriminate | reflexivity | discriminate].
    + destruct (String.eqb_spec roleName USER_ROLE.ADMIN) as [-> | Ha].
      * split; [intros [= <-]; tauto|].
        intros [[Hc _] | [[Hc _] | [_ ->]]]; [discriminate | discriminate | reflexivity].
      * split; [discriminate|].
        intros [[Hc _] | [[Hc _] | [Hc _]]]; subst; contradiction.
Qed.

(** X12: [canManageRole] lets a request pass exactly when the caller's role
    and the target are system roles and the target is strictly below the
    caller; hence no role manages itself, no two roles manage each other, and
    whatever the gate passes [canAssignRole] allows.  A caller whose role
    name is one that objects inherit ([constructor], [toString], ...) makes
    the gate raise instead of answering. *)
Theorem X12_canManageRole_strictly_downward (targetRole : string) (u : AuthUser) :
  (canManageRole targetRole (Some u) = Ok Next <->
   exists a b, tier (user_role u) = Some a /\ tier targetRole = Some b /\ b < a)
  /\ (canManageRole targetRole (Some u) = Ok Next ->
      RoleService.canAssignRole (user_role u) targetRole = true)
  /\ (In (user_role u) Js.inheritedKeys ->
      canManageRole targetRole (Some u)
      = Throw "manageableRoles.includes is not a function").
Proof.
  assert (Hpass : canManageRole targetRole (Some u) = Ok Next ->
                  In targetRole (default [] (recordGet ROLE_HIERARCHY (user_role u)))).
  { unfold canManageRole. destruct (Js.arrayIncludes Js.inheritedKeys _); [discriminate|].
    destruct (Js.arrayIncludes (default [] _) targetRole) eqn:Hin; cbn [negb];
      [|discriminate].
    intros _. now apply arrayIncludes_true. }
  split; [split|split].
  - intros Hnext. apply Hpass, hierarchy_entries in Hnext.
    destruct Hnext as [[-> [-> | ->]] | [-> ->]]; do 2 eexists;
      (split; [vm_compute; reflexivity|]); (split; [vm_compute; reflexivity|]); lia.
  - intros (a & b & Ha & Hb & Hlt). apply tier_cases in Ha, Hb.
    destruct Ha as [[Hr ->] | [[Hr ->] | [Hr ->]]];
      destruct Hb as [[-> ->] | [[-> ->] | [-> ->]]]; try lia;
      unfold canManageRole; rewrite Hr; vm_compute; reflexivity.
  - intros Hnext. pose proof (Hpass Hnext) as Hin.
    assert (Hsys : In (user_role u) USER_ROLE.values).
    { apply hierarchy_entries in Hin. destruct Hin as [[-> _] | [-> _]]; vm_compute; tauto. }
    apply (canAssignRole_system_assigner _ _ Hsys). now left.
  - intros Hin. unfold canManageRole.
    now rewrite (proj2 (arrayIncludes_true _ _) Hin).
Qed.

End GateTiers.

Section TokenFacts.
Context `{Driver} `{AuthMiddleware.Jwt}.

Import AuthMiddleware.

Lemma prefix_append (p s : string) :
  String.prefix p s = true -> exists t, s = (p ++ t)%string.
Proof.
  revert s. induction p as [|c p IH]; intros s.
  - intros _. exists s. reflexivity.
  - destruct s as [|d s]; simpl; [intros Hp; discriminate|].
    destruct (ascii_dec c d) as [<- | _]; [|intros Hp; discriminate].
    intros Hp. destruct (IH s Hp) as [t ->]. now exists t.
Qed.

Lemma substring_whole (t : string) : String.substring 0 (String.length t) t = t.
Proof. induction t as [|c t IH]; simpl; [reflexivity | now rewrite IH]. Qed.

Lemma bearerToken_append (t : string) : bearerToken ("Bearer " ++ t) = t.
Proof.
  unfold bearerToken. simpl. rewrite Nat.sub_0_r. apply substring_whole.
Qed.

Lemma prefix_of_append (t : string) : String.prefix "Bearer " ("Bearer " ++ t) = true.
Proof.
  simpl.
  repeat match goal with
         | |- context [ascii_dec ?a ?b] => destruct (ascii_dec a b); [|congruence]
         end.
  now destruct t.
Qed.

(** X13: [verifyToken] attaches an identity only to a request whose header
    is [Bearer] followed by a non-empty token that verifies, for an identity
    that is stored and active; what it attaches is the id of the token with
    the e-mail and the role read from the store at that moment, not from the
    token.  Every other request is answered, always with status 401. *)
Theorem X13_verifyToken_attaches_stored_identity (authorization : option string) (db : DB) :
  (forall user,
      verifyToken authorization db = Attached user <->
      exists token stored,
        authorization = Some ("Bearer " ++ token)%string
        /\ token <> EmptyString
        /\ jwtVerify token = Decoded (userId user)
        /\ fst (User.findById (userId user) db) = Ok (Some stored)
        /\ status stored = "active"
        /\ user_email user = email stored
        /\ user_role user = role stored)
  /\ (forall code msg, verifyToken authorization db = Refused code msg -> code = 401).
Proof.
  split.
  - intros user. split.
    + unfold verifyToken. destruct authorization as [h|]; [|discriminate].
      destruct (String.prefix "Bearer " h) eqn:Hp; cbn [negb]; [|discriminate].
      destruct (prefix_append _ _ Hp) as [t ->]. rewrite bearerToken_append.
      destruct (String.eqb_spec t EmptyString) as [-> | Hne]; [discriminate|].
      destruct (jwtVerify t) as [uid| | |] eqn:Hjwt; try discriminate.
      destruct (fst (User.findById uid db)) as [[stored|]|e] eqn:Hfind; try discriminate.
      destruct (String.eqb_spec (status stored) "active") as [Hact | Hact]; cbn [negb];
        [|discriminate].
      intros [= <-]. exists t, stored. cbn [userId user_email user_role].
      repeat split; assumption.
    + intros (token & stored & -> & Hne & Hjwt & Hfind & Hact & Hemail & Hrole).
      unfold verifyToken. rewrite prefix_of_append. cbn [negb].
      rewrite bearerToken_append.
      destruct (String.eqb_spec token EmptyString) as [-> | _]; [contradiction|].
      rewrite Hjwt, Hfind, Hact, String.eqb_refl. cbn [negb].
      destruct user as [uid em ro]. cbn in *. now rewrite Hemail, Hrole.
  - intros code msg. unfold verifyToken.
    destruct authorization as [h|]; [|intros [= <- _]; reflexivity].
    destruct (negb (String.prefix "Bearer " h)); [intros [= <- _]; reflexivity|].
    destruct (String.eqb (bearerToken h) EmptyString); [intros [= <- _]; reflexivity|].
    destruct (jwtVerify (bearerToken h)); try (intros [= <- _]; reflexivity).
    destruct (fst (User.findById uid db)) as [[stored|]|e];
      try (intros [= <- _]; reflexivity).
    destruct (negb (String.eqb (status stored) "active"));
      [intros [= <- _]; reflexivity | discriminate].
Qed.

(** X14: [optionalAuth] never turns a request away, and it attaches an
    identity exactly when [verifyToken] would have let the request pass, and
    then the same identity. *)
Theorem X14_optionalAuth_agrees_with_verifyToken (authorization : option string) (db : DB) :
  optionalAuth authorization db
  = match verifyToken authorization db with
    | Attached user => Some user
    | Refused _ _ => None
    end.
Proof.
  unfold optionalAuth, verifyToken.
  destruct authorization as [h|]; [|reflexivity].
  destruct (negb (String.prefix "Bearer " h)); [reflexivity|].
  destruct (String.eqb (bearerToken h) EmptyString); [reflexivity|].
  destruct (jwtVerify (bearerToken h)); try reflexivity.
  destruct (fst (User.findById uid db)) as [[stored|]|e]; try reflexivity.
  destruct (negb (String.eqb (status stored) "active")); reflexivity.
Qed.

End TokenFacts.

(** ** The rate limiter, again *)

Section LimiterAgain.

Import AuthMiddleware.

Implicit Types (attempts m : gmap string Attempt) (events : list Event).

(** The limiter reads the map through [liveAt] only. *)
Lemma rateLimitAuth_live (maxAttempts : nat) (windowMs : Z) (req : AuthRequest) (now : Z) m :
  rateLimitAuth maxAttempts windowMs req now m
  = match liveAt now m (attemptKey req) with
    | None =>
        (Next, <[attemptKey req := {| count := 1; resetTime := (now + windowMs)%Z |}]> m)
    | Some a =>
        if Nat.leb maxAttempts (count a)
        then (Reply 429 (tooManyMessage (Js.ceilDiv (resetTime a - now) (1000 * 60))), m)
        else (Next, <[attemptKey req := {| count := S (count a); resetTime := resetTime a |}]> m)
    end.
Proof.
  unfold rateLimitAuth, liveAt. destruct (m !! attemptKey req) as [a|]; [|reflexivity].
  destruct (Z.ltb (resetTime a) now); reflexivity.
Qed.

Lemma liveAt_insert (now : Z) m (key k : string) (a : Attempt) :
  liveAt now (<[key := a]> m) k
  = if decide (key = k) then (if Z.ltb (resetTime a) now then None else Some a)
    else liveAt now m k.
Proof.
  unfold liveAt. rewrite lookup_insert. now destruct (decide (key = k)).
Qed.

Lemma liveAt_later (t now : Z) m1 m2 :
  (t <= now)%Z ->
  (forall k, liveAt t m1 k = liveAt t m2 k) ->
  forall k, liveAt now m1 k = liveAt now m2 k.
Proof.
  intros Hle Hagree k. specialize (Hagree k). unfold liveAt in *.
  destruct (m1 !! k) as [a1|], (m2 !! k) as [a2|];
    repeat match goal with
           | H : context [Z.ltb ?x ?y] |- _ => destruct (Z.ltb_spec x y)
           | |- context [Z.ltb ?x ?y] => destruct (Z.ltb_spec x y)
           end; try congruence; try lia;
    try (injection Hagree as <-; lia).
Qed.

Lemma liveAt_cleanup (now : Z) m (k : string) :
  liveAt now (cleanup now m) k = liveAt now m k.
Proof.
  unfold liveAt, cleanup. rewrite map_lookup_filter.
  destruct (m !! k) as [a|]; cbn; [|reflexivity].
  destruct (Z.ltb_spec (resetTime a) now).
  - rewrite option_guard_False; [reflexivity | cbn; lia].
  - rewrite option_guard_True; [cbn | cbn; lia].
    destruct (Z.ltb_spec (resetTime a) now); [lia | reflexivity].
Qed.

Lemma rateLimitAuth_agree (maxAttempts : nat) (windowMs : Z) (req : AuthRequest) (now : Z)
  m1 m2 :
  (forall k, liveAt now m1 k = liveAt now m2 k) ->
  fst (rateLimitAuth maxAttempts windowMs req now m1)
  = fst (rateLimitAuth maxAttempts windowMs req now m2)
  /\ forall k, liveAt now (snd (rateLimitAuth maxAttempts windowMs req now m1)) k
               = liveAt now (snd (rateLimitAuth maxAttempts windowMs req now m2)) k.
Proof.
  intros Hagree. rewrite !rateLimitAuth_live, <- (Hagree (attemptKey req)).
  destruct (liveAt now m1 (attemptKey req)) as [a|].
  - destruct (Nat.leb maxAttempts (count a)); cbn [fst snd]; split; try reflexivity;
      [assumption|].
    intros k. rewrite !liveAt_insert. now destruct (decide (attemptKey req = k)).
  - cbn [fst snd]. split; [reflexivity|].
    intros k. rewrite !liveAt_insert. now destruct (decide (attemptKey req = k)).
Qed.

Lemma run_agree (maxAttempts : nat) (windowMs : Z) events :
  forall (t : Z) m1 m2,
    inOrder t events ->
    (forall k, liveAt t m1 k = liveAt t m2 k) ->
    fst (run maxAttempts windowMs events m1)
    = fst (run maxAttempts windowMs (withoutSweeps events) m2).
Proof.
  induction events as [|e events IH]; intros t m1 m2 Horder Hagree; [reflexivity|].
  destruct Horder as [Hle Horder]. destruct e as [req now | now]; cbn [eventTime] in *.
  - cbn [run withoutSweeps].
    pose proof (liveAt_later t now m1 m2 Hle Hagree) as Hnow.
    destruct (rateLimitAuth_agree maxAttempts windowMs req now m1 m2 Hnow) as [Hout Hnext].
    destruct (rateLimitAuth maxAttempts windowMs req now m1) as [o1 m1'].
    destruct (rateLimitAuth maxAttempts windowMs req now m2) as [o2 m2'].
    cbn [fst snd] in Hout, Hnext. subst o2.
    specialize (IH now m1' m2' Horder Hnext).
    destruct (run maxAttempts windowMs events m1') as [os1 f1].
    destruct (run maxAttempts windowMs (withoutSweeps events) m2') as [os2 f2].
    cbn [fst] in *. now rewrite IH.
  - cbn [run withoutSweeps]. apply (IH now); [assumption|].
    intros k. rewrite liveAt_cleanup. now apply (liveAt_later t).
Qed.

(** X15: the periodic cleanup cannot be observed.  In a run whose events
    happen in order, the requests get the same answers whether the sweeps
    take place or not. *)
Theorem X15_cleanup_is_unobservable (maxAttempts : nat) (windowMs : Z) (start : Z)
  events attempts :
  inOrder start events ->
  fst (run maxAttempts windowMs events attempts)
  = fst (run maxAttempts windowMs (withoutSweeps events) attempts).
Proof.
  intros Horder. now apply (run_agree maxAttempts windowMs events start).
Qed.

Lemma rateLimitAuth_at_key (maxAttempts : nat) (windowMs : Z) (req : AuthRequest) (now : Z)
  m1 m2 :
  m1 !! attemptKey req = m2 !! attemptKey req ->
  fst (rateLimitAuth maxAttempts windowMs req now m1)
  = fst (rateLimitAuth maxAttempts windowMs req now m2)
  /\ snd (rateLimitAuth maxAttempts windowMs req now m1) !! attemptKey req
     = snd (rateLimitAuth maxAttempts windowMs req now m2) !! attemptKey req.
Proof.
  intros Hsame. unfold rateLimitAuth. rewrite <- Hsame.
  destruct (m1 !! attemptKey req) as [a|] eqn:Hk.
  - destruct (Z.ltb (resetTime a) now); cbn [fst snd].
    + split; [reflexivity|]. now rewrite !lookup_insert_eq.
    + destruct (Nat.leb maxAttempts (count a)); cbn [fst snd].
      * split; [reflexivity|]. now rewrite <- Hsame.
      * split; [reflexivity|]. now rewrite !lookup_insert_eq.
  - cbn [fst snd]. split; [reflexivity|]. now rewrite !lookup_insert_eq.
Qed.

Lemma cleanup_at_key (now : Z) m1 m2 (key : string) :
  m1 !! key = m2 !! key -> cleanup now m1 !! key = cleanup now m2 !! key.
Proof.
  intros Hsame. unfold cleanup. rewrite !map_lookup_filter. now rewrite Hsame.
Qed.

(** X16: the keys do not interfere.  The answers a key gets in a run depend
    on the entry of that key and on the requests of that key only: from two
    maps that agree on the key, the answers to its requests in a run are the
    answers it gets in the run from which the requests of all other keys are
    taken out. *)
Theorem X16_keys_do_not_interfere (maxAttempts : nat) (windowMs : Z) (key : string) events :
  forall m1 m2,
    m1 !! key = m2 !! key ->
    outcomesOf key events (fst (run maxAttempts windowMs events m1))
    = outcomesOf key (onlyKey key events)
        (fst (run maxAttempts windowMs (onlyKey key events) m2)).
Proof.
  induction events as [|e events IH]; intros m1 m2 Hsame; [reflexivity|].
  destruct e as [req now | now].
  - cbn [run onlyKey outcomesOf].
    destruct (String.eqb_spec (attemptKey req) key) as [Heq | Hne].
    + subst key. cbn [run].
      destruct (rateLimitAuth_at_key maxAttempts windowMs req now m1 m2 Hsame)
        as [Hout Hnext].
      destruct (rateLimitAuth maxAttempts windowMs req now m1) as [o1 m1'].
      destruct (rateLimitAuth maxAttempts windowMs req now m2) as [o2 m2'].
      cbn [fst snd] in Hout, Hnext. subst o2. specialize (IH m1' m2' Hnext).
      destruct (run maxAttempts windowMs events m1') as [os1 f1].
      destruct (run maxAttempts windowMs (onlyKey (attemptKey req) events) m2') as [os2 f2].
      cbn [fst outcomesOf] in *. rewrite String.eqb_refl. now rewrite IH.
    + pose proof (rateLimitAuth_other maxAttempts windowMs req now m1 key Hne) as Hother.
      destruct (rateLimitAuth maxAttempts windowMs req now m1) as [o1 m1'].
      cbn [snd] in Hother.
      assert (Hnext : m1' !! key = m2 !! key) by now rewrite Hother.
      specialize (IH m1' m2 Hnext).
      destruct (run maxAttempts windowMs events m1') as [os1 f1]. cbn [fst] in *.
      exact IH.
  - cbn [run onlyKey outcomesOf]. apply IH. now apply cleanup_at_key.
Qed.

End LimiterAgain.

(** ** What the handlers store *)

Section StoredFacts.
Context `{Driver}.
Variable zodMessage : string.

Lemma validate_permissions (r : RoleDoc) :
  Role.validate r = None ->
  forallb (Js.arrayIncludes PERMISSION.values) (permissions r) = true.
Proof.
  unfold Role.validate.
  destruct (Role.castFails (createdBy r)); [discriminate|].
  destruct (String.eqb (name r) EmptyString); [discriminate|].
  destruct (String.eqb (displayName r) EmptyString); [discriminate|].
  destruct (forallb (Js.arrayIncludes PERMISSION.values) (permissions r));
    [reflexivity | discriminate].
Qed.

Lemma mapM_permission (items : list Json) (ps : list string) :
  mapM Zod.permission items = Some ps ->
  forallb (Js.arrayIncludes PERMISSION.values) ps = true.
Proof.
  intros Hm. apply mapM_Some in Hm. induction Hm as [|v p items ps Hv _ IH]; [reflexivity|].
  cbn [forallb]. rewrite IH, andb_true_r.
  unfold Zod.permission in Hv. destruct v; try discriminate.
  destruct (Js.arrayIncludes PERMISSION.values s) eqn:Hin; [|discriminate].
  now injection Hv as <-.
Qed.

Lemma requiredPermissions_spec (v : option Json) (ps : list string) :
  Zod.requiredPermissions v = Some ps ->
  ps <> [] /\ forallb (Js.arrayIncludes PERMISSION.values) ps = true.
Proof.
  unfold Zod.requiredPermissions. destruct v as [[]|]; try discriminate.
  destruct (mapM Zod.permission items) as [[|p l]|] eqn:Hm; try discriminate.
  intros [= <-]. split; [discriminate | now apply (mapM_permission items)].
Qed.

Lemma optionalPermissions_spec (v : option Json) (ps : list string) :
  Zod.optionalPermissions v = Some (Some ps) ->
  ps <> [] /\ forallb (Js.arrayIncludes PERMISSION.values) ps = true.
Proof.
  unfold Zod.optionalPermissions. destruct v as [[]|]; try discriminate.
  destruct (mapM Zod.permission items) as [[|p l]|] eqn:Hm; try discriminate.
  intros [= <-]. split; [discriminate | now apply (mapM_permission items)].
Qed.

Lemma createRoleSchema_spec (body : Json) (input : CreateRoleInput) :
  Zod.createRoleSchema body = Some input ->
  exists fields,
    body = JObject fields
    /\ fields !! "name" = Some (JString (create_name input))
    /\ Zod.roleNamePattern (create_name input) = true
    /\ 2 <= String.length (create_name input) <= 50
    /\ create_permissions input <> []
    /\ forallb (Js.arrayIncludes PERMISSION.values) (create_permissions input) = true.
Proof.
  unfold Zod.createRoleSchema. destruct body; try discriminate.
  destruct (Zod.boundedString 2 50 (fields !! "name")) as [n|] eqn:Hn; [|discriminate].
  destruct (Zod.boundedString 2 100 (fields !! "displayName")) as [dn|]; [|discriminate].
  destruct (Zod.optionalString 0 500 (fields !! "description")) as [de|]; [|discriminate].
  destruct (Zod.requiredPermissions (fields !! "permissions")) as [pe|] eqn:Hpe;
    [|discriminate].
  destruct (Zod.roleNamePattern n) eqn:Hpat; [|discriminate].
  intros [= <-]. cbn [create_name create_permissions].
  exists fields. split; [reflexivity|].
  unfold Zod.boundedString in Hn. destruct (fields !! "name") as [[]|]; try discriminate.
  destruct (Nat.leb 2 (String.length s) && Nat.leb (String.length s) 50) eqn:Hlen;
    [|discriminate].
  injection Hn as ->. apply andb_true_iff in Hlen. destruct Hlen as [Hlo Hhi].
  apply Nat.leb_le in Hlo, Hhi.
  destruct (requiredPermissions_spec _ _ Hpe) as [Hne Hall].
  repeat split; assumption.
Qed.

Lemma updateRoleSchema_permissions (body : Json) (u : UpdateRoleInput) (ps : list string) :
  Zod.updateRoleSchema body = Some u -> update_permissions u = Some ps ->
  ps <> [] /\ forallb (Js.arrayIncludes PERMISSION.values) ps = true.
Proof.
  unfold Zod.updateRoleSchema. destruct body; try discriminate.
  destruct (Zod.optionalString 2 100 (fields !! "displayName")) as [dn|]; [|discriminate].
  destruct (Zod.optionalString 0 500 (fields !! "description")) as [de|]; [|discriminate].
  destruct (Zod.optionalPermissions (fields !! "permissions")) as [pe|] eqn:Hpe;
    [|discriminate].
  destruct (Zod.optionalBoolean (fields !! "isActive")) as [ia|]; [|discriminate].
  intros [= <-]. cbn [update_permissions]. intros ->.
  now apply (optionalPermissions_spec (fields !! "permissions")).
Qed.

Lemma updateFirst_In (p : RoleDoc -> bool) (f : RoleDoc -> RoleDoc) (l : list RoleDoc)
  (r : RoleDoc) :
  In r (Role.updateFirst p f l) -> In r l \/ exists r0, In r0 l /\ r = f r0.
Proof.
  induction l as [|a l IH]; cbn [Role.updateFirst]; [tauto|].
  destruct (p a); cbn [In].
  - intros [<- | Hin]; [right; exists a; split; [now left | reflexivity] | left; now right].
  - intros [<- | Hin]; [left; now left|].
    destruct (IH Hin) as [Hl | (r0 & Hr0 & ->)]; [left; now right|].
    right. exists r0. split; [now right | reflexivity].
Qed.

Lemma removeFirst_In (p : RoleDoc -> bool) (l : list RoleDoc) (r : RoleDoc) :
  In r (Role.removeFirst p l) -> In r l.
Proof.
  induction l as [|a l IH]; cbn [Role.removeFirst]; [tauto|].
  destruct (p a); cbn [In]; [tauto|]. intros [<- | Hin]; [now left | right; now apply IH].
Qed.

(** What the service does to the list of roles, call by call. *)
Lemma createRole_roles (input : CreateRoleInput) (by_ : string) (db : DB) :
  match RoleService.createRole input by_ db with
  | (Ok r, db') =>
      roles db' = roles db ++ [r] /\ users db' = users db
      /\ name r = castName (create_name input)
      /\ permissions r = create_permissions input
      /\ isSystem r = false
      /\ Role.validate r = None
  | (Throw _, db') => db' = db
  end.
Proof.
  unfold RoleService.createRole, Role.findOneByName, Role.create. unfold_monad.
  destruct (List.find _ (roles db)); [reflexivity|].
  destruct (Role.validate _) eqn:Hv; [reflexivity|].
  cbn [roles users]. repeat split. exact Hv.
Qed.

Lemma updateRole_roles (roleId : string) (u : UpdateRoleInput) (by_ : string) (db : DB)
  (r : RoleDoc) :
  In r (roles (snd (RoleService.updateRole roleId u by_ db))) ->
  In r (roles db) \/ exists r0, In r0 (roles db) /\ r = Role.applyUpdate u by_ r0.
Proof.
  unfold RoleService.updateRole, Role.findById, Role.findByIdAndUpdate. unfold_monad.
  destruct (castError roleId); [now left|].
  destruct (List.find _ (roles db)) as [r1|]; [|now left].
  destruct (isSystem r1); [now left|].
  destruct (castError by_); [now left|]. cbn [snd roles]. apply updateFirst_In.
Qed.

Lemma deleteRole_roles (roleId : string) (db : DB) (r : RoleDoc) :
  In r (roles (snd (RoleService.deleteRole roleId db))) -> In r (roles db).
Proof.
  unfold RoleService.deleteRole, Role.findById, Role.findByIdAndDelete, User.countDocuments.
  unfold_monad.
  destruct (castError roleId); [tauto|].
  destruct (List.find _ (roles db)) as [r1|]; [|tauto].
  destruct (isSystem r1); [tauto|].
  match goal with |- context [if ?c then _ else _] => destruct c end; [tauto|].
  cbn [snd roles]. apply removeFirst_In.
Qed.

Lemma assignRoleToUser_roles (userId roleName assignedBy : string) (db : DB) :
  roles (snd (RoleService.assignRoleToUser userId roleName assignedBy db)) = roles db.
Proof.
  unfold RoleService.assignRoleToUser, User.findById, User.findByIdAndUpdate,
    Role.findOneActive.
  unfold_monad.
  destruct (castError userId) eqn:Hcast; [reflexivity|].
  destruct (users db !! userId) as [u|]; [|reflexivity].
  destruct (List.find _ (roles db)) as [r|]; [|reflexivity].
  destruct (castError assignedBy); [reflexivity|].
  destruct (users db !! assignedBy) as [a|]; [|reflexivity].
  destruct (RoleService.canAssignRole (role a) roleName); cbn [negb]; reflexivity.
Qed.

Lemma wellFormed_snoc (db : DB) (r : RoleDoc) (us : gmap string UserDoc) :
  permissionsWellFormed db ->
  permissions r <> [] ->
  forallb (Js.arrayIncludes PERMISSION.values) (permissions r) = true ->
  permissionsWellFormed {| roles := roles db ++ [r]; users := us |}.
Proof.
  intros Hwf Hne Hall r' Hin. cbn [roles] in Hin. apply in_app_iff in Hin.
  destruct Hin as [Hin | [<- | []]]; [now apply Hwf | now split].
Qed.

Lemma seedRole_wellFormed (d : RoleData) (db : DB) :
  In d RoleService.systemRoles ->
  permissionsWellFormed db ->
  permissionsWellFormed (snd (RoleService.seedRole d db)).
Proof.
  intros Hd Hwf.
  destruct (in_dec string_dec (castName (data_name d)) (List.map name (roles db)))
    as [Hp | Habs].
  - now rewrite seedRole_present.
  - pose proof (systemRoles_valid d (List.map _id (roles db)) Hd) as Hvalid.
    rewrite seedRole_absent; [| assumption | assumption].
    cbn [snd]. apply wellFormed_snoc; [assumption | | now apply validate_permissions].
    cbn [Role.build permissions].
    destruct Hd as [<- | [<- | [<- | []]]]; vm_compute; discriminate.
Qed.

Lemma forOf_seed_wellFormed (ds : list RoleData) (db : DB) :
  (forall d, In d ds -> In d RoleService.systemRoles) ->
  permissionsWellFormed db ->
  permissionsWellFormed (snd (forOf ds RoleService.seedRole db)).
Proof.
  revert db. induction ds as [|d ds IH]; intros db Hds Hwf; [exact Hwf|].
  cbn [forOf]. unfold bind at 1.
  pose proof (seedRole_wellFormed d db (Hds d (or_introl eq_refl)) Hwf) as Hstep.
  destruct (seedRole_step d db (Hds d (or_introl eq_refl))) as (created & Hrun & _).
  rewrite Hrun in *. cbn [snd] in Hstep. apply IH; [|assumption].
  intros d' Hd'. apply Hds. now right.
Qed.

(** X17: the handlers keep the stored permissions well formed.  When every
    role record carries at least one permission and tokens of [PERMISSION]
    only, this is still so after [initializeSystemRoles] and after a request
    to [createRole], [updateRole], [deleteRole] or [assignRoleToUser] of the
    controller, whatever the route parameters, the body and the caller: the
    schemas of the controller let no empty list and no unknown token reach
    the store. *)
Theorem X17_stored_permissions_stay_well_formed (db : DB) :
  permissionsWellFormed db ->
  permissionsWellFormed (snd (RoleService.initializeSystemRoles db))
  /\ (forall body user,
        permissionsWellFormed (snd (RoleController.createRole zodMessage body user db)))
  /\ (forall params body user,
        permissionsWellFormed
          (snd (RoleController.updateRole zodMessage params body user db)))
  /\ (forall params,
        permissionsWellFormed (snd (RoleController.deleteRole zodMessage params db)))
  /\ (forall body user,
        permissionsWellFormed
          (snd (RoleController.assignRoleToUser zodMessage body user db))).
Proof.
  intros Hwf. split; [|split; [|split; [|split]]].
  - now apply forOf_seed_wellFormed.
  - intros body user. unfold RoleController.createRole.
    destruct (Zod.createRoleSchema body) as [input|] eqn:Hparse; [|exact Hwf].
    destruct (RoleController.authenticatedId user) as [uid|]; [|exact Hwf].
    destruct (createRoleSchema_spec body input Hparse)
      as (fields & _ & _ & _ & _ & Hne & Hall).
    pose proof (createRole_roles input uid db) as Hrun.
    destruct (RoleService.createRole input uid db) as [[r | msg] db']; cbn [snd];
      [|now subst].
    destruct Hrun as (Hroles & _ & _ & Hperms & _).
    intros r' Hin. rewrite Hroles in Hin. apply in_app_iff in Hin.
    destruct Hin as [Hin | [<- | []]]; [now apply Hwf|]. rewrite Hperms. now split.
  - intros params body user. unfold RoleController.updateRole.
    destruct (Zod.roleIdSchema params) as [roleId|]; [|exact Hwf].
    destruct (Zod.updateRoleSchema body) as [u|] eqn:Hparse; [|exact Hwf].
    destruct (RoleController.authenticatedId user) as [uid|]; [|exact Hwf].
    pose proof (updateRole_roles roleId u uid db) as Hrun.
    destruct (RoleService.updateRole roleId u uid db) as [[r | msg] db']; cbn [snd] in *.
    + intros r' Hin. destruct (Hrun r' Hin) as [Hold | (r0 & Hr0 & ->)]; [now apply Hwf|].
      cbn [Role.applyUpdate permissions].
      destruct (update_permissions u) as [ps|] eqn:Hps; [|now apply Hwf].
      exact (updateRoleSchema_permissions body u ps Hparse Hps).
    + intros r' Hin. destruct (Hrun r' Hin) as [Hold | (r0 & Hr0 & ->)]; [now apply Hwf|].
      cbn [Role.applyUpdate permissions].
      destruct (update_permissions u) as [ps|] eqn:Hps; [|now apply Hwf].
      exact (updateRoleSchema_permissions body u ps Hparse Hps).
  - intros params. unfold RoleController.deleteRole.
    destruct (Zod.roleIdSchema params) as [roleId|]; [|exact Hwf].
    pose proof (deleteRole_roles roleId db) as Hrun.
    destruct (RoleService.deleteRole roleId db) as [[[] | msg] db']; cbn [snd] in *;
      intros r' Hin; apply Hwf; now apply Hrun.
  - intros body user. unfold RoleController.assignRoleToUser.
    destruct (Zod.assignRoleSchema body) as [[targetId roleName]|]; [|exact Hwf].
    destruct (RoleController.authenticatedId user) as [uid|]; [|exact Hwf].
    pose proof (assignRoleToUser_roles targetId roleName uid db) as Hrun.
    destruct (RoleService.assignRoleToUser targetId roleName uid db) as [[u | msg] db'];
      cbn [snd] in *; intros r' Hin; apply Hwf; now rewrite <- Hrun.
Qed.

(** The characters of a role name are left alone by the setters of the
    schema. *)
Lemma roleNameChar_kept (c : ascii) :
  Zod.isRoleNameChar c = true -> Js.isWhiteSpace c = false /\ Js.lowerChar c = c.
Proof.
  destruct c as [[] [] [] [] [] [] [] []]; vm_compute; intros Hc;
    first [discriminate Hc | split; reflexivity].
Qed.

Lemma roleName_trimEnd (s : string) :
  Zod.allRoleNameChars s = true -> Js.trimEnd s = s.
Proof.
  induction s as [|c s IH]; [reflexivity|].
  cbn [Zod.allRoleNameChars Js.trimEnd]. intros Hall.
  apply andb_true_iff in Hall. destruct Hall as [Hc Hs].
  rewrite (IH Hs). destruct (roleNameChar_kept c Hc) as [Hws _].
  destruct s; [now rewrite Hws | reflexivity].
Qed.

Lemma roleName_toLowerCase (s : string) :
  Zod.allRoleNameChars s = true -> Js.toLowerCase s = s.
Proof.
  induction s as [|c s IH]; [reflexivity|].
  cbn [Zod.allRoleNameChars Js.toLowerCase]. intros Hall.
  apply andb_true_iff in Hall. destruct Hall as [Hc Hs].
  rewrite (IH Hs). now destruct (roleNameChar_kept c Hc) as [_ ->].
Qed.

Lemma roleName_castName (n : string) :
  Zod.roleNamePattern n = true -> castName n = n.
Proof.
  unfold Zod.roleNamePattern. destruct n as [|c s]; [discriminate|]. intros Hall.
  unfold castName, Js.trim.
  assert (Hstart : Js.trimStart (String c s) = String c s).
  { cbn [Js.trimStart]. cbn [Zod.allRoleNameChars] in Hall.
    apply andb_true_iff in Hall. destruct Hall as [Hc _].
    now destruct (roleNameChar_kept c Hc) as [-> _]. }
  rewrite Hstart, (roleName_trimEnd _ Hall). now apply roleName_toLowerCase.
Qed.

(** X18: a role made through the controller bears the name that was
    submitted.  When [createRole] answers 201, the body had a [name] of 2 to
    50 characters among [a-z_], the new record is appended to the roles with
    exactly that name (the setters of the schema change nothing in it), as a
    custom role, and the users are untouched; with any other answer the
    store is as it was and the response carries no record. *)
Theorem X18_created_role_bears_submitted_name (body : Json) (user : option AuthUser)
  (db db' : DB) (resp : Response RoleDoc) :
  RoleController.createRole zodMessage body user db = (resp, db') ->
  (statusCode resp = 201 ->
     exists fields n r,
       body = JObject fields /\ fields !! "name" = Some (JString n)
       /\ Zod.roleNamePattern n = true /\ 2 <= String.length n <= 50
       /\ data resp = Some r /\ name r = n /\ isSystem r = false
       /\ roles db' = roles db ++ [r] /\ users db' = users db)
  /\ (statusCode resp <> 201 -> db' = db /\ data resp = None).
Proof.
  unfold RoleController.createRole, RoleController.createRoleCatch, RoleController.failure.
  destruct (Zod.createRoleSchema body) as [input|] eqn:Hparse.
  2:{ intros [= <- <-]. split.
      - destruct (Js.includes zodMessage "already exists"); cbn [statusCode]; discriminate.
      - intros _. split; [reflexivity|].
        now destruct (Js.includes zodMessage "already exists"). }
  destruct (RoleController.authenticatedId user) as [uid|].
  2:{ intros [= <- <-]. cbn [statusCode data]. split; [discriminate | now split]. }
  destruct (createRoleSchema_spec body input Hparse)
    as (fields & -> & Hname & Hpat & Hlen & _ & _).
  pose proof (createRole_roles input uid db) as Hrun.
  destruct (RoleService.createRole input uid db) as [[r | msg] db1].
  - intros [= <- <-]. cbn [statusCode data]. split; [|congruence]. intros _.
    destruct Hrun as (Hroles & Husers & Hn & _ & Hsys & _).
    exists fields, (create_name input), r.
    rewrite (roleName_castName _ Hpat) in Hn. repeat split; try assumption; apply Hlen.
  - intros [= <- <-]. subst db1. split.
    + destruct (Js.includes msg "already exists"); cbn [statusCode]; discriminate.
    + intros _. split; [reflexivity|]. now destruct (Js.includes msg "already exists").
Qed.

End StoredFacts.

Section LimiterBound.

Import AuthMiddleware.

Variables (maxAttempts : nat) (windowMs : Z).

Lemma accounted_more (seen more : list Event) (key : string) (a : Attempt) :
  accounted maxAttempts windowMs seen key a -> accounted maxAttempts windowMs (seen ++ more) key a.
Proof.
  intros [Hcount (req & now & Hin & Hkey & Hreset)]. split; [assumption|].
  exists req, now. split; [apply in_app_iff; now left | now split].
Qed.

Lemma rateLimitAuth_accounted (seen : list Event) (req : AuthRequest) (now : Z)
  (m : gmap string Attempt) :
  (forall k a, m !! k = Some a -> accounted maxAttempts windowMs seen k a) ->
  forall k a,
    snd (rateLimitAuth maxAttempts windowMs req now m) !! k = Some a ->
    accounted maxAttempts windowMs (seen ++ [Incoming req now]) k a.
Proof.
  intros Hinv k a.
  assert (Hfresh : accounted maxAttempts windowMs (seen ++ [Incoming req now]) (attemptKey req)
                     {| count := 1; resetTime := (now + windowMs)%Z |}).
  { split; [cbn [count]; lia|]. exists req, now.
    split; [apply in_app_iff; right; now left | now split]. }
  unfold rateLimitAuth.
  destruct (m !! attemptKey req) as [ua|] eqn:Hua.
  - destruct (Z.ltb (resetTime ua) now); cbn [snd].
    + rewrite lookup_insert. destruct (decide (attemptKey req = k)) as [<- | Hne].
      * now intros [= <-].
      * intros Hk. apply accounted_more. now apply Hinv.
    + destruct (Nat.leb_spec maxAttempts (count ua)) as [Hfull | Hroom]; cbn [snd].
      * intros Hk. apply accounted_more. now apply Hinv.
      * rewrite lookup_insert. destruct (decide (attemptKey req = k)) as [<- | Hne].
        -- intros [= <-]. destruct (Hinv _ _ Hua) as [Hcount Hopened].
           apply accounted_more. split; [cbn [count]; lia | exact Hopened].
        -- intros Hk. apply accounted_more. now apply Hinv.
  - cbn [snd]. rewrite lookup_insert. destruct (decide (attemptKey req = k)) as [<- | Hne].
    + now intros [= <-].
    + intros Hk. apply accounted_more. now apply Hinv.
Qed.

Lemma cleanup_subset (now : Z) (m : gmap string Attempt) (k : string) (a : Attempt) :
  cleanup now m !! k = Some a -> m !! k = Some a.
Proof.
  unfold cleanup. intros Hk. apply map_lookup_filter_Some in Hk. tauto.
Qed.

Lemma run_accounted (events : list Event) :
  forall (seen : list Event) (m : gmap string Attempt),
    (forall k a, m !! k = Some a -> accounted maxAttempts windowMs seen k a) ->
    forall k a,
      snd (run maxAttempts windowMs events m) !! k = Some a ->
      accounted maxAttempts windowMs (seen ++ events) k a.
Proof.
  induction events as [|e events IH]; intros seen m Hinv k a.
  - cbn [run snd]. rewrite app_nil_r. apply Hinv.
  - replace (seen ++ e :: events) with ((seen ++ [e]) ++ events)
      by now rewrite <- app_assoc.
    destruct e as [req now | now]; cbn [run].
    + pose proof (rateLimitAuth_accounted seen req now m Hinv) as Hstep.
      destruct (rateLimitAuth maxAttempts windowMs req now m) as [o m']. cbn [snd] in Hstep.
      specialize (IH (seen ++ [Incoming req now]) m' Hstep k a).
      destruct (run maxAttempts windowMs events m') as [os final]. exact IH.
    + apply IH. intros k' a' Hk. apply accounted_more. apply Hinv.
      now apply (cleanup_subset now).
Qed.

(** X19: what the limiter's map holds.  Starting from the empty map, after
    any run of requests and sweeps, an entry has a count of at least 1 and at
    most the limit (at most 1 when the limit is 0), and its window was opened
    by a request of the run with the key of the entry: [resetTime] is the
    time of that request plus the window. *)
Theorem X19_limiter_entries_are_accounted_for (events : list Event) (key : string)
  (a : Attempt) :
  snd (run maxAttempts windowMs events ∅) !! key = Some a ->
  accounted maxAttempts windowMs events key a.
Proof.
  intros Hk. apply (run_accounted events [] ∅); [|exact Hk].
  intros k a' Hempty. now rewrite lookup_empty in Hempty.
Qed.

End LimiterBound.

(** ** The further properties on the sample deployment *)

Lemma X1_teacher_assigns_student :
  RoleService.canAssignRole "teacher" "student" = true
  /\ exists a b, tier "teacher" = Some a /\ tier "student" = Some b /\ b <= a.
Proof.
  split; [vm_compute; reflexivity|].
  apply X1_canAssignRole_never_upward. vm_compute. reflexivity.
Defined.

Lemma X2_alice_promoted :
  RoleService.assignRoleToUser (H := Sample.driver) Sample.aliceId "teacher" Sample.adminId
    Sample.seeded
  = (Ok (Some {| firstName := "Alice"; email := "alice@example.com"; role := "teacher";
                 status := "active"; password := None |}),
     Scenario.promoted)
  /\ users Scenario.promoted !! Sample.aliceId
     = Some (Sample.person "Alice" "alice@example.com" "teacher")
  /\ users Scenario.promoted !! Sample.bobId = users Sample.seeded !! Sample.bobId.
Proof.
  assert (Hrun :
    RoleService.assignRoleToUser (H := Sample.driver) Sample.aliceId "teacher" Sample.adminId
      Sample.seeded
    = (Ok (Some {| firstName := "Alice"; email := "alice@example.com"; role := "teacher";
                   status := "active"; password := None |}),
       Scenario.promoted)) by (vm_compute; reflexivity).
  split; [exact Hrun|].
  destruct (X2_assignRoleToUser_effect (H := Sample.driver) _ _ _ _ _ _ Hrun)
    as (u & Hu & _ & _ & Hnew & Hothers).
  split.
  - rewrite Hnew.
    assert (Hstored : Some (Sample.person "Alice" "alice@example.com" "student") = Some u)
      by (rewrite <- Hu; vm_compute; reflexivity).
    injection Hstored as <-. reflexivity.
  - apply Hothers. discriminate.
Defined.

Lemma X3_taken_names_on_sample :
  RoleService.createRole (H := Sample.driver)
    {| create_name := " Moderator "; create_displayName := "Moderators";
       create_description := None; create_permissions := [PERMISSION.VIEW_HOTELS] |}
    Sample.adminId Sample.withModerator
  = (Throw "Role with this name already exists", Sample.withModerator)
  /\ RoleService.createRole (H := Sample.driver)
       {| create_name := "ADMIN"; create_displayName := "Administrators";
          create_description := None; create_permissions := [PERMISSION.VIEW_HOTELS] |}
       Sample.adminId Sample.seeded
     = (Throw "Role with this name already exists", Sample.seeded).
Proof.
  split.
  - destruct (X3_createRole_refuses_taken_name (H := Sample.driver) Sample.withModerator
                {| create_name := " Moderator "; create_displayName := "Moderators";
                   create_description := None;
                   create_permissions := [PERMISSION.VIEW_HOTELS] |}
                Sample.adminId) as [Htaken _].
    destruct Htaken as [Hthrow _]; [vm_compute; tauto | exact Hthrow].
  - destruct (X3_createRole_refuses_taken_name (H := Sample.driver) Sample.emptyStore
                {| create_name := "ADMIN"; create_displayName := "Administrators";
                   create_description := None;
                   create_permissions := [PERMISSION.VIEW_HOTELS] |}
                Sample.adminId) as [_ Hsystem].
    apply Hsystem. vm_compute. tauto.
Defined.

Lemma X4_moderators_twice :
  exists twice,
    createRoleOverlapped (H := Sample.driver) Sample.moderatorInput Sample.adminId
      Scenario.moderatorAgain Sample.teacherId Sample.seeded
    = (Ok Sample.moderatorDoc, Ok twice,
       {| roles := roles Sample.seeded ++ [Sample.moderatorDoc; twice];
          users := users Sample.seeded |})
    /\ name twice = "moderator"
    /\ RoleService.createRole (H := Sample.driver) Scenario.moderatorAgain Sample.teacherId
         Sample.withModerator
       = (Throw "Role with this name already exists", Sample.withModerator).
Proof.
  assert (Hfirst :
    RoleService.createRole (H := Sample.driver) Sample.moderatorInput Sample.adminId
      Sample.seeded
    = (Ok Sample.moderatorDoc, Sample.withModerator)) by (vm_compute; reflexivity).
  assert (Hsecond :
    RoleService.createRole (H := Sample.driver) Scenario.moderatorAgain Sample.teacherId
      Sample.seeded
    = (Ok (Role.build (H := Sample.driver)
             {| data_name := " Moderator "; data_displayName := "Moderators";
                data_description := None;
                data_permissions := [PERMISSION.VIEW_HOTELS];
                data_isSystem := None; data_createdBy := Some Sample.teacherId |}
             (List.map _id (roles Sample.seeded))),
       snd (RoleService.createRole (H := Sample.driver) Scenario.moderatorAgain
              Sample.teacherId Sample.seeded))) by (vm_compute; reflexivity).
  assert (Hsame : castName (create_name Sample.moderatorInput)
                  = castName (create_name Scenario.moderatorAgain))
    by (vm_compute; reflexivity).
  destruct (X4_createRole_name_check_can_be_overtaken (H := Sample.driver) Sample.seeded
              _ _ Sample.moderatorInput Scenario.moderatorAgain Sample.adminId
              Sample.teacherId _ _ Hsame Hfirst Hsecond)
    as [(twice & Hrun & Hname & _) Hlater].
  exists twice. split; [exact Hrun|]. split; [exact Hname | exact Hlater].
Defined.

Lemma X5_moderator_resolves :
  RoleService.createRole (H := Sample.driver) Sample.moderatorInput Sample.adminId
    Sample.seeded
  = (Ok Sample.moderatorDoc, Sample.withModerator)
  /\ RoleService.getRoleByName "moderator" Sample.withModerator
     = (Ok Sample.moderatorDoc, Sample.withModerator)
  /\ RoleService.getRolePermissions "moderator" Sample.withModerator
     = (Ok [PERMISSION.VIEW_HOTELS; PERMISSION.VIEW_BOOKINGS], Sample.withModerator).
Proof.
  assert (Hrun :
    RoleService.createRole (H := Sample.driver) Sample.moderatorInput Sample.adminId
      Sample.seeded
    = (Ok Sample.moderatorDoc, Sample.withModerator)) by (vm_compute; reflexivity).
  destruct (X5_created_role_resolves (H := Sample.driver) _ _ _ _ _ Hrun)
    as (Hbyname & Hperms & _).
  split; [exact Hrun|]. split; [exact Hbyname | exact Hperms].
Defined.

Lemma X6_moderator_deleted :
  RoleService.deleteRole (H := Sample.driver) Sample.moderatorId Sample.withModerator
  = (Ok tt, Sample.seeded)
  /\ RoleService.getRoleById (H := Sample.driver) Sample.moderatorId Sample.seeded
     = (Throw "Role not found", Sample.seeded)
  /\ RoleService.deleteRole (H := Sample.driver) Sample.moderatorId Sample.seeded
     = (Throw "Role not found", Sample.seeded)
  /\ RoleController.getRoleById (H := Sample.driver) "Required"
       {["roleId" := Sample.moderatorId]} Sample.seeded
     = ({| statusCode := 404; message := "Role not found"; data := None |}, Sample.seeded).
Proof.
  assert (Hnd : NoDup (List.map _id (roles Sample.withModerator)))
    by (apply (bool_decide_unpack _); vm_compute; exact I).
  assert (Hrun :
    RoleService.deleteRole (H := Sample.driver) Sample.moderatorId Sample.withModerator
    = (Ok tt, Sample.seeded)) by (vm_compute; reflexivity).
  destruct (X6_deleted_role_is_gone (H := Sample.driver) "Required" _ _ _ Hnd Hrun)
    as (Hget & Hdel & _ & Hreply).
  split; [exact Hrun|]. split; [exact Hget|]. split; [exact Hdel|].
  apply Hreply. discriminate.
Defined.

Lemma X7_moderators_switched_off :
  exists off,
    RoleService.updateRole (H := Sample.driver) Sample.moderatorId Scenario.switchOff
      Sample.adminId Sample.moderated
    = (Ok (Some (Role.applyUpdate Scenario.switchOff Sample.adminId Sample.moderatorDoc)), off)
    /\ RoleService.getRolePermissions "moderator" off = (Ok [], off)
    /\ RoleService.hasPermission (H := Sample.driver) Sample.aliceId PERMISSION.VIEW_HOTELS off
       = (Ok false, off)
    /\ RoleService.assignRoleToUser (H := Sample.driver) Sample.bobId "moderator"
         Sample.adminId off
       = (Throw "Role not found or inactive", off).
Proof.
  assert (Hnd : NoDup (List.map name (roles Sample.moderated)))
    by (apply (bool_decide_unpack _); vm_compute; exact I).
  assert (Hfound : fst (Role.findById (H := Sample.driver) Sample.moderatorId Sample.moderated)
                   = Ok (Some Sample.moderatorDoc)) by (vm_compute; reflexivity).
  assert (Hfree : ~ In "moderator" USER_ROLE.values) by (vm_compute; intuition discriminate).
  pose proof (X7_switched_off_role_grants_nothing (H := Sample.driver) Sample.moderated
                Sample.moderatorId "moderator" Sample.adminId Sample.moderatorDoc
                Scenario.switchOff Hnd Hfound eq_refl eq_refl Hfree eq_refl eq_refl) as Hoff.
  cbv zeta in Hoff. destruct Hoff as (Hperms & Hholders & Hassign).
  exists (snd (RoleService.updateRole (H := Sample.driver) Sample.moderatorId
                 Scenario.switchOff Sample.adminId Sample.moderated)).
  split; [vm_compute; reflexivity|]. split; [exact Hperms|]. split.
  - apply (Hholders Sample.aliceId (Sample.person "Alice" "alice@example.com" "moderator"));
      [vm_compute; reflexivity | reflexivity].
  - apply (Hassign Sample.bobId (Sample.person "Bob" "bob@example.com" "student")).
    vm_compute. reflexivity.
Defined.

Lemma X8_tiers_on_sample :
  RoleService.hasPermission (H := Sample.driver) Sample.aliceId PERMISSION.VIEW_HOTELS
    Sample.seeded
  = (Ok (Js.arrayIncludes (default [] (recordGet ROLE_PERMISSIONS "student"))
           PERMISSION.VIEW_HOTELS), Sample.seeded)
  /\ (forall permission,
        (RoleService.hasPermission (H := Sample.driver) Sample.aliceId permission Sample.seeded
         = (Ok true, Sample.seeded) ->
         RoleService.hasPermission (H := Sample.driver) Sample.teacherId permission
           Sample.seeded
         = (Ok true, Sample.seeded))
        /\ (RoleService.hasPermission (H := Sample.driver) Sample.teacherId permission
              Sample.seeded
            = (Ok true, Sample.seeded) ->
            RoleService.hasPermission (H := Sample.driver) Sample.adminId permission
              Sample.seeded
            = (Ok true, Sample.seeded))).
Proof.
  assert (Hfresh : forall r, In r (roles Sample.emptyStore) -> ~ In (name r) USER_ROLE.values)
    by (intros r []).
  pose proof (X8_seeded_tiers_are_nested (H := Sample.driver) Sample.emptyStore Hfresh)
    as Hseeded.
  cbv zeta in Hseeded. destruct Hseeded as [Hstatic Hnested]. split.
  - apply (Hstatic Sample.aliceId (Sample.person "Alice" "alice@example.com" "student"));
      [vm_compute; reflexivity | vm_compute; tauto].
  - intros permission.
    apply (Hnested Sample.aliceId Sample.teacherId Sample.adminId
             (Sample.person "Alice" "alice@example.com" "student")
             (Sample.person "Tara" "tara@example.com" "teacher")
             (Sample.person "Admin" "admin@example.com" "admin"));
      first [reflexivity | vm_compute; reflexivity].
Defined.

Lemma X9_batch_again_on_sample :
  exists after,
    RoleService.bulkAssignRole (H := Sample.driver)
      [Sample.aliceId; Sample.ghostId; Sample.bobId] "teacher" Sample.adminId Sample.seeded
    = (Ok {| RoleService.success := [Sample.aliceId; Sample.bobId];
             RoleService.failed := [(Sample.ghostId, "User not found")] |}, after)
    /\ RoleService.bulkAssignRole (H := Sample.driver)
         [Sample.aliceId; Sample.ghostId; Sample.bobId] "teacher" Sample.adminId after
       = (Ok {| RoleService.success := [Sample.aliceId; Sample.bobId];
                RoleService.failed := [(Sample.ghostId, "User not found")] |}, after).
Proof.
  exists (snd (RoleService.bulkAssignRole (H := Sample.driver)
                 [Sample.aliceId; Sample.ghostId; Sample.bobId] "teacher" Sample.adminId
                 Sample.seeded)).
  assert (Hrun :
    RoleService.bulkAssignRole (H := Sample.driver)
      [Sample.aliceId; Sample.ghostId; Sample.bobId] "teacher" Sample.adminId Sample.seeded
    = (Ok {| RoleService.success := [Sample.aliceId; Sample.bobId];
             RoleService.failed := [(Sample.ghostId, "User not found")] |},
       snd (RoleService.bulkAssignRole (H := Sample.driver)
              [Sample.aliceId; Sample.ghostId; Sample.bobId] "teacher" Sample.adminId
              Sample.seeded))) by (vm_compute; reflexivity).
  split; [exact Hrun|].
  exact (X9_bulkAssignRole_again (H := Sample.driver) _ _ _ _ _ _ Hrun).
Defined.

Lemma X10_batch_of_alice :
  RoleService.bulkAssignRole (H := Sample.driver) [Sample.aliceId] "teacher" Sample.adminId
    Sample.seeded
  = (Ok {| RoleService.success := [Sample.aliceId]; RoleService.failed := [] |},
     Scenario.promoted).
Proof.
  apply (X10_bulk_of_one_is_single (H := Sample.driver) Sample.seeded Scenario.promoted
           Sample.aliceId "teacher" Sample.adminId
           (Some {| firstName := "Alice"; email := "alice@example.com"; role := "teacher";
                    status := "active"; password := None |})).
  vm_compute. reflexivity.
Defined.

Lemma X11_gates_for_a_teacher :
  AuthMiddleware.requireTeacher (Some Scenario.teacherAsUser) = AuthMiddleware.Next
  /\ AuthMiddleware.requireStudent (Some Scenario.teacherAsUser) = AuthMiddleware.Next
  /\ AuthMiddleware.requireRole [USER_ROLE.ADMIN] None
     = AuthMiddleware.Reply 401 "Authentication required".
Proof.
  destruct (X11_role_gates_are_nested (Some Scenario.teacherAsUser))
    as (_ & _ & Hstudent & _ & _).
  destruct (X11_role_gates_are_nested None) as (_ & _ & _ & Hnone & _).
  split; [vm_compute; reflexivity|]. split.
  - apply Hstudent. vm_compute. reflexivity.
  - now apply Hnone.
Defined.

Lemma X12_teacher_manages_students :
  AuthMiddleware.canManageRole "student" (Some Scenario.teacherAsUser) = Ok AuthMiddleware.Next
  /\ AuthMiddleware.canManageRole "teacher" (Some Scenario.teacherAsUser)
     <> Ok AuthMiddleware.Next
  /\ AuthMiddleware.canManageRole "student"
       (Some {| userId := Sample.aliceId; user_email := "alice@example.com";
                user_role := "constructor" |})
     = Throw "manageableRoles.includes is not a function".
Proof.
  split; [|split].
  - destruct (X12_canManageRole_strictly_downward "student" Scenario.teacherAsUser)
      as (Hiff & _ & _).
    apply Hiff. exists 2, 1. split; [reflexivity|]. split; [reflexivity | lia].
  - destruct (X12_canManageRole_strictly_downward "teacher" Scenario.teacherAsUser)
      as (Hiff & _ & _).
    intros Hnext. apply Hiff in Hnext. destruct Hnext as (a & b & Ha & Hb & Hlt).
    vm_compute in Ha, Hb. injection Ha as <-. injection Hb as <-. lia.
  - destruct (X12_canManageRole_strictly_downward "student"
                {| userId := Sample.aliceId; user_email := "alice@example.com";
                   user_role := "constructor" |}) as (_ & _ & Hthrow).
    apply Hthrow. vm_compute. tauto.
Defined.

Lemma X13_alice_after_promotion :
  AuthMiddleware.verifyToken (H := Sample.driver) (H0 := Scenario.jwt)
    (Some "Bearer alice.token") Scenario.promoted
  = AuthMiddleware.Attached
      {| userId := Sample.aliceId; user_email := "alice@example.com"; user_role := "teacher" |}
  /\ (forall code msg,
        AuthMiddleware.verifyToken (H := Sample.driver) (H0 := Scenario.jwt)
          (Some "Bearer ghost.token") Scenario.promoted
        = AuthMiddleware.Refused code msg ->
        code = 401).
Proof.
  split.
  - destruct (X13_verifyToken_attaches_stored_identity (H := Sample.driver)
                (H0 := Scenario.jwt) (Some "Bearer alice.token") Scenario.promoted)
      as [Hattached _].
    apply Hattached.
    exists "alice.token", (Sample.person "Alice" "alice@example.com" "teacher").
    split; [reflexivity|]. split; [discriminate|]. split; [vm_compute; reflexivity|].
    split; [vm_compute; reflexivity|]. split; [reflexivity|]. split; reflexivity.
  - destruct (X13_verifyToken_attaches_stored_identity (H := Sample.driver)
                (H0 := Scenario.jwt) (Some "Bearer ghost.token") Scenario.promoted)
      as [_ Hrefused].
    exact Hrefused.
Defined.

Lemma X15_day_without_sweeps :
  inOrder 0 Scenario.day
  /\ fst (AuthMiddleware.run 2 900000 Scenario.day ∅)
     = fst (AuthMiddleware.run 2 900000 (withoutSweeps Scenario.day) ∅).
Proof.
  assert (Horder : inOrder 0 Scenario.day).
  { unfold Scenario.day. cbn [inOrder AuthMiddleware.eventTime]. lia. }
  split; [exact Horder|].
  exact (X15_cleanup_is_unobservable 2 900000 0 Scenario.day ∅ Horder).
Defined.

Lemma X17_moderators_trimmed :
  permissionsWellFormed Sample.withModerator
  /\ permissionsWellFormed
       (snd (RoleController.updateRole (H := Sample.driver) "Required"
               {["roleId" := Sample.moderatorId]} Scenario.shorterBody Sample.asAdmin
               Sample.withModerator))
  /\ permissionsWellFormed
       (snd (RoleController.createRole (H := Sample.driver) "Required" Scenario.moderatorBody
               Sample.asAdmin Sample.withModerator)).
Proof.
  assert (Hwf : permissionsWellFormed Sample.withModerator).
  { intros r Hin.
    assert (Hall : Forall (fun r => permissions r <> []
                    /\ forallb (Js.arrayIncludes PERMISSION.values) (permissions r) = true)
                    (roles Sample.withModerator)).
    { vm_compute. repeat constructor; discriminate. }
    rewrite Forall_forall in Hall. apply Hall. now apply list_elem_of_In. }
  destruct (X17_stored_permissions_stay_well_formed (H := Sample.driver) "Required"
              Sample.withModerator Hwf) as (_ & Hcreate & Hupdate & _ & _).
  split; [exact Hwf|]. split; [apply Hupdate | apply Hcreate].
Defined.

Lemma X18_moderator_created :
  RoleController.createRole (H := Sample.driver) "Required" Scenario.moderatorBody
    Sample.asAdmin Sample.seeded
  = ({| statusCode := 201; message := "Role created successfully";
        data := Some Sample.moderatorDoc |}, Sample.withModerator)
  /\ exists fields,
       Scenario.moderatorBody = JObject fields
       /\ fields !! "name" = Some (JString (name Sample.moderatorDoc))
       /\ roles Sample.withModerator = roles Sample.seeded ++ [Sample.moderatorDoc].
Proof.
  assert (Hrun :
    RoleController.createRole (H := Sample.driver) "Required" Scenario.moderatorBody
      Sample.asAdmin Sample.seeded
    = ({| statusCode := 201; message := "Role created successfully";
          data := Some Sample.moderatorDoc |}, Sample.withModerator))
    by (vm_compute; reflexivity).
  split; [exact Hrun|].
  destruct (X18_created_role_bears_submitted_name (H := Sample.driver) _ _ _ _ _ _ Hrun)
    as [Hcreated _].
  destruct (Hcreated eq_refl)
    as (fields & n & r & Hbody & Hname & _ & _ & Hdata & Hn & _ & Hroles & _).
  cbn [data] in Hdata. injection Hdata as <-. subst n.
  exists fields. split; [exact Hbody|]. split; [exact Hname | exact Hroles].
Defined.

Lemma X19_alice_entry_after_the_day :
  snd (AuthMiddleware.run 2 900000 Scenario.day ∅) !! AuthMiddleware.attemptKey Sample.alice
  = Some {| AuthMiddleware.count := 1; AuthMiddleware.resetTime := 1860000 |}
  /\ accounted 2 900000 Scenario.day (AuthMiddleware.attemptKey Sample.alice)
       {| AuthMiddleware.count := 1; AuthMiddleware.resetTime := 1860000 |}.
Proof.
  assert (Hentry :
    snd (AuthMiddleware.run 2 900000 Scenario.day ∅) !! AuthMiddleware.attemptKey Sample.alice
    = Some {| AuthMiddleware.count := 1; AuthMiddleware.resetTime := 1860000 |})
    by (vm_compute; reflexivity).
  split; [exact Hentry|].
  exact (X19_limiter_entries_are_accounted_for 2 900000 Scenario.day _ _ Hentry).
Defined.

(** ** The two limiters *)

Section TwoLimiters.

Import AuthMiddleware.

Variables (maxAttempts : nat) (windowMs : Z).

Lemma length_append (s t : string) :
  String.length (s ++ t)%string = String.length s + String.length t.
Proof.
  induction s as [|c s IH]; [reflexivity|].
  change (S (String.length (s ++ t)%string) = S (String.length s + String.length t)).
  now f_equal.
Qed.

Lemma append_suffix_inj (t s1 s2 : string) :
  (s1 ++ t)%string = (s2 ++ t)%string -> s1 = s2.
Proof.
  revert s2. induction s1 as [|c s1 IH]; intros s2 Heq.
  - destruct s2 as [|d s2]; [reflexivity|]. exfalso.
    apply (f_equal String.length) in Heq. rewrite !length_append in Heq.
    simpl in Heq. lia.
  - destruct s2 as [|d s2].
    + exfalso. apply (f_equal String.length) in Heq. rewrite !length_append in Heq.
      simpl in Heq. lia.
    + cbn [String.append] in Heq. injection Heq as -> Heq. f_equal. now apply IH.
Qed.

Lemma attemptKey_withoutEmail (req : AuthRequest) :
  attemptKey (withoutEmail req) = (ipKey req ++ ":unknown")%string.
Proof. reflexivity. Qed.

(** Under the renaming of the keys, the two middlewares take the same
    step. *)
Lemma rateLimitAuthByIp_step (req : AuthRequest) (now : Z) (m1 m2 : gmap string Attempt) :
  (forall ip, m1 !! ip = m2 !! (ip ++ ":unknown")%string) ->
  passed (fst (rateLimitAuthByIp maxAttempts windowMs req now m1))
  = passed (fst (rateLimitAuth maxAttempts windowMs (withoutEmail req) now m2))
  /\ forall ip,
       snd (rateLimitAuthByIp maxAttempts windowMs req now m1) !! ip
       = snd (rateLimitAuth maxAttempts windowMs (withoutEmail req) now m2)
           !! (ip ++ ":unknown")%string.
Proof.
  intros Hsame. unfold rateLimitAuthByIp, rateLimitAuth.
  rewrite attemptKey_withoutEmail, <- (Hsame (ipKey req)).
  assert (Hput : forall a ip,
             <[ipKey req := a]> m1 !! ip
             = <[(ipKey req ++ ":unknown")%string := a]> m2 !! (ip ++ ":unknown")%string).
  { intros a ip. rewrite !lookup_insert.
    destruct (decide (ipKey req = ip)) as [<- | Hne].
    - now rewrite decide_True.
    - rewrite decide_False; [apply Hsame|].
      intros Heq. apply Hne. now apply (append_suffix_inj ":unknown"). }
  destruct (m1 !! ipKey req) as [ua|];
    [destruct (Z.ltb (resetTime ua) now);
       [|destruct (Nat.leb maxAttempts (count ua))]|];
    (split; [reflexivity | intros ip; cbn [snd]; first [apply Hput | apply Hsame]]).
Qed.

Lemma runByIp_simulation (requests : list (AuthRequest * Z)) :
  forall m1 m2 : gmap string Attempt,
    (forall ip, m1 !! ip = m2 !! (ip ++ ":unknown")%string) ->
    List.map passed (fst (runByIp maxAttempts windowMs requests m1))
    = List.map passed
        (fst (run maxAttempts windowMs
                (List.map (fun rt => Incoming (withoutEmail rt.1) rt.2) requests) m2)).
Proof.
  induction requests as [|[req now] requests IH]; intros m1 m2 Hsame; [reflexivity|].
  cbn [runByIp run List.map fst snd].
  destruct (rateLimitAuthByIp_step req now m1 m2 Hsame) as [Hout Hnext].
  destruct (rateLimitAuthByIp maxAttempts windowMs req now m1) as [o1 m1'].
  destruct (rateLimitAuth maxAttempts windowMs (withoutEmail req) now m2) as [o2 m2'].
  cbn [fst snd] in Hout, Hnext. specialize (IH m1' m2' Hnext).
  destruct (runByIp maxAttempts windowMs requests m1') as [os1 f1].
  destruct (run maxAttempts windowMs
              (List.map (fun rt => Incoming (withoutEmail rt.1) rt.2) requests) m2')
    as [os2 f2].
  cbn [fst List.map] in *. now rewrite Hout, IH.
Qed.

Lemma runByIp_answers (requests : list (AuthRequest * Z)) :
  forall (m : gmap string Attempt) o,
    In o (fst (runByIp maxAttempts windowMs requests m)) ->
    o = Next
    \/ o = Reply 429 "Too many authentication attempts. Please try again later.".
Proof.
  induction requests as [|[req now] requests IH]; intros m o; [intros []|].
  cbn [runByIp].
  assert (Hstep : fst (rateLimitAuthByIp maxAttempts windowMs req now m) = Next
                  \/ fst (rateLimitAuthByIp maxAttempts windowMs req now m)
                     = Reply 429 "Too many authentication attempts. Please try again later.").
  { unfold rateLimitAuthByIp. destruct (m !! ipKey req) as [ua|]; [|now left].
    destruct (Z.ltb (resetTime ua) now); [now left|].
    destruct (Nat.leb maxAttempts (count ua)); [now right | now left]. }
  destruct (rateLimitAuthByIp maxAttempts windowMs req now m) as [o1 m'].
  specialize (IH m' o).
  destruct (runByIp maxAttempts windowMs requests m') as [os f]. cbn [fst] in *.
  intros [<- | Hin]; [exact Hstep | now apply IH].
Qed.

(** X20: the limiter of [authMiddleware.ts] is the limiter by address and
    account with the accounts left out.  On any sequence of requests, from
    the empty map, it lets through exactly the requests that the other
    version lets through when no request carries an email; and it answers
    the others with status 429 and one fixed message. *)
Theorem X20_ip_limiter_is_the_account_limiter_without_accounts
  (requests : list (AuthRequest * Z)) :
  List.map passed (fst (runByIp maxAttempts windowMs requests ∅))
  = List.map passed
      (fst (run maxAttempts windowMs
              (List.map (fun rt => Incoming (withoutEmail rt.1) rt.2) requests) ∅))
  /\ forall o,
       In o (fst (runByIp maxAttempts windowMs requests ∅)) ->
       o = Next
       \/ o = Reply 429 "Too many authentication attempts. Please try again later.".
Proof.
  split.
  - apply runByIp_simulation. intros ip. now rewrite !lookup_empty.
  - apply runByIp_answers.
Qed.

Lemma runByIp_window (ip : string) (R : Z) (requests : list (AuthRequest * Z)) :
  forall (m : gmap string Attempt) (c : nat),
    m !! ip = Some {| count := c; resetTime := R |} ->
    (forall rt, In rt requests -> ipKey rt.1 = ip /\ (rt.2 <= R)%Z) ->
    List.map passed (fst (runByIp maxAttempts windowMs requests m))
    = imap (fun i _ => Nat.ltb (c + i) maxAttempts) requests.
Proof.
  induction requests as [|[req now] requests IH]; intros m c Hk Hall; [reflexivity|].
  destruct (Hall (req, now) (or_introl eq_refl)) as [Hip Hnow]. cbn [fst snd] in Hip, Hnow.
  assert (Hrest : forall rt, In rt requests -> ipKey rt.1 = ip /\ (rt.2 <= R)%Z)
    by (intros rt Hrt; apply Hall; now right).
  cbn [runByIp imap]. unfold rateLimitAuthByIp. rewrite Hip, Hk. cbn [resetTime count].
  destruct (Z.ltb_spec R now) as [Hlate | _]; [lia|]. rewrite Nat.add_0_r.
  destruct (Nat.leb_spec maxAttempts c) as [Hfull | Hroom].
  - specialize (IH m c Hk Hrest).
    destruct (runByIp maxAttempts windowMs requests m) as [os f]. cbn [fst List.map] in *.
    destruct (Nat.ltb_spec c maxAttempts) as [Hlt | _]; [lia|]. cbn [passed]. f_equal.
    rewrite IH. apply imap_ext. intros i rt _. cbv beta. unfold compose.
    destruct (Nat.ltb_spec (c + i) maxAttempts), (Nat.ltb_spec (c + S i) maxAttempts);
      try lia; reflexivity.
  - specialize (IH (<[ip := {| count := S c; resetTime := R |}]> m) (S c)
                  (lookup_insert_eq _ _ _) Hrest).
    destruct (runByIp maxAttempts windowMs requests _) as [os f]. cbn [fst List.map] in *.
    destruct (Nat.ltb_spec c maxAttempts) as [_ | Hge]; [|lia]. cbn [passed]. f_equal.
    rewrite IH. apply imap_ext. intros i rt _. cbv beta. unfold compose.
    now replace (S c + i) with (c + S i) by lia.
Qed.

(** X21: the limiter of [authMiddleware.ts] counts an address, whatever the
    accounts.  Take a first request of an address with no entry in the map,
    and any further requests of that address, with any emails, handled
    before the window closes: counting from the first, the requests below
    the limit pass and all the others are refused (the first passes even
    with limit 0). *)
Theorem X21_ip_limiter_counts_all_accounts (attempts : gmap string Attempt)
  (req : AuthRequest) (t0 : Z) (requests : list (AuthRequest * Z)) :
  attempts !! ipKey req = None ->
  (forall rt, In rt requests -> ipKey rt.1 = ipKey req /\ (rt.2 <= t0 + windowMs)%Z) ->
  List.map passed (fst (runByIp maxAttempts windowMs ((req, t0) :: requests) attempts))
  = imap (fun i _ => Nat.ltb i (Nat.max 1 maxAttempts)) ((req, t0) :: requests).
Proof.
  intros Hfresh Hall. cbn [runByIp imap]. unfold rateLimitAuthByIp at 1. rewrite Hfresh.
  pose proof (runByIp_window (ipKey req) (t0 + windowMs)%Z requests
                (<[ipKey req := {| count := 1; resetTime := (t0 + windowMs)%Z |}]> attempts)
                1 (lookup_insert_eq _ _ _) Hall) as Hwin.
  destruct (runByIp maxAttempts windowMs requests _) as [os f]. cbn [fst List.map] in *.
  cbn [passed]. f_equal; [now destruct maxAttempts|].
  rewrite Hwin. apply imap_ext. intros i rt _. cbv beta. unfold compose.
  destruct (Nat.ltb_spec (1 + i) maxAttempts), (Nat.ltb_spec (S i) (Nat.max 1 maxAttempts));
    try lia; reflexivity.
Qed.

Lemma cleanup_none (now : Z) (m : gmap string Attempt) (k : string) :
  m !! k = None -> cleanup now m !! k = None.
Proof.
  intros Hk. destruct (cleanup now m !! k) as [a|] eqn:Hc; [|reflexivity].
  apply cleanup_subset in Hc. congruence.
Qed.

Lemma run_new_keys (events : list Event) :
  forall m : gmap string Attempt,
    NoDup (requestKeys events) ->
    (forall k, In k (requestKeys events) -> m !! k = None) ->
    forall o, In o (fst (run maxAttempts windowMs events m)) -> o = Next.
Proof.
  induction events as [|e events IH]; intros m Hnd Hnew o; [intros []|].
  destruct e as [req now | now]; cbn [run requestKeys] in *.
  - apply NoDup_cons in Hnd. destruct Hnd as [Hfirst Hnd].
    unfold rateLimitAuth. rewrite (Hnew (attemptKey req) (or_introl eq_refl)).
    specialize (IH (<[attemptKey req := {| count := 1; resetTime := (now + windowMs)%Z |}]> m)
                  Hnd).
    destruct (run maxAttempts windowMs events _) as [os f]. cbn [fst] in *.
    intros [<- | Hin]; [reflexivity|]. apply IH; [|assumption].
    intros k Hk. rewrite lookup_insert_ne; [apply Hnew; now right|].
    intros <-. apply Hfirst. now apply list_elem_of_In.
  - apply IH; [assumption|]. intros k Hk. apply cleanup_none. now apply Hnew.
Qed.

(** X22: the limiter by address and account never refuses a key it has not
    seen.  From the empty map, in a run in which no two requests have the
    same key (one address naming a new account each time, say), every
    request passes, however many there are and whatever the limit. *)
Theorem X22_account_limiter_passes_new_keys (events : list Event) :
  NoDup (requestKeys events) ->
  forall o, In o (fst (run maxAttempts windowMs events ∅)) -> o = Next.
Proof.
  intros Hnd. apply run_new_keys; [assumption|]. intros k _. apply lookup_empty.
Qed.

End TwoLimiters.

Lemma X21_stuffing_is_stopped :
  List.map passed (fst (AuthMiddleware.runByIp 3 900000 Scenario.stuffing ∅))
  = [true; true; true; false].
Proof.
  apply (X21_ip_limiter_counts_all_accounts 3 900000 ∅
           (Sample.loginFrom "10.0.0.9" "alice@example.com") 1000
           [ (Sample.loginFrom "10.0.0.9" "bob@example.com", 2000%Z);
             (Sample.loginFrom "10.0.0.9" "carol@example.com", 3000%Z);
             (Sample.loginFrom "10.0.0.9" "dave@example.com", 4000%Z) ]).
  - apply lookup_empty.
  - intros rt [<- | [<- | [<- | []]]]; (split; [reflexivity | cbn [snd]; lia]).
Defined.

Lemma X22_stuffing_is_not_stopped :
  NoDup (requestKeys
           (List.map (fun rt => AuthMiddleware.Incoming rt.1 rt.2) Scenario.stuffing))
  /\ forall o,
       In o (fst (AuthMiddleware.run 3 900000
                    (List.map (fun rt => AuthMiddleware.Incoming rt.1 rt.2)
                       Scenario.stuffing) ∅)) ->
       o = AuthMiddleware.Next.
Proof.
  assert (Hnd : NoDup (requestKeys
                         (List.map (fun rt => AuthMiddleware.Incoming rt.1 rt.2)
                            Scenario.stuffing)))
    by (apply (bool_decide_unpack _); vm_compute; exact I).
  split; [exact Hnd|].
  exact (X22_account_limiter_passes_new_keys 3 900000 _ Hnd).
Defined.

Lemma X16_alice_among_others :
  outcomesOf (AuthMiddleware.attemptKey Sample.alice) Scenario.day
    (fst (AuthMiddleware.run 2 900000 Scenario.day ∅))
  = outcomesOf (AuthMiddleware.attemptKey Sample.alice)
      (onlyKey (AuthMiddleware.attemptKey Sample.alice) Scenario.day)
      (fst (AuthMiddleware.run 2 900000
              (onlyKey (AuthMiddleware.attemptKey Sample.alice) Scenario.day)
              {[ AuthMiddleware.attemptKey Sample.bob :=
                   {| AuthMiddleware.count := 2; AuthMiddleware.resetTime := 900000 |} ]})).
Proof.
  apply X16_keys_do_not_interfere. vm_compute. reflexivity.
Defined.

(** ** The key of the limiter *)

Section LimiterKey.

Import AuthMiddleware.

Implicit Types (attempts m : gmap string Attempt) (events : list Event).

Lemma append_assoc (s t u : string) : ((s ++ t) ++ u)%string = (s ++ (t ++ u))%string.
Proof.
  induction s as [|c s IH]; [reflexivity|].
  change (String c ((s ++ t) ++ u) = String c (s ++ (t ++ u)))%string. now f_equal.
Qed.

Lemma orElse_some (s d : string) : s <> EmptyString -> Js.orElse (Some s) d = s.
Proof. destruct s; [congruence | reflexivity]. Qed.

Lemma attemptKey_pair (req : AuthRequest) :
  attemptKey req = (ipKey req ++ String ":" (emailOf req))%string.
Proof. reflexivity. Qed.

Lemma colon_splits (i1 i2 e1 e2 : string) :
  colonFree i1 = true -> colonFree i2 = true ->
  (i1 ++ String ":" e1)%string = (i2 ++ String ":" e2)%string ->
  i1 = i2 /\ e1 = e2.
Proof.
  revert i2. induction i1 as [|c i1 IH]; intros [|d i2] Hfree1 Hfree2 Heq.
  - cbn [String.append] in Heq. injection Heq as ->. now split.
  - exfalso. cbn [String.append] in Heq. injection Heq as <- _.
    cbn [colonFree] in Hfree2. now rewrite Ascii.eqb_refl in Hfree2.
  - exfalso. cbn [String.append] in Heq. injection Heq as -> _.
    cbn [colonFree] in Hfree1. now rewrite Ascii.eqb_refl in Hfree1.
  - cbn [String.append] in Heq. injection Heq as -> Heq.
    cbn [colonFree] in Hfree1, Hfree2.
    apply andb_true_iff in Hfree1, Hfree2.
    destruct (IH i2 (proj2 Hfree1) (proj2 Hfree2) Heq) as [-> ->]. now split.
Qed.

(** With addresses that have no colon, the key tells the pair. *)
Lemma key_of_pair (r1 r2 : AuthRequest) :
  colonFree (ipKey r1) = true -> colonFree (ipKey r2) = true ->
  String.eqb (attemptKey r1) (attemptKey r2) = samePair r1 r2.
Proof.
  intros Hfree1 Hfree2. unfold samePair. rewrite !attemptKey_pair.
  destruct (String.eqb_spec (ipKey r1 ++ String ":" (emailOf r1))
              (ipKey r2 ++ String ":" (emailOf r2))) as [Heq | Hne].
  - destruct (colon_splits _ _ _ _ Hfree1 Hfree2 Heq) as [-> ->].
    now rewrite !String.eqb_refl.
  - destruct (String.eqb_spec (ipKey r1) (ipKey r2)) as [Hip | _]; [|reflexivity].
    destruct (String.eqb_spec (emailOf r1) (emailOf r2)) as [Hemail | _]; [|reflexivity].
    exfalso. apply Hne. now rewrite Hip, Hemail.
Qed.

Lemma requestTimes_of_pair (req : AuthRequest) events :
  colonFree (ipKey req) = true ->
  (forall r t, In (Incoming r t) events -> colonFree (ipKey r) = true) ->
  requestTimes (attemptKey req) events = pairTimes req events.
Proof.
  intros Hfree Hall. induction events as [|e events IH]; [reflexivity|].
  assert (Hrest : forall r t, In (Incoming r t) events -> colonFree (ipKey r) = true)
    by (intros r t Hin; apply (Hall r t); now right).
  destruct e as [r now | now]; cbn [requestTimes pairTimes]; [|now apply IH].
  rewrite (key_of_pair r req (Hall r now (or_introl eq_refl)) Hfree), (IH Hrest).
  reflexivity.
Qed.

Lemma outcomesOf_pair (req : AuthRequest) events :
  colonFree (ipKey req) = true ->
  (forall r t, In (Incoming r t) events -> colonFree (ipKey r) = true) ->
  forall outcomes,
    outcomesOf (attemptKey req) events outcomes = pairOutcomes req events outcomes.
Proof.
  intros Hfree Hall. induction events as [|e events IH]; intros outcomes; [reflexivity|].
  assert (Hrest : forall r t, In (Incoming r t) events -> colonFree (ipKey r) = true)
    by (intros r t Hin; apply (Hall r t); now right).
  destruct e as [r now | now]; cbn [outcomesOf pairOutcomes]; [|now apply IH].
  destruct outcomes as [|o os]; [reflexivity|].
  rewrite (key_of_pair r req (Hall r now (or_introl eq_refl)) Hfree), (IH Hrest os).
  reflexivity.
Qed.

(** X23: between addresses that have no colon (the dotted addresses of
    IPv4), the limiter counts per pair of address and email.  Take a request
    at [t0] whose key has no open window, and any run of later events up to
    the end [t0 + windowMs] of the window it opens: requests of this and of
    other pairs, and sweeps.  Then, counting from the first, the requests of
    this address with this email below the limit pass, and all its others
    are refused with status 429 and the number of minutes left, rounded up;
    requests from another address or naming another email are not counted.
    The entry still closes at [t0 + windowMs], and the next such request
    after that time passes and restarts the count at 1.  The defaults are 5
    attempts and 15 minutes. *)
Theorem X23_limiter_counts_per_address_and_email (maxAttempts : nat) (windowMs : Z) attempts
  (req : AuthRequest) (t0 : Z) events :
  let key := attemptKey req in
  let closes := (t0 + windowMs)%Z in
  let whole := Incoming req t0 :: events in
  (attempts !! key = None \/ exists a, attempts !! key = Some a /\ (resetTime a < t0)%Z) ->
  (forall e, In e events -> (eventTime e <= closes)%Z) ->
  (forall r t, In (Incoming r t) whole -> colonFree (ipKey r) = true) ->
  pairOutcomes req whole (fst (run maxAttempts windowMs whole attempts))
  = imap (fun i t => (t, if Nat.ltb i (Nat.max 1 maxAttempts) then Next else refusal closes t))
      (t0 :: pairTimes req events)
  /\ (exists c, snd (run maxAttempts windowMs whole attempts) !! key
                = Some {| count := c; resetTime := closes |})
  /\ (forall later, (closes < later)%Z ->
        rateLimitAuth maxAttempts windowMs req later
          (snd (run maxAttempts windowMs whole attempts))
        = (Next, <[key := {| count := 1; resetTime := (later + windowMs)%Z |}]>
                   (snd (run maxAttempts windowMs whole attempts))))
  /\ defaultMaxAttempts = 5 /\ defaultWindowMs = 900000%Z.
Proof.
  intros key closes whole Hfresh Htimes Hfree.
  assert (Hreq : colonFree (ipKey req) = true)
    by (apply (Hfree req t0); now left).
  assert (Hrest : forall r t, In (Incoming r t) events -> colonFree (ipKey r) = true)
    by (intros r t Hin; apply (Hfree r t); now right).
  destruct (rateLimitAuth_window_by_key maxAttempts windowMs attempts req t0 events
              Hfresh Htimes) as (Hout & Hentry & Hlater & Hdefaults).
  split; [|split; [|split]]; [|exact Hentry | exact Hlater | exact Hdefaults].
  rewrite <- (outcomesOf_pair req whole Hreq Hfree).
  rewrite <- (requestTimes_of_pair req events Hreq Hrest). exact Hout.
Qed.

(** In an open window, requests of the key pass until the count is full, and
    the next request of the key is refused, whichever request it is. *)
Lemma run_until_full (maxAttempts : nat) (windowMs : Z) (req other : AuthRequest)
  (t0 t1 R : Z) (k : nat) :
  attemptKey other = attemptKey req -> (t0 <= R)%Z -> (t1 <= R)%Z ->
  forall m (c : nat),
    m !! attemptKey req = Some {| count := c; resetTime := R |} ->
    1 <= c -> c + k = Nat.max 1 maxAttempts ->
    fst (run maxAttempts windowMs (repeat (Incoming req t0) k ++ [Incoming other t1]) m)
    = repeat Next k ++ [refusal R t1].
Proof.
  intros Hkey Ht0 Ht1. induction k as [|k IH]; intros m c Hentry Hc Hfull.
  - cbn [repeat app run].
    assert (Hother : m !! attemptKey other = Some {| count := c; resetTime := R |})
      by now rewrite Hkey.
    rewrite (rateLimitAuth_open maxAttempts windowMs other t1 m c R Hother Ht1).
    destruct (Nat.ltb_spec c maxAttempts); [lia | reflexivity].
  - cbn [repeat app run].
    rewrite (rateLimitAuth_open maxAttempts windowMs req t0 m c R Hentry Ht0).
    destruct (Nat.ltb_spec c maxAttempts); [|lia].
    specialize (IH (<[attemptKey req := {| count := S c; resetTime := R |}]> m) (S c)
                  (lookup_insert_eq _ _ _)).
    destruct (run maxAttempts windowMs (repeat (Incoming req t0) k ++ [Incoming other t1]) _)
      as [os final].
    cbn [fst] in *. f_equal. apply IH; lia.
Qed.

(** C9: the key is the text [ip:email], and two different pairs can make the
    same text.  A request from the address [a] naming the email [b:c] and a
    request from the address [a:b] naming the email [c] come from different
    addresses and name different emails, and they have one key, so one
    counter: after the requests of the first pair have used up the limit of
    a window, a request of the second pair, which the limiter has never
    seen, is refused. *)
Theorem C9_pairs_share_a_counter (maxAttempts : nat) (windowMs : Z) (a b c : string)
  (t0 t1 : Z) :
  let first := {| req_ip := Some a; req_remoteAddress := None;
                  req_body_email := Some (b ++ String ":" c)%string |} in
  let second := {| req_ip := Some (a ++ String ":" b)%string; req_remoteAddress := None;
                   req_body_email := Some c |} in
  a <> EmptyString -> c <> EmptyString ->
  (0 <= windowMs)%Z -> (t1 <= t0 + windowMs)%Z ->
  ipKey first <> ipKey second
  /\ emailOf first <> emailOf second
  /\ attemptKey first = attemptKey second
  /\ fst (run maxAttempts windowMs
            (repeat (Incoming first t0) (Nat.max 1 maxAttempts) ++ [Incoming second t1]) ∅)
     = repeat Next (Nat.max 1 maxAttempts) ++ [refusal (t0 + windowMs) t1].
Proof.
  intros first second Ha Hc Hwindow Ht1.
  assert (Hip1 : ipKey first = a) by (apply orElse_some; exact Ha).
  assert (Hip2 : ipKey second = (a ++ String ":" b)%string)
    by (apply orElse_some; destruct a; [congruence | discriminate]).
  assert (Hmail1 : emailOf first = (b ++ String ":" c)%string)
    by (apply orElse_some; destruct b; discriminate).
  assert (Hmail2 : emailOf second = c) by (apply orElse_some; exact Hc).
  assert (Hkey : attemptKey first = attemptKey second).
  { rewrite !attemptKey_pair, Hip1, Hip2, Hmail1, Hmail2.
    change (a ++ String ":" (b ++ String ":" c))%string
      with (a ++ (String ":" b ++ String ":" c))%string.
    rewrite <- append_assoc. reflexivity. }
  split; [|split; [|split]].
  - rewrite Hip1, Hip2. intros Heq. apply (f_equal String.length) in Heq.
    rewrite length_append in Heq. cbn [String.length] in Heq. lia.
  - rewrite Hmail1, Hmail2. intros Heq. apply (f_equal String.length) in Heq.
    rewrite length_append in Heq. cbn [String.length] in Heq. lia.
  - exact Hkey.
  - destruct (Nat.max 1 maxAttempts) as [|k] eqn:Hmax; [lia|].
    cbn [repeat app run].
    rewrite (rateLimitAuth_fresh maxAttempts windowMs first t0 ∅ (or_introl (lookup_empty _))).
    pose proof (run_until_full maxAttempts windowMs first second t0 t1 (t0 + windowMs)%Z k
                  (eq_sym Hkey) ltac:(lia) Ht1
                  (<[attemptKey first := {| count := 1; resetTime := (t0 + windowMs)%Z |}]> ∅)
                  1 (lookup_insert_eq _ _ _) (le_n 1)) as Hrest.
    destruct (run maxAttempts windowMs (repeat (Incoming first t0) k ++ [Incoming second t1]) _)
      as [os final].
    cbn [fst] in *. f_equal. apply Hrest. lia.
Qed.

End LimiterKey.

Lemma C9_alice_locked_out_by_another_pair :
  AuthMiddleware.ipKey Scenario.mallory <> AuthMiddleware.ipKey Scenario.aliceAtHome
  /\ emailOf Scenario.mallory <> emailOf Scenario.aliceAtHome
  /\ fst (AuthMiddleware.run AuthMiddleware.defaultMaxAttempts AuthMiddleware.defaultWindowMs
            (repeat (AuthMiddleware.Incoming Scenario.mallory 1000%Z) 5
               ++ [AuthMiddleware.Incoming Scenario.aliceAtHome 61000%Z]) ∅)
     = repeat AuthMiddleware.Next 5
         ++ [AuthMiddleware.Reply 429
               "Too many failed attempts, please try again in 14 minutes."].
Proof.
  destruct (C9_pairs_share_a_counter AuthMiddleware.defaultMaxAttempts
              AuthMiddleware.defaultWindowMs "2001:db8::a" "b" "alice@example.com"
              1000%Z 61000%Z) as (Hip & Hmail & _ & Hrun);
    [discriminate | discriminate | vm_compute; discriminate | vm_compute; discriminate |].
  split; [exact Hip|]. split; [exact Hmail|]. exact Hrun.
Defined.

Lemma X23_limiter_on_sample :
  let whole := AuthMiddleware.Incoming Sample.alice 1000%Z :: Sample.traffic in
  let final :=
    snd (AuthMiddleware.run AuthMiddleware.defaultMaxAttempts AuthMiddleware.defaultWindowMs
           whole ∅) in
  pairOutcomes Sample.alice whole
    (fst (AuthMiddleware.run AuthMiddleware.defaultMaxAttempts AuthMiddleware.defaultWindowMs
            whole ∅))
  = [ (1000%Z, AuthMiddleware.Next);
      (2000%Z, AuthMiddleware.Next);
      (3000%Z, AuthMiddleware.Next);
      (310000%Z, AuthMiddleware.Next);
      (320000%Z, AuthMiddleware.Next);
      (340000%Z,
       AuthMiddleware.Reply 429
         "Too many failed attempts, please try again in 10 minutes.") ]
  /\ fst (AuthMiddleware.rateLimitAuth AuthMiddleware.defaultMaxAttempts
            AuthMiddleware.defaultWindowMs Sample.alice 901001%Z final)
     = AuthMiddleware.Next.
Proof.
  intros whole final.
  destruct (X23_limiter_counts_per_address_and_email AuthMiddleware.defaultMaxAttempts
              AuthMiddleware.defaultWindowMs ∅ Sample.alice 1000%Z Sample.traffic)
    as (Hout & _ & Hreset & _).
  - left. reflexivity.
  - intros e Hin. unfold Sample.traffic in Hin. simpl in Hin.
    repeat (destruct Hin as [<- | Hin]); try contradiction; vm_compute; discriminate.
  - intros r t Hin. unfold Sample.traffic in Hin. simpl in Hin.
    repeat (destruct Hin as [Heq | Hin]); try contradiction;
      try discriminate Heq; injection Heq as <- _; reflexivity.
  - split.
    + unfold whole. rewrite Hout. vm_compute. reflexivity.
    + unfold final, whole. rewrite (Hreset 901001%Z); [reflexivity|]. vm_compute. reflexivity.
Defined.
